(** * infi.projector: scoped state and pipeline orchestration

    A shallow embedding of the three modules of the tool
    - [infi/projector/helper/utils/__init__.py]
    - [infi/projector/plugins/builtins/repository/__init__.py]
    - [infi/projector/plugins/builtins/build/__init__.py]
    as state-passing functions over an explicit process state, followed by
    the properties of the parameter stack, the configuration store, the
    build pipeline and the repository pipeline. *)

From Stdlib Require Import Ascii String List ZArith Lia.
From stdpp Require Import base option list strings gmap fin_maps.

Local Open Scope string_scope.
Local Open Scope list_scope.

(** ** Python string primitives *)

Module PyStr.

(** [s.split(sep)] for a one-character separator: never empty, one more
    field than there are separators. *)
Fixpoint split (sep : ascii) (s : string) : list string :=
  match s with
  | EmptyString => [ "" ]
  | String c s' =>
      if Ascii.eqb c sep then "" :: split sep s'
      else match split sep s' with
           | [] => [ String c "" ]
           | w :: ws => String c w :: ws
           end
  end.

(** [sep.join(items)] *)
Fixpoint join (sep : string) (items : list string) : string :=
  match items with
  | [] => ""
  | [ x ] => x
  | x :: rest => x +:+ sep +:+ join sep rest
  end.

(** [s.startswith(p)] *)
Fixpoint startswith (s p : string) : bool :=
  match p, s with
  | EmptyString, _ => true
  | String a p', String b s' => Ascii.eqb a b && startswith s' p'
  | String _ _, EmptyString => false
  end.

(** [s.endswith(p)] *)
Definition endswith (s p : string) : bool :=
  let n := String.length s in
  let k := String.length p in
  (k <=? n)%nat && String.eqb (String.substring (n - k) k s) p.

(** [s[0:-k]] *)
Definition drop_right (k : nat) (s : string) : string :=
  String.substring 0 (String.length s - k) s.

(** [s.replace(a, b)] for single characters. *)
Fixpoint replace_char (a : ascii) (b : string) (s : string) : string :=
  match s with
  | EmptyString => ""
  | String c s' =>
      (if Ascii.eqb c a then b else String c "") +:+ replace_char a b s'
  end.

(** [s.replace(old, new)] for a non-empty [old]. *)
Fixpoint replace_go (old new : string) (skip : nat) (s : string) : string :=
  match s with
  | EmptyString => ""
  | String c s' =>
      match skip with
      | S k => replace_go old new k s'
      | O => if startswith s old
             then new +:+ replace_go old new (String.length old - 1) s'
             else String c (replace_go old new 0 s')
      end
  end.
Definition replace (old new s : string) : string := replace_go old new 0 s.

(** [s.lstrip()], [s.rstrip()] and [s.strip()] *)
Fixpoint lstrip (s : string) : string :=
  match s with
  | String c s' => if Ascii.is_space c then lstrip s' else s
  | EmptyString => ""
  end.
Definition rstrip (s : string) : string := String.rev (lstrip (String.rev s)).
Definition strip (s : string) : string := rstrip (lstrip s).

(** [fd.readlines()[0]] of a non-empty text. *)
Fixpoint first_line (s : string) : string :=
  match s with
  | EmptyString => ""
  | String c s' => if Ascii.eqb c "010" then String c "" else String c (first_line s')
  end.

(** [s.splitlines()] of a byte string: a line ends at a line feed, at a
    carriage return, or at the two in this order; what follows the last line
    end is a line when it is not empty.  [line] is the part of the current
    line that has been read. *)
Fixpoint splitlines_from (line s : string) : list string :=
  match s with
  | EmptyString => if String.eqb line "" then [] else [ line ]
  | String c s' =>
      if Ascii.eqb c "010" then line :: splitlines_from "" s'
      else if Ascii.eqb c "013"
      then line :: splitlines_from "" (match s' with
                                       | String "010" s'' => s''
                                       | _ => s'
                                       end)
      else splitlines_from (line +:+ String c "") s'
  end.
Definition splitlines (s : string) : list string := splitlines_from "" s.

End PyStr.

(** Python list primitives. *)
Module PyList.

(** [l.remove(x)] when [x in l]: the first occurrence goes. *)
Fixpoint remove (x : string) (l : list string) : list string :=
  match l with
  | [] => []
  | y :: rest => if String.eqb y x then rest else y :: remove x rest
  end.

End PyList.

(** ** Namespace derivation (repository plugin) *)

(** One iteration of the loop body of [get_package_namespace]:
    [namespaces.append('.'.join([namespaces[-1], item]) if namespaces else item)]. *)
Definition namespace_append (namespaces : list string) (item : string) : list string :=
  namespaces ++
  [ match last namespaces with
    | Some prev => PyStr.join "." [ prev; item ]
    | None => item
    end ].

(** [get_package_namespace(name)]: the loop runs over [name.split('.')[:-1]]. *)
Definition get_package_namespace (name : string) : list string :=
  fold_left namespace_append (removelast (PyStr.split "." name)) [].

(** The values appended after [prev] by the remaining iterations of that
    loop (used to describe the result, not part of the program). *)
Fixpoint chain (prev : string) (items : list string) : list string :=
  match items with
  | [] => []
  | i :: rest => (prev +:+ "." +:+ i) :: chain (prev +:+ "." +:+ i) rest
  end.

(** ** Python values, exceptions and command arguments *)

(** The exceptions the three modules raise or let through. *)
Inductive Exn : Type :=
| SystemExit (status : Z)
| TypeError (message : string)
| AttributeError
| ValueError
| IndexError
| OSError
| IOError
| ExecutionError            (* infi.execute: non-zero exit of a child process *)
| ConfigParserError         (* NoSectionError, NoOptionError, ParsingError, ... *)
| CollaboratorError.        (* gitpy / gitflow failures *)

(** Outcome of running a statement: it returns a value or raises. *)
Inductive Result (A : Type) : Type :=
| Ok (value : A)
| Raise (exn : Exn).
Arguments Ok {A} value.
Arguments Raise {A} exn.

(** The values docopt stores in the arguments dict, and the values handed to
    [ConfigParser.set]. *)
Inductive PyValue : Type :=
| PyNone
| PyBool (b : bool)
| PyStr (s : string)
| PyList (items : list string).

(** Python truthiness. *)
Definition truthy (v : PyValue) : bool :=
  match v with
  | PyNone => false
  | PyBool b => b
  | PyStr s => negb (String.eqb s "")
  | PyList l => negb (bool_decide (l = []))
  end.

(** The docopt result: a dict from flag or positional name to value. *)
Abbreviation Arguments := (gmap string PyValue).

(** [arguments.get(key)] and [arguments.get(key, False)]. *)
Definition args_get (arguments : Arguments) (key : string) : PyValue :=
  default PyNone (arguments !! key).
Definition args_get_or_false (arguments : Arguments) (key : string) : PyValue :=
  default (PyBool false) (arguments !! key).

(** [a or b] *)
Definition py_or (a b : PyValue) : PyValue := if truthy a then a else b.

(** ** The host: POSIX paths and a file system *)

(** The model describes the tool on a POSIX host: [os.name] is "posix",
    [os.sep] is "/" and [os.curdir] is ".". *)
Definition os_name : string := "posix".
Definition os_sep : ascii := "/"%char.
Definition os_curdir : string := ".".

Module os_path.

Definition isabs (p : string) : bool := PyStr.startswith p "/".

(** [posixpath.join(a, b)] *)
Definition join (a b : string) : string :=
  if isabs b then b
  else if String.eqb a "" || PyStr.endswith a "/" then a +:+ b
  else a +:+ "/" +:+ b.

(** One iteration of the component loop of [posixpath.normpath]. *)
Definition normpath_step (initial_slashes : nat) (new_comps : list string) (comp : string)
  : list string :=
  if String.eqb comp "" || String.eqb comp "." then new_comps
  else if negb (String.eqb comp "..")
          || (Nat.eqb initial_slashes 0 && bool_decide (new_comps = []))
          || bool_decide (last new_comps = Some "..")
       then new_comps ++ [ comp ]
       else removelast new_comps.

Fixpoint slashes (n : nat) : string :=
  match n with O => "" | S n' => String "/" (slashes n') end.

(** [posixpath.normpath(path)] *)
Definition normpath (path : string) : string :=
  if String.eqb path "" then "."
  else
    let initial_slashes :=
      if PyStr.startswith path "/"
      then (if PyStr.startswith path "//" && negb (PyStr.startswith path "///") then 2 else 1)
      else 0 in
    let comps := fold_left (normpath_step initial_slashes) (PyStr.split "/" path) [] in
    let joined := slashes initial_slashes +:+ PyStr.join "/" comps in
    if String.eqb joined "" then "." else joined.

(** [posixpath.abspath(path)] in a process whose working directory is [cwd]. *)
Definition abspath (cwd path : string) : string :=
  if isabs path then normpath path else normpath (join cwd path).

(** [posixpath.basename(path)] *)
Definition basename (path : string) : string :=
  default "" (last (PyStr.split "/" path)).

End os_path.

(** A file-system entry; the file system maps normalised absolute paths to
    entries.  There are no links and no permissions: a path names what it
    spells, and a call fails only for what is or is not there. *)
Inductive Node : Type :=
| File (content : string)
| Dir.

Abbreviation FileSystem := (gmap string Node).

Definition is_dir_node (n : option Node) : bool :=
  match n with Some Dir => true | _ => false end.

(** The proper ancestors of an absolute path, nearest last ("/a/b/c" gives
    "/a" and "/a/b"); the root is always present and is left out. *)
Fixpoint prefixes_from (prev : string) (items : list string) : list string :=
  match items with
  | [] => []
  | c :: more => (prev +:+ "/" +:+ c) :: prefixes_from (prev +:+ "/" +:+ c) more
  end.

Definition ancestors (path : string) : list string :=
  match removelast (PyStr.split "/" path) with
  | [] => []
  | i :: rest => filter (fun p => p <> "") (i :: prefixes_from i rest)
  end.

Definition mkdir_if_missing (files : FileSystem) (path : string) : FileSystem :=
  match files !! path with
  | None => <[path := Dir]> files
  | Some _ => files
  end.

(** Whether an entry can be made at [target], which has none: the
    directory it goes to is there (the root always is), and [target] is not
    the root itself. *)
Definition can_create (files : FileSystem) (target : string) : bool :=
  negb (String.eqb target "/")
  && match last (ancestors target) with
     | Some parent => is_dir_node (files !! parent)
     | None => true
     end.

(** Whether [open(target, 'w')] succeeds: on a file that is there, or on
    a name that is free in a directory that is there; never on a
    directory. *)
Definition can_open_for_writing (files : FileSystem) (target : string) : bool :=
  match files !! target with
  | Some Dir => false
  | Some (File _) => true
  | None => can_create files target
  end.

(** Removal of a directory tree: the entry and everything below it. *)
Definition remove_tree (files : FileSystem) (path : string) : FileSystem :=
  filter (fun kv => negb (String.eqb kv.1 path || PyStr.startswith kv.1 (path +:+ "/")) = true)
         files.

(** ** Libraries and collaborators outside the repository *)

(** The part of the standard [ConfigParser] class the tool calls.  A parser
    object is a value of type [Parser]; [cp_read_text] is the parsing done by
    [ConfigParser.read] on the text of a file that could be opened and
    [cp_write] is the text [ConfigParser.write] produces. *)
Class ConfigParserLib : Type := {
  Parser : Type;
  cp_new : Parser;
  cp_read_text : string -> Parser -> Result Parser;
  cp_sections : Parser -> list string;
  cp_has_option : Parser -> string -> string -> bool;
  cp_get : Parser -> string -> string -> Result string;
  cp_set : Parser -> string -> string -> PyValue -> Result Parser;
  cp_write : Parser -> string;
  (* [set] on a parser that has read nothing: only the defaults can be set,
     any other section is missing ([NoSectionError]) *)
  cp_set_no_section : forall section option value,
    section <> "" -> section <> "DEFAULT" ->
    exists e, cp_set cp_new section option value = Raise e
}.

(** Calls that leave the process: child processes run through
    [infi.execute], the version-control library and the branching workflow. *)
Inductive Call : Type :=
| Execute (args : list string)
| GitInit
| GitAddRemote (name : string) (url : PyValue)
| GitClone (url : PyValue)
| GitCheckout (branch : string)
| GitAdd (path : string)
| GitAddAll
| GitCommit (message : string) (allowEmpty : bool)
| GitCreateTag (tag : string)
| GitFlowInit
| GitFlowCreate (kind version : string)
| GitFlowFinish (kind version : string).

(** What the surroundings of the process decide: whether a call succeeds and
    what it does to the files, the interpreter and platform the tool runs on,
    the clock-based identifiers, and the template files of the skeleton. *)
Class Surroundings : Type := {
  perform : Call -> string -> FileSystem -> bool * FileSystem;
  uuid1 : nat -> string;
  platform_system : string;
  sys_executable : string;
  sys_has_real_prefix : bool;
  skeleton_get_files : list string;
  shebang_is_isolated_python : option Node -> bool
}.

(** Effects on the host, in the order they happen. *)
Inductive Event : Type :=
| EvCall (call : Call)
| EvWrite (path : string)
| EvAppend (path : string)
| EvCopy (src dst : string)
| EvMkdir (path : string)
| EvMakedirs (path : string)
| EvRemove (path : string)
| EvRmtree (path : string)
| EvChdir (path : string).

(** * The program *)

Section Program.

Context {CP : ConfigParserLib} {SR : Surroundings}.

(** ** Process state and the statement monad *)

(** [BUILDOUT_PARAMETERS] is the module-level list of [helper.utils];
    [parsers] holds the [ConfigParser] objects created so far, a handle is
    an index into it. *)
Record State : Type := mkState {
  BUILDOUT_PARAMETERS : list string;
  cwd : string;
  files : FileSystem;
  trace : list Event;
  parsers : list Parser;
  uuid_clock : nat
}.

Definition M (A : Type) : Type := State -> Result A * State.

#[export] Instance M_ret : MRet M := fun A (x : A) s => (Ok x, s).
#[export] Instance M_bind : MBind M := fun A B (f : A -> M B) (m : M A) s =>
  match m s with
  | (Ok x, s') => f x s'
  | (Raise e, s') => (Raise e, s')
  end.

Definition raise {A} (e : Exn) : M A := fun s => (Raise e, s).
Definition get_state : M State := fun s => (Ok s, s).
Definition log (e : Event) : M unit := fun s =>
  (Ok tt, mkState (BUILDOUT_PARAMETERS s) (cwd s) (files s) (trace s ++ [ e ])
                  (parsers s) (uuid_clock s)).
Definition set_files (f : FileSystem) : M unit := fun s =>
  (Ok tt, mkState (BUILDOUT_PARAMETERS s) (cwd s) f (trace s) (parsers s) (uuid_clock s)).
Definition set_cwd (d : string) : M unit := fun s =>
  (Ok tt, mkState (BUILDOUT_PARAMETERS s) d (files s) (trace s) (parsers s) (uuid_clock s)).
Definition set_parameters (l : list string) : M unit := fun s =>
  (Ok tt, mkState l (cwd s) (files s) (trace s) (parsers s) (uuid_clock s)).
Definition set_parsers (l : list Parser) : M unit := fun s =>
  (Ok tt, mkState (BUILDOUT_PARAMETERS s) (cwd s) (files s) (trace s) l (uuid_clock s)).
Definition tick : M nat := fun s =>
  (Ok (uuid_clock s),
   mkState (BUILDOUT_PARAMETERS s) (cwd s) (files s) (trace s) (parsers s) (S (uuid_clock s))).

(** [try: body finally: cleanup] *)
Definition try_finally {A} (body : M A) (cleanup : M unit) : M A := fun s =>
  let (r, s1) := body s in
  match cleanup s1 with
  | (Ok _, s2) => (r, s2)
  | (Raise e, s2) => (Raise e, s2)
  end.

(** [try: body except ExecutionError: handler] *)
Definition try_except_ExecutionError {A} (body handler : M A) : M A := fun s =>
  match body s with
  | (Raise ExecutionError, s1) => handler s1
  | other => other
  end.

Definition when (b : bool) (m : M unit) : M unit := if b then m else mret tt.

(** [for x in items: body(x)] *)
Fixpoint for_each {A} (items : list A) (body : A -> M unit) : M unit :=
  match items with
  | [] => mret tt
  | x :: rest => body x ;; for_each rest body
  end.

(** ** [os], [os.path] and [shutil] on the modelled file system *)

Definition resolve (s : State) (path : string) : string := os_path.abspath (cwd s) path.

Definition os_path_abspath (path : string) : M string :=
  s ← get_state; mret (resolve s path).

(** The entry a path names to a system call.  The empty path names
    nothing: [os.path.exists('')] is false, and [os.chdir], [os.mkdir],
    [os.makedirs] and [open] fail on it, although [abspath('')] is the
    working directory. *)
Definition entry (s : State) (path : string) : option Node :=
  if String.eqb path "" then None else files s !! resolve s path.

(** Whether [open(path, 'w')] succeeds in [s]. *)
Definition can_write (s : State) (path : string) : bool :=
  negb (String.eqb path "") && can_open_for_writing (files s) (resolve s path).

Definition os_path_exists (path : string) : M bool :=
  s ← get_state; mret (bool_decide (is_Some (entry s path))).

Definition os_path_isdir (path : string) : M bool :=
  s ← get_state; mret (is_dir_node (entry s path)).

Definition os_chdir (path : string) : M unit :=
  s ← get_state;
  let target := resolve s path in
  if is_dir_node (entry s path)
  then set_cwd target ;; log (EvChdir target)
  else raise OSError.

(** [os.mkdir(path)]: the name must be free and its directory there. *)
Definition os_mkdir (path : string) : M unit :=
  s ← get_state;
  let target := resolve s path in
  if String.eqb path "" then raise OSError
  else match files s !! target with
       | Some _ => raise OSError
       | None =>
           if can_create (files s) target
           then set_files (<[target := Dir]> (files s)) ;; log (EvMkdir target)
           else raise OSError
       end.

(** [os.makedirs(path)]: the name must be free; the missing directories
    above it are made, a plain file among them makes it fail. *)
Definition os_makedirs (path : string) : M unit :=
  s ← get_state;
  let target := resolve s path in
  if String.eqb path "" || String.eqb target "/"
     || bool_decide (is_Some (files s !! target))
     || existsb (fun a => match files s !! a with Some (File _) => true | _ => false end)
                (ancestors target)
  then raise OSError
  else set_files (fold_left mkdir_if_missing (ancestors target ++ [ target ]) (files s)) ;;
       log (EvMakedirs target).

Definition os_remove (path : string) : M unit :=
  s ← get_state;
  let target := resolve s path in
  match entry s path with
  | Some (File _) => set_files (delete target (files s)) ;; log (EvRemove target)
  | _ => raise OSError
  end.

Definition shutil_rmtree (path : string) : M unit :=
  s ← get_state;
  let target := resolve s path in
  match entry s path with
  | Some Dir => set_files (remove_tree (files s) target) ;; log (EvRmtree target)
  | _ => raise OSError
  end.

(** [with open(path, 'w') as fd: fd.write(text)]: the [open] fails on a
    directory and on a name whose directory is missing. *)
Definition write_file (path text : string) : M unit :=
  s ← get_state;
  let target := resolve s path in
  if can_write s path
  then set_files (<[target := File text]> (files s)) ;; log (EvWrite target)
  else raise IOError.

(** [with open(path, 'a') as fd: fd.write(text)] *)
Definition append_file (path text : string) : M unit :=
  s ← get_state;
  let target := resolve s path in
  if can_write s path
  then set_files (<[target := File (match files s !! target with
                                    | Some (File old) => old +:+ text
                                    | _ => text
                                    end)]> (files s)) ;;
       log (EvAppend target)
  else raise IOError.

(** [shutil.copy(src, dst)] *)
Definition shutil_copy (src dst : string) : M unit :=
  s ← get_state;
  match entry s src with
  | Some (File text) =>
      let target := if is_dir_node (entry s dst)
                    then os_path.join dst (os_path.basename src)
                    else dst in
      if can_write s target
      then set_files (<[resolve s target := File text]> (files s)) ;;
           log (EvCopy (resolve s src) (resolve s target))
      else raise IOError
  | _ => raise IOError
  end.

(** A call that leaves the process: it is recorded, the surroundings decide
    its effect on the files and whether it fails with [failure]. *)
Definition collaborator (failure : Exn) (call : Call) : M unit :=
  log (EvCall call) ;;
  s ← get_state;
  let (ok, files') := perform call (cwd s) (files s) in
  set_files files' ;;
  if ok then mret tt else raise failure.

(** ** [ConfigParser] objects *)

Definition new_parser : M nat :=
  s ← get_state; set_parsers (parsers s ++ [ cp_new ]) ;; mret (length (parsers s)).

Definition deref (handle : nat) : M Parser :=
  s ← get_state;
  match parsers s !! handle with
  | Some p => mret p
  | None => raise AttributeError
  end.

Definition assign (handle : nat) (p : Parser) : M unit :=
  s ← get_state; set_parsers (<[handle := p]> (parsers s)).

Definition lift_result {A} (r : Result A) : M A :=
  match r with Ok x => mret x | Raise e => raise e end.

(** [parser.read(filepath)]: a file that cannot be opened is skipped. *)
Definition parser_read (handle : nat) (filepath : string) : M unit :=
  s ← get_state;
  match files s !! resolve s filepath with
  | Some (File text) =>
      p ← deref handle; p' ← lift_result (cp_read_text text p); assign handle p'
  | _ => mret tt
  end.

Definition parser_sections (handle : nat) : M (list string) :=
  p ← deref handle; mret (cp_sections p).

Definition parser_has_option (handle : nat) (section option : string) : M bool :=
  p ← deref handle; mret (cp_has_option p section option).

Definition parser_get (handle : nat) (section option : string) : M string :=
  p ← deref handle; lift_result (cp_get p section option).

Definition parser_set (handle : nat) (section option : string) (value : PyValue) : M unit :=
  p ← deref handle; p' ← lift_result (cp_set p section option value); assign handle p'.

(** [with open(filepath, 'w') as fd: parser.write(fd)] *)
Definition parser_write (handle : nat) (filepath : string) : M unit :=
  p ← deref handle; write_file filepath (cp_write p).

(** ** [infi.projector.helper.utils] *)

(** [_chdir_and_log(path)] *)
Definition _chdir_and_log (path : string) : M unit := os_chdir path.

(** [chdir(path)], a context manager: [chdir path body] is
    [with chdir(path): body]. *)
Definition chdir {A} (path : string) (body : M A) : M A :=
  path ← os_path_abspath path;
  current_dir ← os_path_abspath os_curdir;
  _chdir_and_log path ;;
  try_finally body (_chdir_and_log current_dir).

(** [open_buildout_configfile(filepath)], a context manager whose body
    receives the parser. *)
Definition open_buildout_configfile {A} (filepath : string) (body : nat -> M A) : M A :=
  parser ← new_parser;
  parser_read parser filepath ;;
  try_finally (body parser) (parser_write parser filepath).

(** The parameter list of [open_buildout_configfile] and the binding of a
    call by keyword to it: Python rejects a keyword that names no
    parameter, before the function body starts. *)
Definition open_buildout_configfile_parameters : list string := [ "filepath" ].

Definition unexpected_keyword (fname key : string) : Exn :=
  TypeError (fname +:+ "() got an unexpected keyword argument '" +:+ key +:+ "'").

Definition call_open_buildout_configfile {A} (kwargs : list (string * PyValue))
    (body : nat -> M A) : M A :=
  match List.find (fun kv => negb (bool_decide (kv.1 ∈ open_buildout_configfile_parameters)))
                  kwargs with
  | Some kv => raise (unexpected_keyword "open_buildout_configfile" kv.1)
  | None =>
      match List.find (fun kv => String.eqb kv.1 "filepath") kwargs with
      | Some (_, PyStr filepath) => open_buildout_configfile filepath body
      | Some _ => raise (TypeError "coercing to Unicode: need string or buffer")
      | None => open_buildout_configfile "buildout.cfg" body
      end
  end.

(** [is_running_inside_virtualenv()] *)
Definition is_running_inside_virtualenv : bool := sys_has_real_prefix.

(** The argument of [parse_args]: a command line or a list of arguments. *)
Inductive CommandLine : Type :=
| CmdString (commandline : string)
| CmdList (args : list string).

(** [parse_args(commandline_or_args)] *)
Definition parse_args (commandline_or_args : CommandLine) : list string :=
  match commandline_or_args with
  | CmdList args => args
  | CmdString commandline => String.words commandline
  end.

(** [execute_assert_success(args)] *)
Definition execute_assert_success (args : list string) : M unit :=
  collaborator ExecutionError (Execute args).

(** Modelled from the spec: [helper.assertions.is_windows] is not among the
    sources; the spec only speaks of platform-dependent steps, and on the
    POSIX host of this model the test is false. *)
Definition is_windows : bool := String.eqb os_name "nt".

(** [_get_executable_from_shebang_line()]: the first line of the wrapper
    script next to [sys.executable], without its first three characters
    and its last one. *)
Definition _get_executable_from_shebang_line : M string :=
  s ← get_state;
  let executable_script_py := PyStr.replace ".exe" "-script.py" sys_executable in
  match files s !! resolve s executable_script_py with
  | Some (File text) =>
      if String.eqb text "" then raise IndexError
      else
        let shebang_line := PyStr.strip (PyStr.first_line text) in
        let executable_path :=
          os_path.normpath
            (String.substring 3 (String.length shebang_line - 4) shebang_line) in
        mret (if negb (PyStr.endswith executable_path ".exe")
              then executable_path +:+ ".exe" else executable_path)
  | _ => raise IOError
  end.

(** [execute_with_python(commandline_or_args)] *)
Definition execute_with_python (commandline_or_args : CommandLine) : M unit :=
  let args := parse_args commandline_or_args in
  python ← (if negb is_windows then mret sys_executable
            else _get_executable_from_shebang_line);
  let executable :=
    if negb is_running_inside_virtualenv then [ python; "-S" ] else [ python ] in
  execute_assert_success (executable ++ args).

(** [execute_with_buildout(commandline_or_args)] *)
Definition execute_with_buildout (commandline_or_args : CommandLine) : M unit :=
  let args := parse_args commandline_or_args in
  s ← get_state;
  execute_assert_success
    ([ os_path.join "bin" ("buildout" +:+ (if String.eqb os_name "nt" then ".exe" else "")) ]
     ++ BUILDOUT_PARAMETERS s ++ args).

(** [BUILDOUT_PARAMETERS.append(param)] when [param not in BUILDOUT_PARAMETERS] *)
Definition append_parameter (param : string) : M unit :=
  s ← get_state;
  if bool_decide (param ∈ BUILDOUT_PARAMETERS s) then mret tt
  else set_parameters (BUILDOUT_PARAMETERS s ++ [ param ]).

(** [BUILDOUT_PARAMETERS.remove(param)] when [param in BUILDOUT_PARAMETERS] *)
Definition remove_parameter (param : string) : M unit :=
  s ← get_state;
  if bool_decide (param ∈ BUILDOUT_PARAMETERS s)
  then set_parameters (PyList.remove param (BUILDOUT_PARAMETERS s))
  else mret tt.

(** [buildout_parameters_context(parameters)], a context manager. *)
Definition buildout_parameters_context {A} (parameters : list string) (body : M A) : M A :=
  try_finally
    (for_each parameters append_parameter ;; body)
    (for_each parameters remove_parameter).

(** [release_version_with_git_flow(version_tag)] *)
Definition release_version_with_git_flow (version_tag : string) : M unit :=
  collaborator CollaboratorError (GitFlowCreate "release" version_tag) ;;
  collaborator CollaboratorError (GitFlowFinish "release" version_tag) ;;
  collaborator CollaboratorError (GitCheckout "develop") ;;
  collaborator CollaboratorError
    (GitCommit ("empty commit after version " +:+ version_tag) true) ;;
  collaborator CollaboratorError (GitCreateTag (version_tag +:+ "-develop")).

(** [git_checkout(branch_name_or_tag)]: [except Exception] does not catch
    [SystemExit]. *)
Definition git_checkout (branch_name_or_tag : string) : M unit := fun s =>
  match collaborator CollaboratorError (GitCheckout branch_name_or_tag) s with
  | (Raise (SystemExit n), s') => (Raise (SystemExit n), s')
  | (Raise _, s') => (Raise (SystemExit 1), s')
  | other => other
  end.

(** ** [infi.projector.plugins.builtins.build] *)

(** Modelled from the spec: [helper.assertions.is_executable_exists] is not
    among the sources; the bootstrap gate of the spec asks whether "the
    build-tool executable is absent", which on the POSIX host is whether
    the file exists. *)
Definition is_executable_exists (filepath : string) : M bool := os_path_exists filepath.

(** Modelled from the spec: [helper.assertions.assert_buildout_executable_exists]
    is not among the sources; the spec has it fail "fatally if the
    build-tool executable still doesn't exist after installation". *)
Definition assert_buildout_executable_exists : M unit :=
  present ← is_executable_exists (os_path.join "bin" "buildout");
  if present : bool then mret tt else raise (SystemExit 1).

(** Modelled from the spec:
    [helper.assertions.is_buildout_executable_using_isolated_python] is not
    among the sources; the spec says it "detects the wrong interpreter is
    embedded" in the build-tool executable, and how that is read off the
    file is left to the surroundings. *)
Definition is_buildout_executable_using_isolated_python : M bool :=
  s ← get_state;
  mret (shebang_is_isolated_python (files s !! resolve s (os_path.join "bin" "buildout"))).

(** [items] filtered by a condition that reads the state, as in a list
    comprehension with an [if]. *)
Fixpoint filter_m {A} (cond : A -> M bool) (items : list A) : M (list A) :=
  match items with
  | [] => mret []
  | x :: rest =>
      keep ← cond x;
      kept ← filter_m cond rest;
      mret (if keep : bool then x :: kept else kept)
  end.

(** [BuildPlugin.create_cache_directories] *)
Definition create_cache_directories : M unit :=
  cachedir ← call_open_buildout_configfile []
               (fun buildout => parser_get buildout "buildout" "download-cache");
  let cache_dist := os_path.join cachedir "dist" in
  present ← os_path_exists cache_dist;
  when (negb present) (os_makedirs cache_dist).

(** [BuildPlugin.bootstrap_if_necessary] *)
Definition bootstrap_if_necessary (arguments : Arguments) : M unit :=
  present ← os_path_exists "bootstrap.py";
  if negb present then raise (SystemExit 1)
  else
    buildout ← is_executable_exists (os_path.join "bin" "buildout");
    when (negb buildout || truthy (args_get_or_false arguments "--force-bootstrap"))
         (execute_with_python (CmdString "bootstrap.py -d -t")).

(** [BuildPlugin.install_sections_by_recipe] *)
Definition install_sections_by_recipe (recipe : string) : M unit :=
  sections_to_install ← call_open_buildout_configfile []
    (fun buildout =>
       sections ← parser_sections buildout;
       filter_m (fun section =>
                   has ← parser_has_option buildout section "recipe";
                   if has : bool
                   then value ← parser_get buildout section "recipe";
                        mret (String.eqb value recipe)
                   else mret false)
                sections);
  when (negb (bool_decide (sections_to_install = [])))
       (execute_with_buildout
          (CmdString ("install " +:+ PyStr.join " " sections_to_install))).

(** [BuildPlugin.submodule_update] *)
Definition submodule_update : M unit :=
  buildout_parameters_context [ "buildout:develop=" ]
    (install_sections_by_recipe "zerokspot.recipe.git").

(** [BuildPlugin.create_setup_py] *)
Definition create_setup_py : M unit :=
  buildout_parameters_context [ "buildout:develop=" ]
    (install_sections_by_recipe "infi.recipe.template.version").

(** [BuildPlugin.buildout_use_custom_python], a context manager.  In the
    first branch the [yield] is not protected, so what follows it runs only
    when the body returns. *)
Definition buildout_use_custom_python {A} (arguments : Arguments) (body : M A) : M A :=
  if truthy (args_get_or_false arguments "--use-isolated-python")
  then
    r ← body;
    assert_buildout_executable_exists ;;
    isolated ← is_buildout_executable_using_isolated_python;
    when isolated
         (buildout_parameters_context [ "buildout:python=buildout" ]
            (execute_with_python (CmdString "bootstrap.py -d -t"))) ;;
    mret r
  else
    buildout_parameters_context [ "buildout:python=buildout" ] body.

(** [BuildPlugin.create_scripts] *)
Definition create_scripts (arguments : Arguments) : M unit :=
  let python :=
    os_path.join (os_path.join (os_path.join "parts" "python") "bin") "python" in
  (if truthy (args_get_or_false arguments "--use-isolated-python")
   then
     present ← is_executable_exists python;
     when (truthy (args_get_or_false arguments "--newest") || negb present)
          (execute_with_buildout (CmdString "install python-distribution"))
   else mret tt) ;;
  buildout_use_custom_python arguments
    (install_sections_by_recipe "infi.vendata.console_scripts").

(** [BuildPlugin.clean_build] *)
Definition clean_build : M unit :=
  let directories_to_clean := [ "bin"; "eggs"; "develop-eggs" ] in
  let files_to_clean := [ "setup.py" ] in
  for_each files_to_clean
    (fun filename => present ← os_path_exists filename; when present (os_remove filename)) ;;
  for_each directories_to_clean
    (fun dirname => present ← os_path_exists dirname; when present (shutil_rmtree dirname)).

(** [BuildPlugin.buildout_newest_or_offline_context], a context manager. *)
Definition buildout_newest_or_offline_context {A} (arguments : Arguments) (body : M A) : M A :=
  let parameters :=
    (if truthy (args_get arguments "--newest") then [ "-n" ] else []) ++
    (if truthy (args_get arguments "--offline") then [ "-o" ] else []) in
  buildout_parameters_context parameters body.

(** [BuildPlugin.get_readline_module] *)
Definition get_readline_module : option string :=
  if String.eqb platform_system "Darwin" then Some "readline"
  else if String.eqb platform_system "Windows" then Some "pyreadline"
  else None.

(** [BuildPlugin.is_module_installed] *)
Definition is_module_installed (module : string) : M bool :=
  try_except_ExecutionError
    (collaborator ExecutionError
       (Execute (String.words ("bin/python -c import " +:+ module))) ;;
     mret true)
    (mret false).

(** [BuildPlugin.install_readline] *)
Definition install_readline : M unit :=
  match get_readline_module with
  | None => mret tt
  | Some module =>
      if String.eqb module "" then mret tt
      else
        installed ← is_module_installed module;
        if installed : bool then mret tt
        else collaborator ExecutionError
               (Execute (String.words ("bin/easy_install " +:+ module)))
  end.

(** [BuildPlugin.scripts] *)
Definition scripts (arguments : Arguments) : M unit :=
  when (truthy (args_get_or_false arguments "--clean")) clean_build ;;
  create_cache_directories ;;
  bootstrap_if_necessary arguments ;;
  buildout_newest_or_offline_context arguments
    (when (negb (truthy (args_get_or_false arguments "--no-submodules"))) submodule_update ;;
     when (negb (truthy (args_get_or_false arguments "--no-setup-py"))) create_setup_py ;;
     when (negb (truthy (args_get_or_false arguments "--no-scripts")))
          (create_scripts arguments) ;;
     when (negb (truthy (args_get_or_false arguments "--no-readline"))) install_readline).

(** [BuildPlugin.relocate] *)
Definition relocate (arguments : Arguments) : M unit :=
  let relative_paths := truthy (args_get_or_false arguments "--relative") in
  call_open_buildout_configfile []
    (fun buildout =>
       parser_set buildout "buildout" "relative-paths"
         (PyStr (if relative_paths then "true" else "false")) ;;
       let relative_python := "parts/python/bin/python" in
       let absolute_python := "${buildout:directory}/parts/python/bin/python" in
       parser_set buildout "python-distribution" "executable"
         (PyStr (if relative_paths then relative_python else absolute_python))) ;;
  when (truthy (args_get_or_false arguments "--commit-changes"))
       (collaborator CollaboratorError (GitAdd "buildout.cfg") ;;
        collaborator CollaboratorError
          (GitCommit ("Changing shebang to "
                      +:+ (if relative_paths then "relative" else "absolute")
                      +:+ " paths") false)).

(** ** [infi.projector.plugins.builtins.repository] *)

(** [generate_package_code()] *)
Definition generate_package_code : M string :=
  n ← tick; mret ("{" +:+ uuid1 n +:+ "}").

(** [indent(text)] *)
Definition indent (text : string) : string :=
  PyStr.strip
    (PyStr.join (String "010" "")
                (map (fun line => String "009" line) (PyStr.splitlines text))).

(** A value used as a string: a method of [str] is called on it. *)
Definition as_str (v : PyValue) : M string :=
  match v with
  | PyStr text => mret text
  | _ => raise AttributeError
  end.

(** [RepositoryPlugin.get_project_name] *)
Definition get_project_name (arguments : Arguments) : PyValue :=
  args_get arguments "<project_name>".

(** [RepositoryPlugin._create_subdir_if_necessary], a context manager. *)
Definition _create_subdir_if_necessary {A} (arguments : Arguments) (body : M A) : M A :=
  if negb (truthy (args_get arguments "--mkdir")) then body
  else
    dirname ← as_str (py_or (args_get arguments "<project_name>")
                            (args_get arguments "<origin>"));
    let dirname :=
      default "" (last (PyStr.split os_sep
                          (if negb (PyStr.endswith dirname ".git") then dirname
                           else PyStr.drop_right 4 dirname))) in
    present ← os_path_exists dirname;
    isdir ← os_path_isdir dirname;
    if present && isdir then raise (SystemExit 1)
    else os_makedirs dirname ;; chdir dirname body.

(** [RepositoryPlugin._exit_if_dotgit_exists] *)
Definition _exit_if_dotgit_exists : M unit :=
  present ← os_path_exists ".git";
  if present : bool then raise (SystemExit 1) else mret tt.

(** [RepositoryPlugin.git_init] *)
Definition git_init (arguments : Arguments) : M unit :=
  collaborator CollaboratorError GitInit ;;
  collaborator CollaboratorError (GitAddRemote "origin" (args_get arguments "<origin>")).

(** [RepositoryPlugin.gitflow_init] *)
Definition gitflow_init : M unit := collaborator CollaboratorError GitFlowInit.

(** [RepositoryPlugin.release_initial_version] *)
Definition release_initial_version : M unit := release_version_with_git_flow "v0".

(** [RepositoryPlugin.add_initial_files]; the template files come from the
    skeleton package, [skeleton_get_files]. *)
Definition add_initial_files : M unit :=
  for_each (map (fun filepath => (filepath, os_path.basename filepath)) skeleton_get_files)
           (fun src_dst => shutil_copy src_dst.1 src_dst.2).

(** [RepositoryPlugin.set_buildout_config] *)
Definition set_buildout_config (arguments : Arguments) : M unit :=
  let project_name := get_project_name arguments in
  call_open_buildout_configfile [ ("write_on_exit", PyBool true) ]
    (fun buildout =>
       parser_set buildout "project" "name" project_name ;;
       name ← as_str project_name;
       parser_set buildout "project" "namespace_packages"
         (PyList (get_package_namespace name)) ;;
       parser_set buildout "project" "version_file"
         (PyStr (PyStr.join "/" ([ "src" ] ++ PyStr.split "." name ++ [ "__version__.py" ]))) ;;
       parser_set buildout "project" "description"
         (args_get arguments "<short_description>") ;;
       long_description ← as_str (args_get arguments "<long_description>");
       parser_set buildout "project" "long_description" (PyStr (indent long_description)) ;;
       code ← generate_package_code;
       parser_set buildout "project" "upgrade_code" (PyStr code) ;;
       parser_set buildout "project" "product_name" project_name).

(** [RepositoryPlugin.get_package_directories] *)
Definition get_package_directories (arguments : Arguments) : M (list string) :=
  name ← as_str (get_project_name arguments);
  mret (map (PyStr.replace_char "." (String os_sep "")) (get_package_namespace name)
        ++ [ PyStr.replace_char "." (String os_sep "") name ]).

(** [RepositoryPlugin.generate_src] *)
Definition generate_src (arguments : Arguments) : M unit :=
  let file_content :=
    "__import__(" +:+ String "034" "pkg_resources" +:+ String "034" ").declare_namespace(__name__)"
    +:+ String "010" "" in
  os_mkdir "src" ;;
  directories ← get_package_directories arguments;
  for_each directories
    (fun dirname =>
       os_mkdir (os_path.join "src" dirname) ;;
       write_file (os_path.join (os_path.join "src" dirname) "__init__.py") file_content).

(** [RepositoryPlugin.append_to_gitignore] *)
Definition append_to_gitignore (arguments : Arguments) : M unit :=
  project_name ← as_str (get_project_name arguments);
  append_file ".gitignore"
    (String "010" "" +:+
     PyStr.join "/" ([ "src" ] ++ PyStr.split "." project_name ++ [ "__version__.py" ])
     +:+ String "010" "").

(** [RepositoryPlugin.commit_all] *)
Definition commit_all : M unit :=
  collaborator CollaboratorError GitAddAll ;;
  collaborator CollaboratorError (GitCommit "added all project files" false).

(** [RepositoryPlugin.git_checkout_develop] *)
Definition git_checkout_develop : M unit :=
  collaborator CollaboratorError (GitCheckout "develop").

(** [RepositoryPlugin.init] *)
Definition init (arguments : Arguments) : M unit :=
  _create_subdir_if_necessary arguments
    (_exit_if_dotgit_exists ;;
     git_init arguments ;;
     gitflow_init ;;
     release_initial_version ;;
     git_checkout_develop ;;
     add_initial_files ;;
     set_buildout_config arguments ;;
     generate_src arguments ;;
     append_to_gitignore arguments ;;
     commit_all).

(** [RepositoryPlugin.git_clone] *)
Definition git_clone (arguments : Arguments) : M unit :=
  collaborator CollaboratorError (GitClone (args_get arguments "<origin>")).

(** [RepositoryPlugin.clone]: it first sets [self.arguments['--mkdir']]. *)
Definition clone (arguments : Arguments) : M unit :=
  let arguments := <["--mkdir" := PyBool true]> arguments in
  _create_subdir_if_necessary arguments
    (git_clone arguments ;;
     git_checkout_develop ;;
     gitflow_init).

(** [RepositoryPlugin.parse_commandline_arguments]: the one method whose
    name is set in the arguments runs. *)
Definition parse_commandline_arguments (arguments : Arguments) : M unit :=
  let methods := [ ("init", init); ("clone", clone) ] in
  match filter (fun method => truthy (args_get arguments method.1) = true) methods with
  | [ method ] => method.2 arguments
  | _ => raise ValueError
  end.

(** ** Process start *)

(** The state in which the modules are imported: [BUILDOUT_PARAMETERS] is
    the list of its defining assignment and nothing has happened yet. *)
Definition process_start (directory : string) (disk : FileSystem) : State :=
  mkState [ "-s" ] directory disk [] [] 0.

End Program.

(** * Descriptions used by the statements *)

(** What the entry and the exit of [buildout_parameters_context] do to the
    list: the two comprehensions, read as functions of the list. *)
Definition enter_parameters (parameters stack : list string) : list string :=
  fold_left (fun l param => if bool_decide (param ∈ l) then l else l ++ [ param ])
            parameters stack.

Definition exit_parameters (parameters stack : list string) : list string :=
  fold_left (fun l param => if bool_decide (param ∈ l) then PyList.remove param l else l)
            parameters stack.

Section Descriptions.

Context {CP : ConfigParserLib} {SR : Surroundings}.

(** The state [s] with another parameter list. *)
Definition with_parameters (s : State) (l : list string) : State :=
  mkState l (cwd s) (files s) (trace s) (parsers s) (uuid_clock s).

(** A statement that leaves [BUILDOUT_PARAMETERS] as it found it, whether it
    returns or raises. *)
Definition stack_neutral {A} (m : M A) : Prop :=
  forall s, BUILDOUT_PARAMETERS (m s).2 = BUILDOUT_PARAMETERS s.

(** The command line [execute_with_python] runs for the bootstrap script. *)
Definition bootstrap_command : list string :=
  (if negb is_running_inside_virtualenv then [ sys_executable; "-S" ] else [ sys_executable ])
  ++ [ "bootstrap.py"; "-d"; "-t" ].

(** What [ConfigParser.read] makes of the file at [filepath]: the parse of
    its text, or the new parser when there is no such file to open. *)
Definition parsed_config (s : State) (filepath : string) : Result Parser :=
  match files s !! resolve s filepath with
  | Some (File text) => cp_read_text text cp_new
  | _ => Ok cp_new
  end.

(** A working directory in the form [os.getcwd()] reports it: absolute and
    normalised, so that [abspath] maps it and [.] inside it to itself. *)
Definition reported_directory (d : string) : bool :=
  os_path.isabs d && String.eqb (os_path.normpath d) d
  && String.eqb (os_path.abspath d os_curdir) d.

(** The flag-gated steps of [scripts], each with the flag that skips it, in
    the order of the pipeline. *)
Definition gated_steps (arguments : Arguments) : list (string * M unit) :=
  [ ("--no-submodules", submodule_update);
    ("--no-setup-py", create_setup_py);
    ("--no-scripts", create_scripts arguments);
    ("--no-readline", install_readline) ].

(** The steps among them that a command line does not skip. *)
Definition steps_to_run (arguments : Arguments) : list (M unit) :=
  (filter (fun step => truthy (args_get_or_false arguments step.1) = false)
          (gated_steps arguments)).*2.

(** A statement that, started on the parameter list [l], ends on [l]. *)
Definition neutral_from {A} (l : list string) (m : M A) : Prop :=
  forall s, BUILDOUT_PARAMETERS s = l -> BUILDOUT_PARAMETERS (m s).2 = l.

End Descriptions.

(** The tokens the scopes of the build plugin are activated with. *)
Definition scope_tokens : list string :=
  [ "-n"; "-o"; "buildout:develop="; "buildout:python=buildout" ].

(** * A reference host

    One concrete choice of the library and of the surroundings, on which the
    statements are evaluated: an ini reader that keeps sections and options
    in file order, and surroundings in which every call succeeds and leaves
    the files alone. *)

Module Reference.

Definition Store : Type := list (string * list (string * string)).

Definition newline : string := String "010" "".

Fixpoint set_option (section key value : string) (store : Store) : option Store :=
  match store with
  | [] => None
  | (name, options) :: rest =>
      if String.eqb name section
      then Some ((name, if bool_decide (key ∈ options.*1)
                        then map (fun kv => if String.eqb kv.1 key then (key, value) else kv) options
                        else options ++ [ (key, value) ]) :: rest)
      else option_map (cons (name, options)) (set_option section key value rest)
  end.

Definition add_section (section : string) (store : Store) : Store :=
  if bool_decide (section ∈ store.*1) then store else store ++ [ (section, []) ].

Definition get_option (section key : string) (store : Store) : option string :=
  options ← (list_to_map store : gmap string (list (string * string))) !! section;
  (list_to_map options : gmap string string) !! key.

(** One line of a file: a section header, an option, or nothing. *)
Definition read_line (acc : Result (option string * Store)) (line : string)
  : Result (option string * Store) :=
  match acc with
  | Raise e => Raise e
  | Ok (current, store) =>
      let text := PyStr.strip line in
      if String.eqb text "" then acc
      else if PyStr.startswith text "[" && PyStr.endswith text "]"
      then let name := String.substring 1 (String.length text - 2) text in
           Ok (Some name, add_section name store)
      else match current, String.index 0 "=" text with
           | Some section, Some i =>
               let key := PyStr.strip (String.substring 0 i text) in
               let value := PyStr.strip (String.substring (S i) (String.length text - S i) text) in
               match set_option section key value store with
               | Some store' => Ok (current, store')
               | None => Raise ConfigParserError
               end
           | _, _ => Raise ConfigParserError
           end
  end.

Definition read_text (text : string) (store : Store) : Result Store :=
  match fold_left read_line (PyStr.splitlines text) (Ok (None, store)) with
  | Ok (_, store') => Ok store'
  | Raise e => Raise e
  end.

Definition write_store (store : Store) : string :=
  String.concat ""
    (map (fun section =>
            "[" +:+ section.1 +:+ "]" +:+ newline +:+
            String.concat "" (map (fun kv => kv.1 +:+ " = " +:+ kv.2 +:+ newline) section.2)
            +:+ newline)
         store).

Definition render (v : PyValue) : string :=
  match v with
  | PyNone => "None"
  | PyBool b => if b then "True" else "False"
  | PyStr s => s
  | PyList items => "[" +:+ PyStr.join ", " items +:+ "]"
  end.

Definition config_parser : ConfigParserLib := {|
  Parser := Store;
  cp_new := [];
  cp_read_text := read_text;
  cp_sections := fun store => store.*1;
  cp_has_option := fun store section key => bool_decide (is_Some (get_option section key store));
  cp_get := fun store section key =>
    match get_option section key store with
    | Some value => Ok value
    | None => Raise ConfigParserError
    end;
  cp_set := fun store section key value =>
    match set_option section key (render value) store with
    | Some store' => Ok store'
    | None => Raise ConfigParserError
    end;
  cp_write := write_store;
  cp_set_no_section := fun _ _ _ _ _ => ex_intro _ ConfigParserError eq_refl
|}.

(** Surroundings in which every call succeeds and changes no file. *)
Definition quiet : Surroundings := {|
  perform := fun _ _ disk => (true, disk);
  uuid1 := fun n => "00000000-0000-0000-0000-" +:+ String.rev (PyStr.join "" (replicate n "0"));
  platform_system := "Linux";
  sys_executable := "/usr/bin/python";
  sys_has_real_prefix := false;
  skeleton_get_files := [];
  shebang_is_isolated_python := fun _ => false
|}.

(** A project directory as the build plugin expects it. *)
Definition buildout_cfg : string :=
  PyStr.join newline
    [ "[buildout]"; "download-cache = /tmp/cache"; "";
      "[setup.py]"; "recipe = infi.recipe.template.version"; "";
      "[scripts]"; "recipe = infi.vendata.console_scripts"; "" ].

Definition project_disk : FileSystem :=
  list_to_map
    [ ("/work", Dir);
      ("/work/.git", Dir);
      ("/work/buildout.cfg", File buildout_cfg);
      ("/work/bootstrap.py", File "import sys");
      ("/work/bin", Dir);
      ("/work/bin/buildout", File "#!/usr/bin/python");
      ("/tmp", Dir) ].

Definition project : @State config_parser := process_start "/work" project_disk.

End Reference.

(** * Command lines

    The arguments docopt gives for
    [repository init infi.example git://host/infi.example.git short long]
    and for [build scripts --no-submodules --no-readline]. *)

Definition init_command_line : Arguments :=
  list_to_map
    [ ("repository", PyBool true); ("init", PyBool true); ("clone", PyBool false);
      ("--mkdir", PyBool false); ("<project_name>", PyStr "infi.example");
      ("<origin>", PyStr "git://host/infi.example.git");
      ("<short_description>", PyStr "short"); ("<long_description>", PyStr "long") ].

Definition scripts_command_line : Arguments :=
  list_to_map
    [ ("build", PyBool true); ("scripts", PyBool true); ("relocate", PyBool false);
      ("--clean", PyBool false); ("--force-bootstrap", PyBool false);
      ("--no-submodules", PyBool true); ("--no-scripts", PyBool false);
      ("--no-readline", PyBool true); ("--use-isolated-python", PyBool false);
      ("--newest", PyBool false); ("--offline", PyBool false);
      ("--absolute", PyBool false); ("--relative", PyBool false);
      ("--commit-changes", PyBool false) ].

(** * Further descriptions

    Names for the states and values the remaining statements speak about. *)

(** [key] is [dir] or lies below it. *)
Definition below (dir key : string) : bool :=
  String.eqb key dir || PyStr.startswith key (dir +:+ "/").

Section FurtherDescriptions.

Context {CP : ConfigParserLib} {SR : Surroundings}.

(** The state after a scope of [open_buildout_configfile] on [filepath]
    whose parser object ended as [q] and whose body touched nothing else:
    one more parser object, the file rewritten, the write recorded. *)
Definition config_written (s : State) (filepath : string) (q : Parser) : State :=
  mkState (BUILDOUT_PARAMETERS s) (cwd s)
          (<[resolve s filepath := File (cp_write q)]> (files s))
          (trace s ++ [ EvWrite (resolve s filepath) ])
          (parsers s ++ [ q ]) (uuid_clock s).

(** The sections of [p], in file order, whose [recipe] option reads
    [recipe]. *)
Definition sections_with_recipe (p : Parser) (recipe : string) : list string :=
  List.filter
    (fun section =>
       cp_has_option p section "recipe"
       && match cp_get p section "recipe" with
          | Ok value => String.eqb value recipe
          | Raise _ => false
          end)
    (cp_sections p).

(** The command line [execute_with_buildout] hands to [infi.execute]. *)
Definition buildout_command (parameters : list string) (c : CommandLine) : list string :=
  [ "bin/buildout" ] ++ parameters ++ parse_args c.

(** The outcome of a call according to the surroundings. *)
Definition call_succeeds (call : Call) (s : State) : bool :=
  (perform call (cwd s) (files s)).1.

(** The state after a call that leaves the process: the call is recorded
    and the files are what the surroundings made of them. *)
Definition after_call (call : Call) (s : State) : State :=
  mkState (BUILDOUT_PARAMETERS s) (cwd s) (perform call (cwd s) (files s)).2
          (trace s ++ [ EvCall call ]) (parsers s) (uuid_clock s).

(** How a step ends that installs the sections of [recipe] inside a scope
    of the one token [token], on a configuration that reads as [p]: the
    configuration file is rewritten and, when there are such sections, the
    build tool runs once with the token after the parameter list; its
    failure is the failure of the step.  The parameter list is that of [s]
    again. *)
Definition install_outcome (s : State) (p : Parser) (token recipe : string)
  : Result unit * State :=
  let written := config_written s "buildout.cfg" p in
  match sections_with_recipe p recipe with
  | [] => (Ok tt, written)
  | chosen =>
      let launch :=
        Execute (buildout_command (BUILDOUT_PARAMETERS s ++ [ token ])
                   (CmdString ("install " +:+ PyStr.join " " chosen))) in
      ((if call_succeeds launch written then Ok tt else Raise ExecutionError),
       after_call launch written)
  end.

(** [s'] differs from [s] on disk only by entries that are gone; the
    working directory, the parameter list and the parser objects are the
    same. *)
Definition only_removes (s s' : State) : Prop :=
  files s' ⊆ files s /\ cwd s' = cwd s /\
  BUILDOUT_PARAMETERS s' = BUILDOUT_PARAMETERS s /\ parsers s' = parsers s.

(** What cleaning the relative names [names] from [s] may leave: nothing
    new or changed, every name gone when the outcome is a return, and every
    entry kept that is neither one of the names nor below one. *)
Definition cleaned (names : list string) (s : State) (outcome : Result unit * State) : Prop :=
  only_removes s outcome.2 /\
  (outcome.1 = Ok tt ->
   forall name, name ∈ names -> files outcome.2 !! resolve s name = None) /\
  (forall key, (forall name, name ∈ names -> below (resolve s name) key = false) ->
               files outcome.2 !! key = files s !! key).

End FurtherDescriptions.

(** The directory [_create_subdir_if_necessary] derives from a project name
    or an origin: a trailing [.git] is cut, the last path component stays. *)
Definition subdir_name (text : string) : string :=
  default "" (last (PyStr.split os_sep
                      (if negb (PyStr.endswith text ".git") then text
                       else PyStr.drop_right 4 text))).

(** A text without a line boundary: no line feed and no carriage return. *)
Fixpoint single_line (text : string) : bool :=
  match text with
  | EmptyString => true
  | String c rest =>
      negb (Ascii.eqb c "010") && negb (Ascii.eqb c "013") && single_line rest
  end.


(** * Further sample projects *)

Module Samples.

(** A configuration with the section [relocate] writes to. *)
Definition relocatable_cfg : string :=
  PyStr.join Reference.newline
    [ "[buildout]"; "download-cache = /tmp/cache"; "relative-paths = false"; "";
      "[python-distribution]"; "executable = parts/python/bin/python"; "" ].

Definition relocatable_disk : FileSystem :=
  list_to_map
    [ ("/work", Dir);
      ("/work/buildout.cfg", File relocatable_cfg);
      ("/tmp", Dir); ("/tmp/cache", Dir); ("/tmp/cache/dist", Dir) ].

Definition relocatable : @State Reference.config_parser :=
  process_start "/work" relocatable_disk.

(** A text that is no configuration file: an option before any section. *)
Definition broken_disk : FileSystem :=
  list_to_map [ ("/work", Dir); ("/work/buildout.cfg", File "download-cache = /tmp/cache") ].

Definition broken : @State Reference.config_parser := process_start "/work" broken_disk.

(** A build tree with generated files. *)
Definition built_disk : FileSystem :=
  list_to_map
    [ ("/work", Dir); ("/work/setup.py", File "setup()");
      ("/work/bin", Dir); ("/work/bin/buildout", File "#!/usr/bin/python");
      ("/work/eggs", Dir); ("/work/eggs/a.egg", File "egg");
      ("/work/src", Dir); ("/work/src/module.py", File "pass") ].

Definition built : @State Reference.config_parser := process_start "/work" built_disk.

(** The arguments docopt gives for [repository clone git://host/tmp.git]
    and for [build relocate --relative --commit-changes]. *)
Definition clone_command_line : Arguments :=
  list_to_map
    [ ("repository", PyBool true); ("init", PyBool false); ("clone", PyBool true);
      ("--mkdir", PyBool false); ("<project_name>", PyNone);
      ("<origin>", PyStr "git://host/tmp.git");
      ("<short_description>", PyNone); ("<long_description>", PyNone) ].

Definition relocate_command_line : Arguments :=
  list_to_map
    [ ("build", PyBool true); ("scripts", PyBool false); ("relocate", PyBool true);
      ("--absolute", PyBool false); ("--relative", PyBool true);
      ("--commit-changes", PyBool true) ].

End Samples.


(** * Properties *)

(** ** Namespace derivation *)

Section NamespaceFacts.

Lemma split_nonempty sep s : PyStr.split sep s <> [].
Proof.
  destruct s as [|c s]; simpl; [discriminate|].
  destruct (Ascii.eqb c sep); [discriminate|].
  destruct (PyStr.split sep s); discriminate.
Qed.

Lemma string_length_app s t : String.length (s +:+ t) = (String.length s + String.length t)%nat.
Proof. induction s as [|c s IH]; simpl; [done|]. by rewrite IH. Qed.

Lemma fold_namespace_append items : forall acc prev,
  fold_left namespace_append items (acc ++ [ prev ]) = acc ++ prev :: chain prev items.
Proof.
  induction items as [|i items IH]; intros acc prev; simpl; [done|].
  unfold namespace_append at 2. rewrite last_snoc. simpl.
  rewrite (IH (acc ++ [ prev ]) (prev +:+ "." +:+ i)).
  by rewrite <- app_assoc.
Qed.

Lemma chain_cons c prev items :
  chain (String c prev) items = map (String c) (chain prev items).
Proof.
  revert prev. induction items as [|i items IH]; intros prev; simpl; [done|].
  f_equal. apply (IH (prev +:+ "." +:+ i)).
Qed.

Lemma namespace_of_fields items :
  fold_left namespace_append items [] =
  match items with [] => [] | i :: rest => i :: chain i rest end.
Proof.
  destruct items as [|i rest]; simpl; [done|].
  apply (fold_namespace_append rest [] i).
Qed.

(** The derivation follows the characters of the name: a dot contributes
    the empty prefix, every character is put in front of the prefixes of
    the rest. *)
Lemma get_package_namespace_cons c name :
  get_package_namespace (String c name) =
  if Ascii.eqb c "." then "" :: map (String ".") (get_package_namespace name)
  else map (String c) (get_package_namespace name).
Proof.
  unfold get_package_namespace. rewrite !namespace_of_fields. simpl.
  pose proof (split_nonempty "." name) as Hne.
  destruct (Ascii.eqb c ".") eqn:Hc.
  - destruct (PyStr.split "." name) as [|w ws] eqn:Hs; [done|].
    change (removelast ("" :: w :: ws)) with ("" :: removelast (w :: ws)).
    destruct (removelast (w :: ws)) as [|i rest]; simpl; [done|].
    do 2 f_equal. apply (chain_cons "." i rest).
  - destruct (PyStr.split "." name) as [|w ws] eqn:Hs; [done|].
    destruct ws as [|w' ws]; simpl; [done|].
    f_equal. apply chain_cons.
Qed.

Lemma get_package_namespace_nil : get_package_namespace "" = [].
Proof. reflexivity. Qed.

Lemma namespace_elem name : forall p,
  p ∈ get_package_namespace name <-> exists rest, name = p +:+ "." +:+ rest.
Proof.
  induction name as [|c name IH]; intros p.
  - rewrite get_package_namespace_nil. split.
    + intros H. by apply elem_of_nil in H.
    + intros [rest H]. destruct p; discriminate.
  - rewrite get_package_namespace_cons.
    destruct (Ascii.eqb c ".") eqn:Hc.
    + apply Ascii.eqb_eq in Hc. subst c. rewrite elem_of_cons, list_elem_of_fmap. split.
      * intros [->|(q & -> & Hq)]; [by exists name|].
        apply IH in Hq as [rest ->]. by exists rest.
      * intros [rest H]. destruct p as [|a p]; [by left|right].
        simpl in H. injection H as <- ->. exists p. split; [done|].
        apply IH. by exists rest.
    + rewrite list_elem_of_fmap. split.
      * intros (q & -> & Hq). apply IH in Hq as [rest ->]. by exists rest.
      * intros [rest H]. destruct p as [|a p]; simpl in H.
        -- injection H as -> _. by rewrite Ascii.eqb_refl in Hc.
        -- injection H as <- ->. exists p. split; [done|]. apply IH. by exists rest.
Qed.

Lemma namespace_lengths name : forall i j p q,
  (i < j)%nat ->
  get_package_namespace name !! i = Some p ->
  get_package_namespace name !! j = Some q ->
  (String.length p < String.length q)%nat.
Proof.
  induction name as [|c name IH]; intros i j p q Hij Hp Hq.
  - by rewrite get_package_namespace_nil in Hp.
  - rewrite get_package_namespace_cons in Hp, Hq.
    assert (Hmap : forall a i j p q, (i < j)%nat ->
              map (String a) (get_package_namespace name) !! i = Some p ->
              map (String a) (get_package_namespace name) !! j = Some q ->
              (String.length p < String.length q)%nat).
    { intros a i' j' p' q' Hlt H1 H2.
      apply list_lookup_fmap_Some in H1 as (p0 & -> & H1).
      apply list_lookup_fmap_Some in H2 as (q0 & -> & H2).
      simpl. pose proof (IH _ _ _ _ Hlt H1 H2). lia. }
    destruct (Ascii.eqb c "."); [|by eapply Hmap].
    destruct j as [|j]; [lia|]. simpl in Hq.
    destruct i as [|i]; simpl in Hp.
    + injection Hp as <-.
      apply list_lookup_fmap_Some in Hq as (q0 & -> & _). simpl. lia.
    + eapply Hmap; [|exact Hp|exact Hq]. lia.
Qed.

Lemma namespace_NoDup name : NoDup (get_package_namespace name).
Proof.
  apply NoDup_alt. intros i j p Hi Hj.
  destruct (Nat.lt_trichotomy i j) as [Hlt|[->|Hlt]]; [|done|].
  - pose proof (namespace_lengths _ _ _ _ _ Hlt Hi Hj). lia.
  - pose proof (namespace_lengths _ _ _ _ _ Hlt Hj Hi). lia.
Qed.

End NamespaceFacts.

(** C9: for every project name, [get_package_namespace] returns exactly the
    strict dot-separated prefixes of the name (the text before each dot,
    never the full name), each once, listed from the shortest to the longest;
    "infi.projector.tool" gives ["infi"; "infi.projector"] and "a.b.c" gives
    ["a"; "a.b"]. *)
Theorem get_package_namespace_prefixes :
  (forall name p,
      p ∈ get_package_namespace name <-> exists rest, name = p +:+ "." +:+ rest) /\
  (forall name, NoDup (get_package_namespace name)) /\
  (forall name i j p q,
      (i < j)%nat ->
      get_package_namespace name !! i = Some p ->
      get_package_namespace name !! j = Some q ->
      (String.length p < String.length q)%nat) /\
  (forall name, name ∉ get_package_namespace name) /\
  get_package_namespace "infi.projector.tool" = [ "infi"; "infi.projector" ] /\
  get_package_namespace "a.b.c" = [ "a"; "a.b" ].
Proof.
  split; [exact namespace_elem|].
  split; [exact namespace_NoDup|].
  split; [exact namespace_lengths|].
  split; [|split; reflexivity].
  intros name Hin. apply namespace_elem in Hin as [rest H].
  apply (f_equal String.length) in H.
  rewrite !string_length_app in H. simpl in H. lia.
Qed.

(** ** The parameter stack *)

Section ListFacts.

Lemma remove_notin x l : x ∉ l -> PyList.remove x l = l.
Proof.
  induction l as [|y l IH]; simpl; [done|]. intros Hx.
  apply not_elem_of_cons in Hx as [Hne Hx].
  destruct (String.eqb_spec y x) as [->|_]; [done|]. by rewrite IH.
Qed.

Lemma elem_of_remove_other x y l : y <> x -> y ∈ PyList.remove x l <-> y ∈ l.
Proof.
  intros Hne. induction l as [|z l IH]; simpl; [done|].
  destruct (String.eqb_spec z x) as [->|Hz].
  - rewrite elem_of_cons. split; [by right|by intros [?|?]].
  - rewrite !elem_of_cons, IH. done.
Qed.

Lemma elem_of_remove x y l : y ∈ PyList.remove x l -> y ∈ l.
Proof.
  induction l as [|z l IH]; simpl; [done|].
  destruct (String.eqb_spec z x) as [->|Hz]; rewrite !elem_of_cons.
  - intros Hy. by right.
  - intros [->|Hy]; [by left|right; by apply IH].
Qed.

Lemma remove_app_r x l1 l2 : x ∉ l1 -> PyList.remove x (l1 ++ l2) = l1 ++ PyList.remove x l2.
Proof.
  induction l1 as [|y l1 IH]; simpl; [done|]. intros Hx.
  apply not_elem_of_cons in Hx as [Hne Hx].
  destruct (String.eqb_spec y x) as [->|_]; [done|]. by rewrite IH.
Qed.

Lemma NoDup_remove x l : NoDup l -> NoDup (PyList.remove x l) /\ x ∉ PyList.remove x l.
Proof.
  induction 1 as [|y l Hy Hl IH]; simpl.
  - split; [constructor|apply not_elem_of_nil].
  - destruct (String.eqb_spec y x) as [->|Hne]; [done|].
    destruct IH as [IH1 IH2]. split.
    + constructor; [|done]. intros Hin. by apply elem_of_remove in Hin.
    + apply not_elem_of_cons. split; [congruence|done].
Qed.

Lemma enter_parameters_cons p ps l :
  enter_parameters (p :: ps) l =
  enter_parameters ps (if bool_decide (p ∈ l) then l else l ++ [ p ]).
Proof. reflexivity. Qed.

Lemma exit_parameters_cons p ps l :
  exit_parameters (p :: ps) l =
  exit_parameters ps (if bool_decide (p ∈ l) then PyList.remove p l else l).
Proof. reflexivity. Qed.

(** Entry only appends. *)
Lemma enter_parameters_app ps : forall l, exists added,
  enter_parameters ps l = l ++ added /\
  (forall t, t ∈ added -> t ∈ ps /\ t ∉ l) /\ NoDup added.
Proof.
  induction ps as [|p ps IH]; intros l.
  - exists []. rewrite app_nil_r. split; [done|]. split; [|constructor].
    intros t Ht. by apply elem_of_nil in Ht.
  - rewrite enter_parameters_cons. case_bool_decide as Hp.
    + destruct (IH l) as (added & -> & Hadded & Hnd). exists added.
      split; [done|]. split; [|done]. intros t Ht.
      destruct (Hadded t Ht). split; [by right|done].
    + destruct (IH (l ++ [ p ])) as (added & -> & Hadded & Hnd). exists (p :: added).
      split; [by rewrite <- app_assoc|]. split.
      * intros t [->|Ht]%elem_of_cons; [split; [by left|done]|].
        destruct (Hadded t Ht) as [H1 H2]. split; [by right|].
        intros Hin. apply H2, elem_of_app. by left.
      * constructor; [|done]. intros Hin. destruct (Hadded p Hin) as [_ H2].
        apply H2, elem_of_app. right. by left.
Qed.

Lemma enter_parameters_elem ps l t : t ∈ l -> t ∈ enter_parameters ps l.
Proof.
  intros Ht. destruct (enter_parameters_app ps l) as (added & -> & _).
  apply elem_of_app. by left.
Qed.

Lemma enter_parameters_NoDup ps l : NoDup l -> NoDup (enter_parameters ps l).
Proof.
  intros Hl. destruct (enter_parameters_app ps l) as (added & -> & Hadded & Hnd).
  apply NoDup_app. split; [done|]. split; [|done].
  intros t Ht Hin. by destruct (Hadded t Hin).
Qed.

(** Exit removes nothing but the tokens it was given. *)
Lemma exit_parameters_other ps : forall l t, t ∈ l -> t ∉ ps -> t ∈ exit_parameters ps l.
Proof.
  induction ps as [|p ps IH]; intros l t Ht Hps; [done|].
  apply not_elem_of_cons in Hps as [Hne Hps].
  rewrite exit_parameters_cons. apply IH; [|done].
  case_bool_decide; [|done]. by apply elem_of_remove_other.
Qed.

Lemma exit_parameters_subseteq ps : forall l t, t ∈ exit_parameters ps l -> t ∈ l.
Proof.
  induction ps as [|p ps IH]; intros l t Ht; [done|].
  rewrite exit_parameters_cons in Ht. apply IH in Ht.
  case_bool_decide; [|done]. by apply elem_of_remove in Ht.
Qed.

(** Exit removes each of its tokens from a list of distinct tokens. *)
Lemma exit_parameters_gone ps : forall l t, NoDup l -> t ∈ ps -> t ∉ exit_parameters ps l.
Proof.
  induction ps as [|p ps IH]; intros l t Hl Ht; [by apply elem_of_nil in Ht|].
  rewrite exit_parameters_cons.
  destruct (decide (t = p)) as [->|Hne].
  - intros Hin. apply exit_parameters_subseteq in Hin.
    case_bool_decide; [|done]. by apply (NoDup_remove p l Hl).
  - apply elem_of_cons in Ht as [?|Ht]; [done|]. apply IH; [|done].
    case_bool_decide; [|done]. by apply NoDup_remove.
Qed.

(** Exit undoes what entry appended behind a list that held none of the
    tokens. *)
Lemma exit_parameters_app ps : forall l added,
  (forall t, t ∈ ps -> t ∉ l) -> NoDup added -> (forall t, t ∈ added -> t ∈ ps) ->
  exit_parameters ps (l ++ added) = l.
Proof.
  induction ps as [|p ps IH]; intros l added Hl Hnd Hsub.
  - destruct added as [|a added]; [by rewrite app_nil_r|].
    assert (Ha : a ∈ @nil string) by (apply Hsub; by left). by apply elem_of_nil in Ha.
  - rewrite exit_parameters_cons.
    assert (Hp : p ∉ l) by (apply Hl; by left).
    assert (Hl' : forall t, t ∈ ps -> t ∉ l) by (intros t Ht; apply Hl; by right).
    case_bool_decide as Hin.
    + rewrite remove_app_r by done.
      destruct (NoDup_remove p added Hnd) as [Hnd' Hgone].
      apply IH; [done|done|]. intros t Ht.
      pose proof (elem_of_remove _ _ _ Ht) as Ht'. apply Hsub in Ht'.
      apply elem_of_cons in Ht' as [->|?]; [done|done].
    + apply IH; [done|done|]. intros t Ht.
      pose proof (Hsub t Ht) as [->|?]%elem_of_cons; [|done].
      exfalso. apply Hin, elem_of_app. by right.
Qed.

Lemma exit_enter_parameters ps l :
  (forall t, t ∈ ps -> t ∉ l) -> exit_parameters ps (enter_parameters ps l) = l.
Proof.
  intros Hl. destruct (enter_parameters_app ps l) as (added & -> & Hadded & Hnd).
  apply exit_parameters_app; [done|done|]. intros t Ht. by destruct (Hadded t Ht).
Qed.

End ListFacts.

Section ParameterStack.

Context {CP : ConfigParserLib} {SR : Surroundings}.

Lemma with_parameters_same s : with_parameters s (BUILDOUT_PARAMETERS s) = s.
Proof. by destruct s. Qed.

Lemma with_parameters_twice s l l' :
  with_parameters (with_parameters s l) l' = with_parameters s l'.
Proof. reflexivity. Qed.

Lemma append_parameter_run param s :
  append_parameter param s =
  (Ok tt, with_parameters s (if bool_decide (param ∈ BUILDOUT_PARAMETERS s)
                             then BUILDOUT_PARAMETERS s
                             else BUILDOUT_PARAMETERS s ++ [ param ])).
Proof.
  unfold append_parameter, mbind, M_bind, get_state.
  case_bool_decide; [by rewrite with_parameters_same|done].
Qed.

Lemma remove_parameter_run param s :
  remove_parameter param s =
  (Ok tt, with_parameters s (if bool_decide (param ∈ BUILDOUT_PARAMETERS s)
                             then PyList.remove param (BUILDOUT_PARAMETERS s)
                             else BUILDOUT_PARAMETERS s)).
Proof.
  unfold remove_parameter, mbind, M_bind, get_state.
  case_bool_decide; [done|by rewrite with_parameters_same].
Qed.

Lemma for_each_append_parameter parameters : forall s,
  for_each parameters append_parameter s =
  (Ok tt, with_parameters s (enter_parameters parameters (BUILDOUT_PARAMETERS s))).
Proof.
  induction parameters as [|p ps IH]; intros s; simpl.
  - by rewrite with_parameters_same.
  - unfold mbind, M_bind. rewrite append_parameter_run, IH. reflexivity.
Qed.

Lemma for_each_remove_parameter parameters : forall s,
  for_each parameters remove_parameter s =
  (Ok tt, with_parameters s (exit_parameters parameters (BUILDOUT_PARAMETERS s))).
Proof.
  induction parameters as [|p ps IH]; intros s; simpl.
  - by rewrite with_parameters_same.
  - unfold mbind, M_bind. rewrite remove_parameter_run, IH. reflexivity.
Qed.

(** The scope as a whole: the body runs on the entered list, then the exit
    runs on whatever list the body left, whether it returned or raised. *)
Lemma buildout_parameters_context_run {A} parameters (body : M A) s :
  buildout_parameters_context parameters body s =
  let entered := with_parameters s (enter_parameters parameters (BUILDOUT_PARAMETERS s)) in
  ((body entered).1,
   with_parameters (body entered).2
     (exit_parameters parameters (BUILDOUT_PARAMETERS (body entered).2))).
Proof.
  unfold buildout_parameters_context, try_finally, mbind, M_bind.
  rewrite for_each_append_parameter. simpl.
  destruct (body _) as [r s1]. rewrite for_each_remove_parameter. by destruct r.
Qed.

Lemma buildout_parameters_context_neutral_at {A} parameters (body : M A) s :
  (forall t, t ∈ parameters -> t ∉ BUILDOUT_PARAMETERS s) ->
  (let entered := with_parameters s (enter_parameters parameters (BUILDOUT_PARAMETERS s)) in
   BUILDOUT_PARAMETERS (body entered).2 = BUILDOUT_PARAMETERS entered) ->
  BUILDOUT_PARAMETERS (buildout_parameters_context parameters body s).2 = BUILDOUT_PARAMETERS s.
Proof.
  intros Hfresh Hbody. rewrite buildout_parameters_context_run. simpl in *.
  rewrite Hbody. by apply exit_enter_parameters.
Qed.

(** C1 (amended): a token that is in the list before a scope is entered is
    still in it after the scope exits provided the scope was not activated
    with that token (and the body does not drop it); a token the scope was
    activated with is taken out of a list of distinct tokens on exit, also
    when it was there before the scope. *)
Theorem scope_keeps_only_foreign_tokens {A} (parameters : list string) (body : M A)
    (s : State) (t : string) :
  t ∈ BUILDOUT_PARAMETERS s ->
  (t ∉ parameters ->
   (forall s1, t ∈ BUILDOUT_PARAMETERS s1 -> t ∈ BUILDOUT_PARAMETERS (body s1).2) ->
   t ∈ BUILDOUT_PARAMETERS (buildout_parameters_context parameters body s).2) /\
  (t ∈ parameters ->
   NoDup (BUILDOUT_PARAMETERS s) ->
   stack_neutral body ->
   t ∉ BUILDOUT_PARAMETERS (buildout_parameters_context parameters body s).2).
Proof.
  intros Ht. rewrite buildout_parameters_context_run. simpl. split.
  - intros Hforeign Hbody. apply exit_parameters_other; [|done].
    apply Hbody. simpl. by apply enter_parameters_elem.
  - intros Hgiven Hnd Hbody. rewrite Hbody. simpl.
    apply exit_parameters_gone; [|done]. by apply enter_parameters_NoDup.
Qed.

(** C4 (amended): for token lists T1 and T2 that share no token and hold no
    token of the list as it is before the outer scope, entering a scope with
    T2, then one with T1, running a body that leaves the list alone, and
    leaving both scopes gives back the list as it was. *)
Theorem nested_scopes_restore {A} (T1 T2 : list string) (body : M A) (s : State) :
  (forall t, t ∈ T1 -> t ∉ T2) ->
  (forall t, t ∈ T1 -> t ∉ BUILDOUT_PARAMETERS s) ->
  (forall t, t ∈ T2 -> t ∉ BUILDOUT_PARAMETERS s) ->
  stack_neutral body ->
  BUILDOUT_PARAMETERS
    (buildout_parameters_context T2 (buildout_parameters_context T1 body) s).2
  = BUILDOUT_PARAMETERS s.
Proof.
  intros H12 H1 H2 Hbody.
  apply buildout_parameters_context_neutral_at; [done|]. simpl.
  apply buildout_parameters_context_neutral_at; [|apply Hbody]. simpl.
  intros t Ht Hin.
  destruct (enter_parameters_app T2 (BUILDOUT_PARAMETERS s)) as (added & Heq & Hadded & _).
  rewrite Heq in Hin. apply elem_of_app in Hin as [Hin|Hin].
  - by apply (H1 t).
  - apply (H12 t Ht). by destruct (Hadded t Hin).
Qed.

Lemma mret_stack_neutral {A} (x : A) : stack_neutral (mret x).
Proof. intros s. reflexivity. Qed.

End ParameterStack.

(** Membership in an explicit list of tokens. *)
Ltac token_in := repeat first [ by left | right ].
Ltac token_not_in :=
  let H := fresh in
  intros H; repeat (apply elem_of_cons in H as [H|H]; [discriminate H|]);
  by apply elem_of_nil in H.
Ltac tokens_fresh :=
  let t := fresh "t" in let H := fresh "H" in
  intros t H;
  repeat (apply elem_of_cons in H as [->|H]; [token_not_in|]);
  by apply elem_of_nil in H.

(** C1, refuted as stated: inside [submodule_update] the list is "-s",
    "buildout:develop="; a scope activated there with "buildout:develop="
    finds the token present, and its exit removes it. *)
Lemma preexisting_token_removed :
  let inside :=
    @with_parameters Reference.config_parser Reference.project
      [ "-s"; "buildout:develop=" ] in
  "buildout:develop=" ∈ BUILDOUT_PARAMETERS inside /\
  "buildout:develop=" ∉
    BUILDOUT_PARAMETERS
      (@buildout_parameters_context Reference.config_parser unit
         [ "buildout:develop=" ] (mret tt) inside).2.
Proof.
  split; [token_in|].
  change (BUILDOUT_PARAMETERS _) with [ "-s" ]. token_not_in.
Qed.

Lemma scope_keeps_only_foreign_tokens_witness :
  "-s" ∈ BUILDOUT_PARAMETERS
           (@buildout_parameters_context Reference.config_parser unit
              [ "-n"; "-o" ] (mret tt) Reference.project).2 /\
  "-s" ∉ BUILDOUT_PARAMETERS
           (@buildout_parameters_context Reference.config_parser unit
              [ "-s" ] (mret tt) Reference.project).2.
Proof.
  split.
  - apply (@scope_keeps_only_foreign_tokens Reference.config_parser unit
             [ "-n"; "-o" ] (mret tt) Reference.project "-s"); [token_in|token_not_in|].
    intros s1 H. exact H.
  - apply (@scope_keeps_only_foreign_tokens Reference.config_parser unit
             [ "-s" ] (mret tt) Reference.project "-s"); [token_in|token_in| |].
    + apply NoDup_singleton.
    + apply mret_stack_neutral.
Defined.

(** C4, refuted as stated: "-s" is in the list from the start, so a scope
    activated with it, around a scope with "-n", ends with the list empty. *)
Lemma nested_scopes_lose_initial_token :
  (forall t : string, t ∈ [ "-n" ] -> t ∉ [ "-s" ]) /\
  BUILDOUT_PARAMETERS
    (@buildout_parameters_context Reference.config_parser unit [ "-s" ]
       (buildout_parameters_context [ "-n" ] (mret tt)) Reference.project).2 = [] /\
  BUILDOUT_PARAMETERS Reference.project = [ "-s" ].
Proof. split; [tokens_fresh|split; reflexivity]. Qed.

Lemma nested_scopes_restore_witness :
  BUILDOUT_PARAMETERS
    (@buildout_parameters_context Reference.config_parser unit [ "-n"; "-o" ]
       (buildout_parameters_context [ "buildout:develop=" ] (mret tt)) Reference.project).2
  = BUILDOUT_PARAMETERS Reference.project.
Proof.
  apply (@nested_scopes_restore Reference.config_parser unit
           [ "buildout:develop=" ] [ "-n"; "-o" ] (mret tt) Reference.project);
    [tokens_fresh|tokens_fresh|tokens_fresh|apply mret_stack_neutral].
Defined.

(** ** Statements that leave the parameter list alone *)

Section Neutrality.

Context {CP : ConfigParserLib} {SR : Surroundings}.

Lemma stack_neutral_bind {A B} (m : M A) (f : A -> M B) :
  stack_neutral m -> (forall x, stack_neutral (f x)) -> stack_neutral (m ≫= f).
Proof.
  intros Hm Hf s. unfold mbind, M_bind. specialize (Hm s).
  destruct (m s) as [[x|e] s1]; simpl in *; [|done].
  by rewrite Hf.
Qed.

Lemma stack_neutral_raise {A} e : stack_neutral (@raise _ A e).
Proof. by intros s. Qed.

Lemma stack_neutral_get_state : stack_neutral get_state.
Proof. by intros s. Qed.

Lemma stack_neutral_log e : stack_neutral (log e).
Proof. by intros s. Qed.

Lemma stack_neutral_set_files f : stack_neutral (set_files f).
Proof. by intros s. Qed.

Lemma stack_neutral_set_cwd d : stack_neutral (set_cwd d).
Proof. by intros s. Qed.

Lemma stack_neutral_set_parsers l : stack_neutral (set_parsers l).
Proof. by intros s. Qed.

Lemma stack_neutral_tick : stack_neutral tick.
Proof. by intros s. Qed.

Lemma stack_neutral_try_finally {A} (body : M A) cleanup :
  stack_neutral body -> stack_neutral cleanup -> stack_neutral (try_finally body cleanup).
Proof.
  intros Hb Hc s. unfold try_finally. specialize (Hb s).
  destruct (body s) as [r s1]. specialize (Hc s1).
  destruct (cleanup s1) as [[[]|e] s2]; simpl in *; congruence.
Qed.

Lemma stack_neutral_try_except {A} (body handler : M A) :
  stack_neutral body -> stack_neutral handler ->
  stack_neutral (try_except_ExecutionError body handler).
Proof.
  intros Hb Hh s. unfold try_except_ExecutionError. specialize (Hb s).
  destruct (body s) as [[x|e] s1]; simpl in *; [done|].
  destruct e; simpl; try done. by rewrite Hh.
Qed.

Lemma stack_neutral_for_each {A} (items : list A) body :
  (forall x, stack_neutral (body x)) -> stack_neutral (for_each items body).
Proof.
  intros Hb. induction items as [|x items IH]; simpl.
  - apply mret_stack_neutral.
  - apply stack_neutral_bind; [apply Hb|by intros _].
Qed.

Lemma stack_neutral_filter_m {A} (cond : A -> M bool) items :
  (forall x, stack_neutral (cond x)) -> stack_neutral (filter_m cond items).
Proof.
  intros Hc. induction items as [|x items IH]; simpl.
  - apply mret_stack_neutral.
  - apply stack_neutral_bind; [apply Hc|intros keep].
    apply stack_neutral_bind; [apply IH|intros kept]. apply mret_stack_neutral.
Qed.

End Neutrality.

Create HintDb neutral discriminated.

(** Decomposition of a statement into binds, branches and the primitives
    above; statements already shown neutral are taken from the hints. *)
Ltac neutral_step :=
  first
    [ assumption
    | solve [ auto 1 with neutral nocore ]
    | match goal with
      | H : forall x, stack_neutral _ |- _ => apply H
      | |- stack_neutral (match ?x with _ => _ end) => destruct x
      end
    | progress cbv zeta
    | apply stack_neutral_bind; [|intros ?]
    | apply mret_stack_neutral
    | apply stack_neutral_raise
    | apply stack_neutral_get_state
    | apply stack_neutral_log
    | apply stack_neutral_set_files
    | apply stack_neutral_set_cwd
    | apply stack_neutral_set_parsers
    | apply stack_neutral_tick
    | apply stack_neutral_try_finally
    | apply stack_neutral_try_except
    | apply stack_neutral_for_each; intros ?
    | apply stack_neutral_filter_m; intros ? ].
Ltac neutral := repeat neutral_step.

Section NeutralStatements.

Context {CP : ConfigParserLib} {SR : Surroundings}.

Lemma stack_neutral_when b m : stack_neutral m -> stack_neutral (when b m).
Proof. intros Hm. unfold when. neutral. Qed.

Lemma stack_neutral_lift_result {A} (r : Result A) : stack_neutral (lift_result r).
Proof. unfold lift_result. neutral. Qed.

Lemma stack_neutral_os_path_abspath p : stack_neutral (os_path_abspath p).
Proof. unfold os_path_abspath. neutral. Qed.

Lemma stack_neutral_os_path_exists p : stack_neutral (os_path_exists p).
Proof. unfold os_path_exists. neutral. Qed.

Lemma stack_neutral_os_path_isdir p : stack_neutral (os_path_isdir p).
Proof. unfold os_path_isdir. neutral. Qed.

Lemma stack_neutral_os_chdir p : stack_neutral (os_chdir p).
Proof. unfold os_chdir. neutral. Qed.

Lemma stack_neutral_os_mkdir p : stack_neutral (os_mkdir p).
Proof. unfold os_mkdir. neutral. Qed.

Lemma stack_neutral_os_makedirs p : stack_neutral (os_makedirs p).
Proof. unfold os_makedirs. neutral. Qed.

Lemma stack_neutral_os_remove p : stack_neutral (os_remove p).
Proof. unfold os_remove. neutral. Qed.

Lemma stack_neutral_shutil_rmtree p : stack_neutral (shutil_rmtree p).
Proof. unfold shutil_rmtree. neutral. Qed.

Lemma stack_neutral_write_file p text : stack_neutral (write_file p text).
Proof. unfold write_file. neutral. Qed.

Lemma stack_neutral_append_file p text : stack_neutral (append_file p text).
Proof. unfold append_file. neutral. Qed.

Lemma stack_neutral_shutil_copy src dst : stack_neutral (shutil_copy src dst).
Proof. unfold shutil_copy. neutral. Qed.

Lemma stack_neutral_collaborator failure call : stack_neutral (collaborator failure call).
Proof. unfold collaborator. neutral. Qed.

End NeutralStatements.

#[global] Hint Resolve
  stack_neutral_lift_result stack_neutral_os_path_abspath stack_neutral_os_path_exists
  stack_neutral_os_path_isdir stack_neutral_os_chdir stack_neutral_os_mkdir
  stack_neutral_os_makedirs stack_neutral_os_remove stack_neutral_shutil_rmtree
  stack_neutral_write_file stack_neutral_append_file stack_neutral_shutil_copy
  stack_neutral_collaborator : neutral.

Ltac neutral_more := repeat first [ neutral_step | apply stack_neutral_when ].

Section NeutralProgram.

Context {CP : ConfigParserLib} {SR : Surroundings}.

Lemma stack_neutral_new_parser : stack_neutral new_parser.
Proof. unfold new_parser. neutral. Qed.

Lemma stack_neutral_deref h : stack_neutral (deref h).
Proof. unfold deref. neutral. Qed.

Lemma stack_neutral_assign h p : stack_neutral (assign h p).
Proof. unfold assign. neutral. Qed.

Lemma stack_neutral_parser_read h path : stack_neutral (parser_read h path).
Proof.
  unfold parser_read. pose proof stack_neutral_deref. pose proof stack_neutral_assign.
  neutral_more.
Qed.

Lemma stack_neutral_parser_sections h : stack_neutral (parser_sections h).
Proof. unfold parser_sections. pose proof stack_neutral_deref. neutral_more. Qed.

Lemma stack_neutral_parser_has_option h section option :
  stack_neutral (parser_has_option h section option).
Proof. unfold parser_has_option. pose proof stack_neutral_deref. neutral_more. Qed.

Lemma stack_neutral_parser_get h section option : stack_neutral (parser_get h section option).
Proof. unfold parser_get. pose proof stack_neutral_deref. neutral_more. Qed.

Lemma stack_neutral_parser_set h section option value :
  stack_neutral (parser_set h section option value).
Proof.
  unfold parser_set. pose proof stack_neutral_deref. pose proof stack_neutral_assign.
  neutral_more.
Qed.

Lemma stack_neutral_parser_write h path : stack_neutral (parser_write h path).
Proof. unfold parser_write. pose proof stack_neutral_deref. neutral_more. Qed.

Lemma stack_neutral_chdir {A} path (body : M A) :
  stack_neutral body -> stack_neutral (chdir path body).
Proof. intros Hbody. unfold chdir, _chdir_and_log. neutral_more. Qed.

Lemma stack_neutral_open_buildout_configfile {A} filepath (body : nat -> M A) :
  (forall parser, stack_neutral (body parser)) ->
  stack_neutral (open_buildout_configfile filepath body).
Proof.
  intros Hbody. unfold open_buildout_configfile.
  pose proof stack_neutral_new_parser. pose proof stack_neutral_parser_read.
  pose proof stack_neutral_parser_write. neutral_more.
Qed.

Lemma stack_neutral_call_open_buildout_configfile {A} kwargs (body : nat -> M A) :
  (forall parser, stack_neutral (body parser)) ->
  stack_neutral (call_open_buildout_configfile kwargs body).
Proof.
  intros Hbody. unfold call_open_buildout_configfile.
  destruct (List.find _ kwargs); [apply stack_neutral_raise|].
  destruct (List.find _ kwargs) as [[key []]|];
    first [ apply stack_neutral_raise | by apply stack_neutral_open_buildout_configfile ].
Qed.

Lemma stack_neutral_execute_assert_success args : stack_neutral (execute_assert_success args).
Proof. apply stack_neutral_collaborator. Qed.

Lemma stack_neutral_get_executable : stack_neutral _get_executable_from_shebang_line.
Proof. unfold _get_executable_from_shebang_line. neutral. Qed.

Lemma stack_neutral_execute_with_python c : stack_neutral (execute_with_python c).
Proof.
  unfold execute_with_python. pose proof stack_neutral_get_executable.
  pose proof stack_neutral_execute_assert_success. neutral_more.
Qed.

Lemma stack_neutral_execute_with_buildout c : stack_neutral (execute_with_buildout c).
Proof.
  unfold execute_with_buildout. pose proof stack_neutral_execute_assert_success. neutral_more.
Qed.

Lemma stack_neutral_release_version_with_git_flow tag :
  stack_neutral (release_version_with_git_flow tag).
Proof. unfold release_version_with_git_flow. neutral_more. Qed.

Lemma stack_neutral_git_checkout branch : stack_neutral (git_checkout branch).
Proof.
  intros s. unfold git_checkout.
  pose proof (stack_neutral_collaborator CollaboratorError (GitCheckout branch) s) as H.
  destruct (collaborator _ _ s) as [[x|e] s1]; [done|]. by destruct e.
Qed.

End NeutralProgram.

#[global] Hint Resolve
  stack_neutral_new_parser stack_neutral_deref stack_neutral_assign stack_neutral_parser_read
  stack_neutral_parser_sections stack_neutral_parser_has_option stack_neutral_parser_get
  stack_neutral_parser_set stack_neutral_parser_write stack_neutral_execute_assert_success
  stack_neutral_execute_with_python stack_neutral_execute_with_buildout
  stack_neutral_release_version_with_git_flow stack_neutral_git_checkout : neutral.

Ltac neutral_all :=
  repeat first
    [ neutral_step
    | apply stack_neutral_when
    | apply stack_neutral_chdir
    | apply stack_neutral_call_open_buildout_configfile; intros ? ].

Section NeutralPlugins.

Context {CP : ConfigParserLib} {SR : Surroundings}.

Lemma stack_neutral_is_executable_exists p : stack_neutral (is_executable_exists p).
Proof. apply stack_neutral_os_path_exists. Qed.

Lemma stack_neutral_create_cache_directories : stack_neutral create_cache_directories.
Proof. unfold create_cache_directories. neutral_all. Qed.

Lemma stack_neutral_bootstrap_if_necessary arguments :
  stack_neutral (bootstrap_if_necessary arguments).
Proof.
  unfold bootstrap_if_necessary. pose proof stack_neutral_is_executable_exists. neutral_all.
Qed.

Lemma stack_neutral_install_sections_by_recipe recipe :
  stack_neutral (install_sections_by_recipe recipe).
Proof. unfold install_sections_by_recipe. neutral_all. Qed.

Lemma stack_neutral_clean_build : stack_neutral clean_build.
Proof. unfold clean_build. neutral_all. Qed.

Lemma stack_neutral_is_module_installed module : stack_neutral (is_module_installed module).
Proof. unfold is_module_installed. neutral_all. Qed.

Lemma stack_neutral_install_readline : stack_neutral install_readline.
Proof. unfold install_readline. pose proof stack_neutral_is_module_installed. neutral_all. Qed.

Lemma stack_neutral_relocate arguments : stack_neutral (relocate arguments).
Proof. unfold relocate. neutral_all. Qed.

Lemma stack_neutral_as_str v : stack_neutral (as_str v).
Proof. unfold as_str. neutral. Qed.

Lemma stack_neutral_create_subdir {A} arguments (body : M A) :
  stack_neutral body -> stack_neutral (_create_subdir_if_necessary arguments body).
Proof.
  intros Hbody. unfold _create_subdir_if_necessary. pose proof stack_neutral_as_str.
  neutral_all.
Qed.

Lemma stack_neutral_set_buildout_config arguments :
  stack_neutral (set_buildout_config arguments).
Proof.
  unfold set_buildout_config, generate_package_code. pose proof stack_neutral_as_str.
  neutral_all.
Qed.

Lemma stack_neutral_generate_src arguments : stack_neutral (generate_src arguments).
Proof.
  unfold generate_src, get_package_directories. pose proof stack_neutral_as_str. neutral_all.
Qed.

Lemma stack_neutral_init arguments : stack_neutral (init arguments).
Proof.
  unfold init. apply stack_neutral_create_subdir.
  pose proof stack_neutral_set_buildout_config. pose proof stack_neutral_generate_src.
  pose proof stack_neutral_as_str.
  unfold _exit_if_dotgit_exists, git_init, gitflow_init, release_initial_version,
    git_checkout_develop, add_initial_files, append_to_gitignore, commit_all.
  neutral_all.
Qed.

Lemma stack_neutral_clone arguments : stack_neutral (clone arguments).
Proof.
  unfold clone. apply stack_neutral_create_subdir.
  unfold git_clone, git_checkout_develop, gitflow_init. neutral_all.
Qed.

(** C5 (amended): at process start the list holds the one token "-s"; a
    scope hands its body the list after entry and leaves the list its exit
    makes of what the body left; every other statement of the three modules
    leaves the list as it found it. *)
Theorem parameter_stack_lifecycle :
  (forall directory disk,
      BUILDOUT_PARAMETERS (process_start directory disk) = [ "-s" ]) /\
  (forall A parameters (body : M A) s,
      let entered :=
        with_parameters s (enter_parameters parameters (BUILDOUT_PARAMETERS s)) in
      BUILDOUT_PARAMETERS (buildout_parameters_context parameters body s).2 =
      exit_parameters parameters (BUILDOUT_PARAMETERS (body entered).2)) /\
  (forall c, stack_neutral (execute_with_buildout c)) /\
  (forall c, stack_neutral (execute_with_python c)) /\
  (forall A path (body : M A), stack_neutral body -> stack_neutral (chdir path body)) /\
  (forall A kwargs (body : nat -> M A),
      (forall parser, stack_neutral (body parser)) ->
      stack_neutral (call_open_buildout_configfile kwargs body)) /\
  (forall tag, stack_neutral (release_version_with_git_flow tag)) /\
  (forall branch, stack_neutral (git_checkout branch)) /\
  stack_neutral create_cache_directories /\
  (forall arguments, stack_neutral (bootstrap_if_necessary arguments)) /\
  (forall recipe, stack_neutral (install_sections_by_recipe recipe)) /\
  stack_neutral clean_build /\
  stack_neutral install_readline /\
  (forall arguments, stack_neutral (relocate arguments)) /\
  (forall arguments, stack_neutral (init arguments)) /\
  (forall arguments, stack_neutral (clone arguments)).
Proof.
  split; [reflexivity|].
  split; [intros A parameters body s; by rewrite buildout_parameters_context_run|].
  split; [apply stack_neutral_execute_with_buildout|].
  split; [apply stack_neutral_execute_with_python|].
  split; [intros A path body; apply stack_neutral_chdir|].
  split; [intros A kwargs body; apply stack_neutral_call_open_buildout_configfile|].
  split; [apply stack_neutral_release_version_with_git_flow|].
  split; [apply stack_neutral_git_checkout|].
  split; [apply stack_neutral_create_cache_directories|].
  split; [apply stack_neutral_bootstrap_if_necessary|].
  split; [apply stack_neutral_install_sections_by_recipe|].
  split; [apply stack_neutral_clean_build|].
  split; [apply stack_neutral_install_readline|].
  split; [apply stack_neutral_relocate|].
  split; [apply stack_neutral_init|apply stack_neutral_clone].
Qed.

End NeutralPlugins.

(** C5, refuted as stated: the list is not empty at process start. *)
Lemma parameter_stack_not_empty_at_start :
  BUILDOUT_PARAMETERS (@process_start Reference.config_parser "/work" ∅) <> [].
Proof. discriminate. Qed.

(** ** The repository pipeline *)

Section Repository.

Context {CP : ConfigParserLib} {SR : Surroundings}.

(** C3, evaluated on the code: [set_buildout_config] opens the store with
    the keyword [write_on_exit], which [open_buildout_configfile] does not
    take; for every command line and every state the call raises the
    [TypeError] of the failed binding, before a parser exists and before any
    value is set. *)
Theorem set_buildout_config_raises (arguments : Arguments) (s : State) :
  set_buildout_config arguments s =
  (Raise (unexpected_keyword "open_buildout_configfile" "write_on_exit"), s).
Proof. reflexivity. Qed.

Lemma _exit_if_dotgit_exists_run s :
  _exit_if_dotgit_exists s =
  if bool_decide (is_Some (files s !! resolve s ".git"))
  then (Raise (SystemExit 1), s) else (Ok tt, s).
Proof.
  unfold _exit_if_dotgit_exists, os_path_exists, entry, mbind, M_bind, get_state, mret,
    M_ret. simpl. by case_bool_decide.
Qed.

Lemma init_in_place arguments s :
  truthy (args_get arguments "--mkdir") = false ->
  is_Some (files s !! resolve s ".git") ->
  init arguments s = (Raise (SystemExit 1), s).
Proof.
  intros Hmkdir Hgit. unfold init, _create_subdir_if_necessary. rewrite Hmkdir. simpl.
  unfold mbind at 1. unfold M_bind. rewrite _exit_if_dotgit_exists_run.
  by rewrite bool_decide_eq_true_2.
Qed.

(** C8: [repository init] without [--mkdir], in a directory that has a
    [.git] entry, raises [SystemExit(1)] and leaves the whole state as it
    was: no file is written, copied or created, no collaborator is called
    and no configuration object exists. *)
Theorem init_stops_at_existing_repository (arguments : Arguments) (s : State) :
  truthy (args_get arguments "init") = true ->
  truthy (args_get arguments "clone") = false ->
  truthy (args_get arguments "--mkdir") = false ->
  is_Some (files s !! resolve s ".git") ->
  parse_commandline_arguments arguments s = (Raise (SystemExit 1), s) /\
  init arguments s = (Raise (SystemExit 1), s).
Proof.
  intros Hinit Hclone Hmkdir Hgit. split; [|by apply init_in_place].
  unfold parse_commandline_arguments. simpl.
  rewrite !filter_cons, filter_nil. simpl.
  rewrite decide_True by done. rewrite decide_False by (rewrite Hclone; discriminate).
  simpl. by apply init_in_place.
Qed.

End Repository.

Lemma init_stops_at_existing_repository_witness :
  @parse_commandline_arguments Reference.config_parser Reference.quiet
    init_command_line Reference.project = (Raise (SystemExit 1), Reference.project) /\
  @init Reference.config_parser Reference.quiet init_command_line Reference.project
  = (Raise (SystemExit 1), Reference.project).
Proof.
  apply (@init_stops_at_existing_repository Reference.config_parser Reference.quiet
           init_command_line Reference.project);
    [reflexivity|reflexivity|reflexivity|].
  by exists Dir.
Defined.

(** The same command in a directory without [.git], with every collaborator
    succeeding: the run ends at the configuration step with the [TypeError],
    and no [src] directory is made. *)
Lemma init_ends_at_configuration_step :
  let fresh := @process_start Reference.config_parser "/work" {[ "/work" := Dir ]} in
  let outcome := @init Reference.config_parser Reference.quiet init_command_line fresh in
  outcome.1 = Raise (unexpected_keyword "open_buildout_configfile" "write_on_exit") /\
  files outcome.2 !! "/work/src" = None.
Proof. split; reflexivity. Qed.

(** ** The build pipeline *)

Section Bootstrap.

Context {CP : ConfigParserLib} {SR : Surroundings}.

Lemma os_path_exists_run path s :
  os_path_exists path s = (Ok (bool_decide (is_Some (entry s path))), s).
Proof. reflexivity. Qed.

Lemma entry_named s path : path <> "" -> entry s path = files s !! resolve s path.
Proof. intros Hpath. unfold entry. by rewrite (proj2 (String.eqb_neq _ _) Hpath). Qed.

(** A child process: the call is recorded, the surroundings decide the rest;
    it never raises [SystemExit]. *)
Lemma execute_assert_success_run args s :
  let after := perform (Execute args) (cwd s) (files s) in
  execute_assert_success args s =
  ((if after.1 then Ok tt else Raise ExecutionError),
   mkState (BUILDOUT_PARAMETERS s) (cwd s) after.2 (trace s ++ [ EvCall (Execute args) ])
           (parsers s) (uuid_clock s)).
Proof.
  unfold execute_assert_success, collaborator, mbind, M_bind, log, get_state, set_files. simpl.
  by destruct (perform _ _ _) as [[] disk].
Qed.

Lemma execute_with_python_bootstrap s :
  execute_with_python (CmdString "bootstrap.py -d -t") s =
  execute_assert_success bootstrap_command s.
Proof.
  unfold execute_with_python, bootstrap_command, mbind, M_bind. simpl.
  by destruct is_running_inside_virtualenv.
Qed.

Lemma bootstrap_if_necessary_run arguments s :
  bootstrap_if_necessary arguments s =
  if negb (bool_decide (is_Some (files s !! resolve s "bootstrap.py")))
  then (Raise (SystemExit 1), s)
  else if negb (bool_decide (is_Some (files s !! resolve s (os_path.join "bin" "buildout"))))
          || truthy (args_get_or_false arguments "--force-bootstrap")
       then execute_assert_success bootstrap_command s
       else (Ok tt, s).
Proof.
  unfold bootstrap_if_necessary, is_executable_exists, mbind, M_bind.
  rewrite os_path_exists_run. destruct (negb _); [done|].
  rewrite os_path_exists_run. unfold when. destruct (_ || _); [|done].
  apply execute_with_python_bootstrap.
Qed.

(** C6: [bootstrap_if_necessary] raises [SystemExit(1)] exactly when
    [bootstrap.py] is absent, and then nothing has happened.  When it is
    present, the bootstrap process is run exactly when [bin/buildout] is
    absent or [--force-bootstrap] is set: the interpreter is launched on
    [bootstrap.py -d -t], the files are what the process leaves, and the step
    returns when the process succeeds and raises its [ExecutionError] when it
    fails.  Otherwise the step returns with the state untouched. *)
Theorem bootstrap_gate (arguments : Arguments) (s : State) :
  let script := bool_decide (is_Some (files s !! resolve s "bootstrap.py")) in
  let buildout :=
    bool_decide (is_Some (files s !! resolve s (os_path.join "bin" "buildout"))) in
  let force := truthy (args_get_or_false arguments "--force-bootstrap") in
  let launch := Execute bootstrap_command in
  let outcome := bootstrap_if_necessary arguments s in
  (outcome.1 = Raise (SystemExit 1) <-> script = false) /\
  (script = false -> outcome.2 = s) /\
  (script = true ->
   (negb buildout || force = true ->
    outcome = ((if call_succeeds launch s then Ok tt else Raise ExecutionError),
               after_call launch s)) /\
   (trace outcome.2 = trace s ++ [ EvCall launch ] <-> negb buildout || force = true) /\
   (negb buildout || force = false -> outcome = (Ok tt, s))).
Proof.
  simpl. rewrite bootstrap_if_necessary_run.
  destruct (bool_decide (is_Some (files s !! resolve s "bootstrap.py"))); simpl.
  - destruct (negb _ || _); simpl.
    + pose proof (execute_assert_success_run bootstrap_command s) as Hrun. simpl in Hrun.
      rewrite Hrun. simpl. split; [|split; [done|split; [done|split; [done|done]]]].
      split; [|done]. by destruct (perform _ _ _).1.
    + split; [done|]. split; [done|]. split; [done|]. split; [|done].
      split; [|done]. intros Heq. apply (f_equal length) in Heq.
      rewrite length_app in Heq. simpl in Heq. lia.
  - split; [done|]. split; [done|]. done.
Qed.

End Bootstrap.

(** ** The configuration store *)

Section ConfigurationStore.

Context {CP : ConfigParserLib} {SR : Surroundings}.

Lemma mkdir_if_missing_keeps disk path key node :
  disk !! key = Some node -> mkdir_if_missing disk path !! key = Some node.
Proof.
  intros Hkey. unfold mkdir_if_missing.
  destruct (disk !! path) eqn:Hpath; [done|].
  rewrite lookup_insert_ne; [done|]. intros ->. congruence.
Qed.

Lemma makedirs_keeps paths : forall disk key node,
  disk !! key = Some node -> fold_left mkdir_if_missing paths disk !! key = Some node.
Proof.
  induction paths as [|p paths IH]; intros disk key node Hkey; simpl; [done|].
  by apply IH, mkdir_if_missing_keeps.
Qed.

(** The scope on a file that reads as [p]: the body runs with a parser
    object holding [p]; whatever the body does, the object is then written
    to the file. *)
Lemma open_buildout_configfile_run {A} filepath (body : nat -> M A) s p :
  parsed_config s filepath = Ok p ->
  open_buildout_configfile filepath body s =
  try_finally (body (length (parsers s))) (parser_write (length (parsers s)) filepath)
    (mkState (BUILDOUT_PARAMETERS s) (cwd s) (files s) (trace s) (parsers s ++ [ p ])
             (uuid_clock s)).
Proof.
  intros Hp. unfold parsed_config in Hp.
  unfold open_buildout_configfile, new_parser, parser_read, deref, assign, lift_result,
    mbind, M_bind, get_state, set_parsers, mret, M_ret, resolve in *. simpl.
  assert (Hlast : (parsers s ++ [ cp_new ]) !! length (parsers s) = Some cp_new)
    by apply list_lookup_middle, eq_refl.
  destruct (files s !! _) as [[text|]|]; simpl.
  - rewrite Hlast, Hp. simpl.
    rewrite insert_app_r_alt by lia. by rewrite Nat.sub_diag.
  - by injection Hp as <-.
  - by injection Hp as <-.
Qed.

Lemma write_file_run path text s :
  write_file path text s =
  if can_write s path
  then (Ok tt,
        mkState (BUILDOUT_PARAMETERS s) (cwd s)
                (<[resolve s path := File text]> (files s))
                (trace s ++ [ EvWrite (resolve s path) ]) (parsers s) (uuid_clock s))
  else (Raise IOError, s).
Proof.
  unfold write_file, mbind, M_bind, get_state, set_files, log, raise. simpl.
  by destruct (can_write s path).
Qed.

Lemma parser_write_run handle filepath s q :
  parsers s !! handle = Some q ->
  parser_write handle filepath s =
  if can_write s filepath
  then (Ok tt,
        mkState (BUILDOUT_PARAMETERS s) (cwd s)
                (<[resolve s filepath := File (cp_write q)]> (files s))
                (trace s ++ [ EvWrite (resolve s filepath) ]) (parsers s) (uuid_clock s))
  else (Raise IOError, s).
Proof.
  intros Hq.
  unfold parser_write, deref, write_file, mbind, M_bind, get_state, set_files, log, mret,
    M_ret, raise. simpl. rewrite Hq. simpl. by destruct (can_write s filepath).
Qed.

(** The exit of the scope: the object the body left is written to the file
    name as it resolves when the body is over; when the file cannot be opened
    for writing, the [IOError] of the [open] is the outcome instead. *)
Lemma open_buildout_configfile_exit {A} filepath (body : nat -> M A) s p r s1 q :
  parsed_config s filepath = Ok p ->
  body (length (parsers s))
       (mkState (BUILDOUT_PARAMETERS s) (cwd s) (files s) (trace s) (parsers s ++ [ p ])
                (uuid_clock s)) = (r, s1) ->
  parsers s1 !! length (parsers s) = Some q ->
  open_buildout_configfile filepath body s =
  if can_write s1 filepath
  then (r, mkState (BUILDOUT_PARAMETERS s1) (cwd s1)
                   (<[resolve s1 filepath := File (cp_write q)]> (files s1))
                   (trace s1 ++ [ EvWrite (resolve s1 filepath) ]) (parsers s1)
                   (uuid_clock s1))
  else (Raise IOError, s1).
Proof.
  intros Hp Hbody Hq. rewrite (open_buildout_configfile_run _ _ _ p Hp).
  unfold try_finally. rewrite Hbody, (parser_write_run _ _ _ q Hq).
  by destruct (can_write s1 filepath).
Qed.

(** A body that only reads: the file is rewritten all the same. *)
Lemma open_buildout_configfile_reading {A} filepath (body : nat -> M A) s p :
  parsed_config s filepath = Ok p ->
  can_write s filepath = true ->
  (forall handle s1, (body handle s1).2 = s1) ->
  let opened :=
    mkState (BUILDOUT_PARAMETERS s) (cwd s) (files s) (trace s) (parsers s ++ [ p ])
            (uuid_clock s) in
  open_buildout_configfile filepath body s =
  ((body (length (parsers s)) opened).1,
   mkState (BUILDOUT_PARAMETERS s) (cwd s)
           (<[resolve s filepath := File (cp_write p)]> (files s))
           (trace s ++ [ EvWrite (resolve s filepath) ]) (parsers s ++ [ p ]) (uuid_clock s)).
Proof.
  intros Hp Hwrite Hbody opened. specialize (Hbody (length (parsers s)) opened).
  rewrite (open_buildout_configfile_exit filepath body s p
             (body (length (parsers s)) opened).1 opened p Hp).
  - change (can_write opened filepath) with (can_write s filepath). by rewrite Hwrite.
  - fold opened. rewrite <- Hbody at 3. by destruct (body _ opened).
  - by apply list_lookup_middle.
Qed.

Lemma call_open_buildout_configfile_default {A} (body : nat -> M A) :
  call_open_buildout_configfile [] body = open_buildout_configfile "buildout.cfg" body.
Proof. reflexivity. Qed.



End ConfigurationStore.



Section Scripts.

Context {CP : ConfigParserLib} {SR : Surroundings}.

Lemma makedirs_keeps_entries paths : forall (disk : FileSystem) key,
  is_Some (disk !! key) -> is_Some (fold_left mkdir_if_missing paths disk !! key).
Proof.
  intros disk key [node Hnode]. exists node. by apply makedirs_keeps.
Qed.

(** The cache-directory step stays in the working directory and removes no
    entry. *)
Lemma create_cache_directories_keeps s :
  cwd (create_cache_directories s).2 = cwd s /\
  forall key, is_Some (files s !! key) -> is_Some (files (create_cache_directories s).2 !! key).
Proof.
  unfold create_cache_directories, call_open_buildout_configfile, open_buildout_configfile,
    new_parser, parser_read, parser_get, parser_write, deref, assign, lift_result, write_file,
    os_path_exists, when, os_makedirs, try_finally, mbind, M_bind, get_state, set_parsers,
    set_files, log, mret, M_ret, raise.
  simpl.
  repeat (case_match; simpl in *; simplify_eq); (split; [done|]); intros key Hkey; try done.
  all: try (apply makedirs_keeps_entries).
  all: try (rewrite lookup_insert; case_decide; [by eexists|done]).
Qed.

Lemma bind_run {A B} (m : M A) (f : A -> M B) s :
  (m ≫= f) s = match m s with
               | (Ok x, s') => f x s'
               | (Raise e, s') => (Raise e, s')
               end.
Proof. reflexivity. Qed.

Lemma bind_mret_l {A B} (x : A) (f : A -> M B) s : (mret x ≫= f) s = f x s.
Proof. reflexivity. Qed.

Lemma bind_mret_r (m : M unit) s : (m ≫= fun _ => mret tt) s = m s.
Proof. rewrite bind_run. by destruct (m s) as [[[]|e] s1]. Qed.

Lemma buildout_parameters_context_nil {A} (body : M A) s :
  buildout_parameters_context [] body s = body s.
Proof.
  rewrite buildout_parameters_context_run. simpl. rewrite with_parameters_same.
  destruct (body s) as [r s1]. simpl. by rewrite with_parameters_same.
Qed.

Lemma bind_ext {A B} (m : M A) (f g : A -> M B) s :
  (forall x s1, f x s1 = g x s1) -> (m ≫= f) s = (m ≫= g) s.
Proof. intros Hfg. rewrite !bind_run. by destruct (m s) as [[x|e] s1]. Qed.

Lemma buildout_parameters_context_ext {A} parameters (body1 body2 : M A) s :
  (forall s1, body1 s1 = body2 s1) ->
  buildout_parameters_context parameters body1 s =
  buildout_parameters_context parameters body2 s.
Proof. intros Hbody. rewrite !buildout_parameters_context_run. simpl. by rewrite Hbody. Qed.

(** Whatever the flags, the scoped part of [scripts] runs, in order, the
    steps whose own flag is not set. *)
Lemma scripts_runs_unskipped_steps arguments s :
  scripts arguments s =
  (when (truthy (args_get_or_false arguments "--clean")) clean_build ;;
   create_cache_directories ;;
   bootstrap_if_necessary arguments ;;
   buildout_newest_or_offline_context arguments
     (for_each (steps_to_run arguments) (fun step => step))) s.
Proof.
  unfold scripts, buildout_newest_or_offline_context.
  apply bind_ext. intros _ s1. apply bind_ext. intros _ s2. apply bind_ext. intros _ s3.
  apply buildout_parameters_context_ext. intros s4.
  unfold steps_to_run, gated_steps. rewrite !filter_cons, filter_nil. simpl.
  destruct (truthy (args_get_or_false arguments "--no-submodules"));
    destruct (truthy (args_get_or_false arguments "--no-setup-py"));
    destruct (truthy (args_get_or_false arguments "--no-scripts"));
    destruct (truthy (args_get_or_false arguments "--no-readline"));
    simpl;
    repeat first
      [ reflexivity
      | rewrite bind_mret_l
      | symmetry; apply bind_mret_r
      | apply bind_ext; intros _ ? ].
Qed.

(** C7 (amended): for [build scripts --no-submodules --no-readline], with
    [bootstrap.py] present, [bin/buildout] present and no
    [--force-bootstrap], the run is the cache-directory step followed by the
    setup-file step and the console-script step and nothing else: the
    bootstrap gate returns without launching anything, the submodule and
    readline steps do not run, and the run returns normally (exit status 0)
    whenever those three steps do.  For every command line the steps that run
    inside the scope are, in order, those whose own flag is not set. *)
Theorem scripts_skips_and_runs (s : State) :
  is_Some (files s !! resolve s "bootstrap.py") ->
  is_Some (files s !! resolve s (os_path.join "bin" "buildout")) ->
  scripts scripts_command_line s =
  (create_cache_directories ;; create_setup_py ;; create_scripts scripts_command_line) s /\
  (forall s1, create_cache_directories s = (Ok tt, s1) ->
              bootstrap_if_necessary scripts_command_line s1 = (Ok tt, s1)) /\
  (forall s1 s2 s3,
      create_cache_directories s = (Ok tt, s1) ->
      create_setup_py s1 = (Ok tt, s2) ->
      create_scripts scripts_command_line s2 = (Ok tt, s3) ->
      scripts scripts_command_line s = (Ok tt, s3)) /\
  (forall arguments s0,
      scripts arguments s0 =
      (when (truthy (args_get_or_false arguments "--clean")) clean_build ;;
       create_cache_directories ;;
       bootstrap_if_necessary arguments ;;
       buildout_newest_or_offline_context arguments
         (for_each (steps_to_run arguments) (fun step => step))) s0).
Proof.
  intros Hscript Hbuildout.
  assert (Hgate : forall s1, create_cache_directories s = (Ok tt, s1) ->
                    bootstrap_if_necessary scripts_command_line s1 = (Ok tt, s1)).
  { intros s1 Hs1. rewrite bootstrap_if_necessary_run.
    destruct (create_cache_directories_keeps s) as [Hcwd Hkeep]. rewrite Hs1 in Hcwd, Hkeep.
    simpl in Hcwd, Hkeep. unfold resolve in *. rewrite Hcwd.
    rewrite !bool_decide_eq_true_2 by (by apply Hkeep). reflexivity. }
  assert (Heq : scripts scripts_command_line s =
                (create_cache_directories ;; create_setup_py ;;
                 create_scripts scripts_command_line) s).
  { unfold scripts, buildout_newest_or_offline_context.
    change (truthy (args_get_or_false scripts_command_line "--clean")) with false.
    change (truthy (args_get_or_false scripts_command_line "--no-submodules")) with true.
    change (truthy (args_get_or_false scripts_command_line "--no-setup-py")) with false.
    change (truthy (args_get_or_false scripts_command_line "--no-scripts")) with false.
    change (truthy (args_get_or_false scripts_command_line "--no-readline")) with true.
    change (truthy (args_get scripts_command_line "--newest")) with false.
    change (truthy (args_get scripts_command_line "--offline")) with false.
    simpl. rewrite bind_run. simpl. rewrite !(bind_run create_cache_directories).
    destruct (create_cache_directories s) as [[[]|e] s1] eqn:Hs1; [|done].
    rewrite bind_run, (Hgate s1 eq_refl). rewrite buildout_parameters_context_nil.
    rewrite (bind_run (mret tt)). simpl.
    rewrite !(bind_run create_setup_py). destruct (create_setup_py s1) as [[[]|e] s2]; [|done].
    apply bind_mret_r. }
  split; [done|]. split; [done|]. split; [|apply scripts_runs_unskipped_steps].
  intros s1 s2 s3 H1 H2 H3. rewrite Heq.
  rewrite bind_run, H1, bind_run, H2. exact H3.
Qed.


End Scripts.

(** C7, refuted as stated: the reference project without [bootstrap.py] has
    [bin/buildout] and is built with [--no-submodules --no-readline] and no
    [--force-bootstrap], yet the run ends with [SystemExit(1)] at the
    bootstrap gate, before the setup-file and console-script steps: no build
    tool is ever launched. *)
Lemma scripts_exits_without_bootstrap_script :
  let disk := delete "/work/bootstrap.py" Reference.project_disk in
  let outcome :=
    @scripts Reference.config_parser Reference.quiet scripts_command_line
      (process_start "/work" disk) in
  is_Some (disk !! "/work/bin/buildout") /\
  outcome.1 = Raise (SystemExit 1) /\
  trace outcome.2 = [ EvWrite "/work/buildout.cfg"; EvMakedirs "/tmp/cache/dist" ].
Proof. cbv zeta. split; [by eexists|split; reflexivity]. Qed.

Lemma scripts_skips_and_runs_witness :
  let outcome :=
    @scripts Reference.config_parser Reference.quiet scripts_command_line Reference.project in
  outcome =
  (@create_cache_directories Reference.config_parser ;;
   @create_setup_py Reference.config_parser Reference.quiet ;;
   @create_scripts Reference.config_parser Reference.quiet scripts_command_line)
    Reference.project /\
  outcome.1 = Ok tt /\
  trace outcome.2 =
  [ EvWrite "/work/buildout.cfg"; EvMakedirs "/tmp/cache/dist";
    EvWrite "/work/buildout.cfg";
    EvCall (Execute [ "bin/buildout"; "-s"; "buildout:develop="; "install"; "setup.py" ]);
    EvWrite "/work/buildout.cfg";
    EvCall (Execute [ "bin/buildout"; "-s"; "buildout:python=buildout"; "install";
                      "scripts" ]) ].
Proof.
  cbv zeta. split; [|split; reflexivity].
  assert (Hscript : is_Some (files Reference.project
                               !! resolve Reference.project "bootstrap.py")) by (by eexists).
  assert (Hbuildout : is_Some (files Reference.project
                                 !! resolve Reference.project (os_path.join "bin" "buildout")))
    by (by eexists).
  exact (proj1 (@scripts_skips_and_runs Reference.config_parser Reference.quiet
                  Reference.project Hscript Hbuildout)).
Defined.

(** ** Working directory *)

Section WorkingDirectory.

Context {CP : ConfigParserLib} {SR : Surroundings}.

Lemma reported_directory_resolve s s1 :
  reported_directory (cwd s) = true ->
  resolve s os_curdir = cwd s /\ resolve s1 (cwd s) = cwd s.
Proof.
  unfold reported_directory, resolve. intros H.
  apply andb_prop in H as [H Hcur]. apply andb_prop in H as [Habs Hnorm].
  apply String.eqb_eq in Hcur, Hnorm. split; [done|].
  unfold os_path.abspath. by rewrite Habs.
Qed.

Lemma reported_directory_named d : reported_directory d = true -> d <> "".
Proof.
  unfold reported_directory. intros H.
  apply andb_prop in H as [H _]. apply andb_prop in H as [Habs _]. by destruct d.
Qed.

Lemma os_chdir_run path s :
  os_chdir path s =
  if is_dir_node (entry s path)
  then (Ok tt,
        mkState (BUILDOUT_PARAMETERS s) (resolve s path) (files s)
                (trace s ++ [ EvChdir (resolve s path) ]) (parsers s) (uuid_clock s))
  else (Raise OSError, s).
Proof. unfold os_chdir, mbind, M_bind, get_state. simpl. by destruct (is_dir_node _). Qed.

(** The scope returns to the directory it started from whenever that
    directory is still there when the scope ends; a scope that could not be
    entered has not moved. *)
Lemma chdir_back {A} path (body : M A) s :
  reported_directory (cwd s) = true ->
  is_dir_node (files (chdir path body s).2 !! cwd s) = true ->
  cwd (chdir path body s).2 = cwd s.
Proof.
  intros Hcwd. unfold chdir, os_path_abspath, _chdir_and_log.
  rewrite !bind_run. simpl. rewrite !bind_run. simpl. rewrite bind_run, os_chdir_run.
  destruct (is_dir_node (entry s _)); [|done].
  unfold try_finally. destruct (body _) as [r s2]. rewrite os_chdir_run.
  destruct (reported_directory_resolve s s2 Hcwd) as [Hcur Hback].
  rewrite Hcur, (entry_named s2 (cwd s)) by (by apply reported_directory_named).
  rewrite Hback.
  destruct (is_dir_node (files s2 !! cwd s)) eqn:Hdir; simpl; [done|].
  intros Hfalse. by rewrite Hdir in Hfalse.
Qed.

Lemma os_makedirs_cwd path s : cwd (os_makedirs path s).2 = cwd s.
Proof.
  unfold os_makedirs, mbind, M_bind, get_state, set_files, log. simpl.
  by destruct (_ || _).
Qed.

Lemma as_str_state v s : (as_str v s).2 = s.
Proof. by destruct v. Qed.

Lemma create_subdir_back {A} arguments (body : M A) s :
  truthy (args_get arguments "--mkdir") = true ->
  reported_directory (cwd s) = true ->
  is_dir_node (files (_create_subdir_if_necessary arguments body s).2 !! cwd s) = true ->
  cwd (_create_subdir_if_necessary arguments body s).2 = cwd s.
Proof.
  intros Hmkdir Hcwd. unfold _create_subdir_if_necessary. rewrite Hmkdir. simpl.
  rewrite bind_run. pose proof (as_str_state (py_or (args_get arguments "<project_name>")
    (args_get arguments "<origin>")) s) as Hstr.
  destruct (as_str _ s) as [[dirname|e] s0]; simpl in Hstr; subst s0; [|done].
  - rewrite bind_run, os_path_exists_run, bind_run. simpl.
    destruct (_ && _); [done|].
    rewrite bind_run. pose proof (os_makedirs_cwd (default "" (last (PyStr.split os_sep
      (if negb (PyStr.endswith dirname ".git") then dirname
       else PyStr.drop_right 4 dirname)))) s) as Hmade.
    destruct (os_makedirs _ s) as [[[]|e] s1]; simpl in Hmade; [|done].
    rewrite <- Hmade in *. by apply chdir_back.
Qed.

(** C10 (amended): from a working directory in the form the system reports
    it, the [chdir] scope ends, whether its body returned or raised, back in
    that directory provided the directory still exists at that moment (the
    return is an [os.chdir], which fails on a missing directory); the same
    holds for the subdirectory scope of [repository init --mkdir] and of
    [repository clone]. *)
Theorem chdir_returns_to_existing_directory (s : State) :
  reported_directory (cwd s) = true ->
  (forall A path (body : M A),
      is_dir_node (files (chdir path body s).2 !! cwd s) = true ->
      cwd (chdir path body s).2 = cwd s) /\
  (forall arguments,
      truthy (args_get arguments "--mkdir") = true ->
      is_dir_node (files (init arguments s).2 !! cwd s) = true ->
      cwd (init arguments s).2 = cwd s) /\
  (forall arguments,
      is_dir_node (files (clone arguments s).2 !! cwd s) = true ->
      cwd (clone arguments s).2 = cwd s).
Proof.
  intros Hcwd. split; [|split].
  - intros A path body. by apply chdir_back.
  - intros arguments Hmkdir. by apply create_subdir_back.
  - intros arguments. apply create_subdir_back; [|done].
    unfold args_get. by rewrite lookup_insert_eq.
Qed.

End WorkingDirectory.

(** C10, refuted as stated: a body that removes the directory the scope
    started from leaves the process in the directory the scope entered; the
    return raises [OSError]. *)
Lemma chdir_cannot_return_to_removed_directory :
  let outcome :=
    @chdir Reference.config_parser unit "/tmp" (shutil_rmtree "/work") Reference.project in
  cwd Reference.project = "/work" /\
  outcome.1 = Raise OSError /\
  cwd outcome.2 = "/tmp".
Proof. cbv zeta. split; [|split]; reflexivity. Qed.

Lemma chdir_returns_to_existing_directory_witness :
  cwd (@chdir Reference.config_parser unit "/tmp" (raise ExecutionError) Reference.project).2
  = "/work" /\
  cwd (@clone Reference.config_parser Reference.quiet init_command_line Reference.project).2
  = "/work".
Proof.
  assert (Hcwd : reported_directory (cwd Reference.project) = true) by reflexivity.
  split.
  - apply (proj1 (@chdir_returns_to_existing_directory Reference.config_parser
                    Reference.quiet Reference.project Hcwd)).
    reflexivity.
  - apply (proj2 (proj2 (@chdir_returns_to_existing_directory Reference.config_parser
                           Reference.quiet Reference.project Hcwd))).
    reflexivity.
Defined.

(** ** The parameter list across a whole build *)

Section PipelineParameters.

Context {CP : ConfigParserLib} {SR : Surroundings}.

Lemma neutral_from_stack_neutral {A} l (m : M A) : stack_neutral m -> neutral_from l m.
Proof. intros Hm s Hs. by rewrite Hm. Qed.

Lemma neutral_from_bind {A B} l (m : M A) (f : A -> M B) :
  neutral_from l m -> (forall x, neutral_from l (f x)) -> neutral_from l (m ≫= f).
Proof.
  intros Hm Hf s Hs. rewrite bind_run. specialize (Hm s Hs).
  destruct (m s) as [[x|e] s1]; simpl in *; [|done]. by apply Hf.
Qed.

Lemma neutral_from_when l b m : neutral_from l m -> neutral_from l (when b m).
Proof. intros Hm. destruct b; [done|]. by intros s Hs. Qed.

Lemma neutral_from_scope {A} l parameters (body : M A) :
  (forall t, t ∈ parameters -> t ∉ l) ->
  neutral_from (enter_parameters parameters l) body ->
  neutral_from l (buildout_parameters_context parameters body).
Proof.
  intros Hfresh Hbody s Hs. rewrite <- Hs.
  apply buildout_parameters_context_neutral_at; [by rewrite Hs|]. simpl.
  rewrite Hs. by apply Hbody.
Qed.

Lemma enter_parameters_fresh parameters l t :
  t ∉ l -> t ∉ parameters -> t ∉ enter_parameters parameters l.
Proof.
  intros Hl Hp Hin.
  destruct (enter_parameters_app parameters l) as (added & Heq & Hadded & _).
  rewrite Heq in Hin. apply elem_of_app in Hin as [Hin|Hin]; [done|].
  by destruct (Hadded t Hin).
Qed.

Lemma neutral_from_develop_scope l (body : M unit) :
  "buildout:develop=" ∉ l -> stack_neutral body ->
  neutral_from l (buildout_parameters_context [ "buildout:develop=" ] body).
Proof.
  intros Hfresh Hbody. apply neutral_from_scope.
  - by intros t ->%list_elem_of_singleton.
  - by apply neutral_from_stack_neutral.
Qed.

Lemma neutral_from_python_scope {A} l (body : M A) :
  "buildout:python=buildout" ∉ l -> stack_neutral body ->
  neutral_from l (buildout_parameters_context [ "buildout:python=buildout" ] body).
Proof.
  intros Hfresh Hbody. apply neutral_from_scope.
  - by intros t ->%list_elem_of_singleton.
  - by apply neutral_from_stack_neutral.
Qed.

Lemma neutral_from_create_scripts l arguments :
  "buildout:python=buildout" ∉ l -> neutral_from l (create_scripts arguments).
Proof.
  intros Hfresh. unfold create_scripts, buildout_use_custom_python.
  pose proof stack_neutral_install_sections_by_recipe as Hinstall.
  pose proof stack_neutral_is_executable_exists as Hexists.
  apply neutral_from_bind.
  - apply neutral_from_stack_neutral. neutral_all.
  - intros _. destruct (truthy (args_get_or_false arguments "--use-isolated-python")).
    + apply neutral_from_bind; [by apply neutral_from_stack_neutral|intros r].
      apply neutral_from_bind.
      { apply neutral_from_stack_neutral. unfold assert_buildout_executable_exists.
        neutral_all. }
      intros _. apply neutral_from_bind.
      { apply neutral_from_stack_neutral.
        unfold is_buildout_executable_using_isolated_python. neutral_all. }
      intros isolated. apply neutral_from_bind.
      { apply neutral_from_when. apply neutral_from_python_scope; [done|].
        apply stack_neutral_execute_with_python. }
      intros _. apply neutral_from_stack_neutral, mret_stack_neutral.
    + by apply neutral_from_python_scope.
Qed.

(** X1: whatever the command line, the state and the surroundings, a build
    started on a parameter list that holds none of the scope tokens ends on
    that same list, whether the build returned or raised. *)
Theorem scripts_restores_parameters (arguments : Arguments) (s : State) :
  (forall t, t ∈ scope_tokens -> t ∉ BUILDOUT_PARAMETERS s) ->
  BUILDOUT_PARAMETERS (scripts arguments s).2 = BUILDOUT_PARAMETERS s.
Proof.
  intros Hfresh.
  assert (Hn : "-n" ∉ BUILDOUT_PARAMETERS s) by (apply Hfresh; token_in).
  assert (Ho : "-o" ∉ BUILDOUT_PARAMETERS s) by (apply Hfresh; token_in).
  assert (Hd : "buildout:develop=" ∉ BUILDOUT_PARAMETERS s) by (apply Hfresh; token_in).
  assert (Hp : "buildout:python=buildout" ∉ BUILDOUT_PARAMETERS s)
    by (apply Hfresh; token_in).
  cut (neutral_from (BUILDOUT_PARAMETERS s) (scripts arguments)); [by intros H; apply H|].
  unfold scripts, buildout_newest_or_offline_context.
  apply neutral_from_bind.
  { apply neutral_from_stack_neutral, stack_neutral_when, stack_neutral_clean_build. }
  intros _. apply neutral_from_bind.
  { apply neutral_from_stack_neutral, stack_neutral_create_cache_directories. }
  intros _. apply neutral_from_bind.
  { apply neutral_from_stack_neutral, stack_neutral_bootstrap_if_necessary. }
  intros _. apply neutral_from_scope.
  { intros t Ht. destruct (truthy (args_get arguments "--newest"));
      destruct (truthy (args_get arguments "--offline")); simpl in Ht;
      repeat (apply elem_of_cons in Ht as [->|Ht]; [done|]); by apply elem_of_nil in Ht. }
  set (entered := enter_parameters _ _).
  assert (Hd' : "buildout:develop=" ∉ entered).
  { apply enter_parameters_fresh; [done|].
    destruct (truthy (args_get arguments "--newest"));
      destruct (truthy (args_get arguments "--offline")); simpl; token_not_in. }
  assert (Hp' : "buildout:python=buildout" ∉ entered).
  { apply enter_parameters_fresh; [done|].
    destruct (truthy (args_get arguments "--newest"));
      destruct (truthy (args_get arguments "--offline")); simpl; token_not_in. }
  apply neutral_from_bind.
  { apply neutral_from_when, neutral_from_develop_scope; [done|].
    apply stack_neutral_install_sections_by_recipe. }
  intros _. apply neutral_from_bind.
  { apply neutral_from_when, neutral_from_develop_scope; [done|].
    apply stack_neutral_install_sections_by_recipe. }
  intros _. apply neutral_from_bind.
  { by apply neutral_from_when, neutral_from_create_scripts. }
  intros _. apply neutral_from_when, neutral_from_stack_neutral, stack_neutral_install_readline.
Qed.

End PipelineParameters.

Lemma scripts_restores_parameters_witness :
  BUILDOUT_PARAMETERS
    (@scripts Reference.config_parser Reference.quiet scripts_command_line
       Reference.project).2 = [ "-s" ].
Proof.
  apply (@scripts_restores_parameters Reference.config_parser Reference.quiet
           scripts_command_line Reference.project).
  tokens_fresh.
Defined.

(** * Further properties *)

(** ** Scopes and the command lines built inside them *)

Section ScopeContents.

Context {CP : ConfigParserLib} {SR : Surroundings}.

Lemma enter_parameters_holds ps : forall l t, t ∈ ps -> t ∈ enter_parameters ps l.
Proof.
  induction ps as [|p ps IH]; intros l t Ht; [by apply elem_of_nil in Ht|].
  rewrite enter_parameters_cons. apply elem_of_cons in Ht as [->|Ht]; [|by apply IH].
  apply enter_parameters_elem. case_bool_decide; [done|].
  apply elem_of_app. right. by left.
Qed.

(** X2: inside a scope of [buildout_parameters_context] the body finds the
    old list with the missing tokens appended behind it: every token the
    scope was given is in the list, the tokens that were added are exactly
    the given ones that were missing, each once, and a list of distinct
    tokens stays one; the scope returns what its body returns. *)
Theorem scope_body_sees_every_parameter {A} (parameters : list string) (body : M A)
    (s : State) :
  let entered := with_parameters s (enter_parameters parameters (BUILDOUT_PARAMETERS s)) in
  (buildout_parameters_context parameters body s).1 = (body entered).1 /\
  (forall t, t ∈ parameters -> t ∈ BUILDOUT_PARAMETERS entered) /\
  (exists added,
      BUILDOUT_PARAMETERS entered = BUILDOUT_PARAMETERS s ++ added /\
      NoDup added /\
      forall t, t ∈ added <-> t ∈ parameters /\ t ∉ BUILDOUT_PARAMETERS s) /\
  (NoDup (BUILDOUT_PARAMETERS s) -> NoDup (BUILDOUT_PARAMETERS entered)).
Proof.
  cbv zeta. rewrite buildout_parameters_context_run. simpl.
  split; [done|]. split; [intros t Ht; by apply enter_parameters_holds|]. split.
  - destruct (enter_parameters_app parameters (BUILDOUT_PARAMETERS s))
      as (added & Heq & Hadded & Hnd).
    exists added. split; [done|]. split; [done|]. intros t. split; [apply Hadded|].
    intros [Ht Hnew]. pose proof (enter_parameters_holds parameters (BUILDOUT_PARAMETERS s) t Ht) as Hin.
    rewrite Heq in Hin. apply elem_of_app in Hin as [Hin|Hin]; [done|done].
  - apply enter_parameters_NoDup.
Qed.

Lemma execute_with_buildout_run c s :
  execute_with_buildout c s =
  execute_assert_success (buildout_command (BUILDOUT_PARAMETERS s) c) s.
Proof. reflexivity. Qed.

Lemma execute_assert_success_trace args s :
  trace (execute_assert_success args s).2 = trace s ++ [ EvCall (Execute args) ].
Proof.
  pose proof (execute_assert_success_run args s) as H. cbv zeta in H. by rewrite H.
Qed.

Lemma execute_assert_success_parameters args s l :
  execute_assert_success args (with_parameters s l) =
  ((execute_assert_success args s).1, with_parameters (execute_assert_success args s).2 l).
Proof.
  pose proof (execute_assert_success_run args s) as H1.
  pose proof (execute_assert_success_run args (with_parameters s l)) as H2.
  cbv zeta in H1, H2. rewrite H1, H2. reflexivity.
Qed.

Lemma scoped_buildout_run parameters c s :
  let entered := enter_parameters parameters (BUILDOUT_PARAMETERS s) in
  let launched := execute_assert_success (buildout_command entered c) s in
  buildout_parameters_context parameters (execute_with_buildout c) s =
  (launched.1, with_parameters launched.2 (exit_parameters parameters entered)).
Proof.
  cbv zeta. set (entered := enter_parameters parameters (BUILDOUT_PARAMETERS s)).
  rewrite buildout_parameters_context_run. cbv zeta. fold entered.
  rewrite execute_with_buildout_run.
  change (BUILDOUT_PARAMETERS (with_parameters s entered)) with entered.
  rewrite execute_assert_success_parameters. reflexivity.
Qed.

(** X3: a buildout run inside a scope is launched as [bin/buildout],
    followed by the list as the scope entry left it, followed by the
    arguments; when the scope was given only tokens that were not in the
    list, a buildout run after the scope is launched with the list as it was
    before the scope. *)
Theorem scoped_buildout_command (parameters : list string) (c c' : CommandLine) (s : State) :
  (forall t, t ∈ parameters -> t ∉ BUILDOUT_PARAMETERS s) ->
  let inside :=
    buildout_command (enter_parameters parameters (BUILDOUT_PARAMETERS s)) c in
  let outcome :=
    (buildout_parameters_context parameters (execute_with_buildout c) ;;
     execute_with_buildout c') s in
  trace outcome.2 =
  trace s ++ [ EvCall (Execute inside) ]
          ++ (if call_succeeds (Execute inside) s
              then [ EvCall (Execute (buildout_command (BUILDOUT_PARAMETERS s) c')) ]
              else []).
Proof.
  intros Hfresh. cbv zeta. rewrite bind_run.
  pose proof (scoped_buildout_run parameters c s) as Hscope. cbv zeta in Hscope.
  rewrite Hscope. clear Hscope. rewrite exit_enter_parameters by done.
  pose proof (execute_assert_success_run
                (buildout_command (enter_parameters parameters (BUILDOUT_PARAMETERS s)) c) s)
    as Hrun. cbv zeta in Hrun. rewrite Hrun. clear Hrun. unfold call_succeeds.
  destruct (perform _ _ _) as [[] disk]; cbn [fst snd].
  - rewrite execute_with_buildout_run, execute_assert_success_trace.
    cbn [BUILDOUT_PARAMETERS trace with_parameters]. by rewrite <- app_assoc.
  - cbn [trace with_parameters]. by rewrite app_nil_r.
Qed.

Lemma execute_with_python_run c s :
  execute_with_python c s =
  execute_assert_success
    ((if negb is_running_inside_virtualenv then [ sys_executable; "-S" ]
      else [ sys_executable ]) ++ parse_args c) s.
Proof. reflexivity. Qed.

(** X4: [execute_with_python] never reads the parameter list, so a scope
    that is given only new tokens changes nothing about a run of it: the
    command that is launched, the outcome and the state afterwards are those
    of the run without the scope.  This is the scope in which
    [buildout_use_custom_python] repeats the bootstrap. *)
Theorem scope_around_python_is_idle (parameters : list string) (c : CommandLine) (s : State) :
  (forall t, t ∈ parameters -> t ∉ BUILDOUT_PARAMETERS s) ->
  buildout_parameters_context parameters (execute_with_python c) s = execute_with_python c s.
Proof.
  intros Hfresh. rewrite buildout_parameters_context_run. cbv zeta.
  rewrite !execute_with_python_run, execute_assert_success_parameters.
  set (run := execute_assert_success _ s).
  assert (Hsame : BUILDOUT_PARAMETERS run.2 = BUILDOUT_PARAMETERS s)
    by apply stack_neutral_execute_assert_success.
  cbn [fst snd].
  change (BUILDOUT_PARAMETERS (with_parameters run.2 _))
    with (enter_parameters parameters (BUILDOUT_PARAMETERS s)).
  rewrite with_parameters_twice, exit_enter_parameters by done.
  rewrite <- Hsame, with_parameters_same. by destruct run.
Qed.

End ScopeContents.

Lemma scoped_buildout_command_witness :
  trace
    ((@buildout_parameters_context Reference.config_parser unit [ "buildout:develop=" ]
        (@execute_with_buildout Reference.config_parser Reference.quiet
           (CmdString "install setup.py")) ;;
      @execute_with_buildout Reference.config_parser Reference.quiet
        (CmdString "install scripts")) Reference.project).2 =
  [ EvCall (Execute [ "bin/buildout"; "-s"; "buildout:develop="; "install"; "setup.py" ]);
    EvCall (Execute [ "bin/buildout"; "-s"; "install"; "scripts" ]) ].
Proof.
  assert (Hfresh : forall t : string,
             t ∈ [ "buildout:develop=" ] -> t ∉ BUILDOUT_PARAMETERS Reference.project)
    by tokens_fresh.
  exact (@scoped_buildout_command Reference.config_parser Reference.quiet
           [ "buildout:develop=" ] (CmdString "install setup.py")
           (CmdString "install scripts") Reference.project Hfresh).
Defined.

Lemma scope_around_python_is_idle_witness :
  @buildout_parameters_context Reference.config_parser unit [ "buildout:python=buildout" ]
    (@execute_with_python Reference.config_parser Reference.quiet
       (CmdString "bootstrap.py -d -t")) Reference.project
  = @execute_with_python Reference.config_parser Reference.quiet
      (CmdString "bootstrap.py -d -t") Reference.project.
Proof.
  assert (Hfresh : forall t : string,
             t ∈ [ "buildout:python=buildout" ] -> t ∉ BUILDOUT_PARAMETERS Reference.project)
    by tokens_fresh.
  exact (@scope_around_python_is_idle Reference.config_parser Reference.quiet
           [ "buildout:python=buildout" ] (CmdString "bootstrap.py -d -t")
           Reference.project Hfresh).
Defined.

(** ** What a configuration scope leaves behind *)

Section ConfigurationScopes.

Context {CP : ConfigParserLib} {SR : Surroundings}.

Lemma open_buildout_configfile_unparsed {A} filepath (body : nat -> M A) s e :
  parsed_config s filepath = Raise e ->
  open_buildout_configfile filepath body s =
  (Raise e,
   mkState (BUILDOUT_PARAMETERS s) (cwd s) (files s) (trace s) (parsers s ++ [ cp_new ])
           (uuid_clock s)).
Proof.
  intros Hp. unfold parsed_config in Hp.
  unfold open_buildout_configfile, new_parser, parser_read, deref, assign, lift_result,
    mbind, M_bind, get_state, set_parsers, mret, M_ret, resolve in *. simpl.
  assert (Hlast : (parsers s ++ [ cp_new ]) !! length (parsers s) = Some cp_new)
    by apply list_lookup_middle, eq_refl.
  destruct (files s !! _) as [[text|]|]; simpl; [|done|done].
  by rewrite Hlast, Hp.
Qed.

(** X5: when the text of the configuration file does not parse, the scope
    is never entered: the parse error is what the scope raises, the body does
    not run, and the file is not written; the cache-directory step, the
    recipe installation and [relocate] fail in this way. *)
Theorem unparsable_configuration_is_left_alone (s : State) (e : Exn) :
  parsed_config s "buildout.cfg" = Raise e ->
  let untouched :=
    mkState (BUILDOUT_PARAMETERS s) (cwd s) (files s) (trace s) (parsers s ++ [ cp_new ])
            (uuid_clock s) in
  (forall A (body : nat -> M A),
      call_open_buildout_configfile [] body s = (Raise e, untouched)) /\
  create_cache_directories s = (Raise e, untouched) /\
  (forall recipe, install_sections_by_recipe recipe s = (Raise e, untouched)) /\
  (forall arguments, relocate arguments s = (Raise e, untouched)).
Proof.
  intros Hp. cbv zeta.
  assert (Hopen : forall A (body : nat -> M A),
             call_open_buildout_configfile [] body s =
             (Raise e, mkState (BUILDOUT_PARAMETERS s) (cwd s) (files s) (trace s)
                               (parsers s ++ [ cp_new ]) (uuid_clock s))).
  { intros A body. rewrite call_open_buildout_configfile_default.
    by apply open_buildout_configfile_unparsed. }
  split; [done|]. split; [|split].
  - unfold create_cache_directories. by rewrite bind_run, Hopen.
  - intros recipe. unfold install_sections_by_recipe. by rewrite bind_run, Hopen.
  - intros arguments. unfold relocate. by rewrite bind_run, Hopen.
Qed.

(** X6: the write at the exit of the scope can fail, and then it hides
    how the body ended.  When the file cannot be opened for writing at the
    moment the body is over (the name is a directory, or it is free and its
    directory is missing or a plain file), nothing is written and the
    [IOError] of the [open] is the outcome of the scope, whatever the body
    returned and also when the body raised. *)
Theorem unwritable_configuration_hides_outcome {A} (body : nat -> M A) (s : State)
    (p : Parser) (r : Result A) (s1 : State) (q : Parser) :
  parsed_config s "buildout.cfg" = Ok p ->
  body (length (parsers s))
       (mkState (BUILDOUT_PARAMETERS s) (cwd s) (files s) (trace s) (parsers s ++ [ p ])
                (uuid_clock s)) = (r, s1) ->
  parsers s1 !! length (parsers s) = Some q ->
  can_write s1 "buildout.cfg" = false ->
  call_open_buildout_configfile [] body s = (Raise IOError, s1).
Proof.
  intros Hp Hbody Hq Hwrite. rewrite call_open_buildout_configfile_default.
  by rewrite (open_buildout_configfile_exit _ _ s p r s1 q Hp Hbody Hq), Hwrite.
Qed.

Lemma parser_set_run s prefix p section option value :
  parsers s = prefix ++ [ p ] ->
  parser_set (length prefix) section option value s =
  match cp_set p section option value with
  | Ok p' => (Ok tt, mkState (BUILDOUT_PARAMETERS s) (cwd s) (files s) (trace s)
                             (prefix ++ [ p' ]) (uuid_clock s))
  | Raise e => (Raise e, s)
  end.
Proof.
  intros Hparsers.
  unfold parser_set, deref, assign, lift_result, mbind, M_bind, get_state, set_parsers, mret,
    M_ret, raise. simpl.
  rewrite Hparsers, list_lookup_middle by done. simpl.
  destruct (cp_set p section option value) as [p'|e]; [|done]. simpl. rewrite Hparsers.
  rewrite insert_app_r_alt by lia. by rewrite Nat.sub_diag.
Qed.

(** A parser that takes a value in a section other than the defaults has
    read the section from a file: the file is there. *)
Lemma set_needs_file s filepath p section option value p1 :
  parsed_config s filepath = Ok p ->
  cp_set p section option value = Ok p1 ->
  section <> "" -> section <> "DEFAULT" ->
  files s !! resolve s filepath <> Some Dir ->
  exists text, files s !! resolve s filepath = Some (File text).
Proof.
  unfold parsed_config. intros Hp Hset Hnamed Hdefault Hdir.
  destruct (files s !! resolve s filepath) as [[text|]|]; [by eexists|done|].
  injection Hp as <-.
  destruct (cp_set_no_section section option value Hnamed Hdefault) as [e He]. congruence.
Qed.

Lemma can_write_file s path text :
  path <> "" -> files s !! resolve s path = Some (File text) -> can_write s path = true.
Proof.
  intros Hpath Hfile. unfold can_write, can_open_for_writing.
  by rewrite (proj2 (String.eqb_neq _ _) Hpath), Hfile.
Qed.

(** The scope of [relocate] up to its exit. *)
Lemma relocate_scope arguments s p :
  parsed_config s "buildout.cfg" = Ok p ->
  can_write s "buildout.cfg" = true ->
  let relative := truthy (args_get_or_false arguments "--relative") in
  let body := fun buildout : nat =>
    parser_set buildout "buildout" "relative-paths"
      (PyStr (if relative then "true" else "false")) ;;
    parser_set buildout "python-distribution" "executable"
      (PyStr (if relative then "parts/python/bin/python"
              else "${buildout:directory}/parts/python/bin/python")) in
  open_buildout_configfile "buildout.cfg" body s =
  match cp_set p "buildout" "relative-paths" (PyStr (if relative then "true" else "false")) with
  | Raise e => (Raise e, config_written s "buildout.cfg" p)
  | Ok p1 =>
      match cp_set p1 "python-distribution" "executable"
              (PyStr (if relative then "parts/python/bin/python"
                      else "${buildout:directory}/parts/python/bin/python")) with
      | Raise e => (Raise e, config_written s "buildout.cfg" p1)
      | Ok p2 => (Ok tt, config_written s "buildout.cfg" p2)
      end
  end.
Proof.
  intros Hp Hwrite. cbv zeta.
  set (opened := mkState (BUILDOUT_PARAMETERS s) (cwd s) (files s) (trace s)
                         (parsers s ++ [ p ]) (uuid_clock s)).
  destruct (cp_set p "buildout" "relative-paths" _) as [p1|e] eqn:H1.
  - destruct (cp_set p1 "python-distribution" "executable" _) as [p2|e] eqn:H2.
    + rewrite (open_buildout_configfile_exit _ _ s p (Ok tt)
                 (mkState (BUILDOUT_PARAMETERS s) (cwd s) (files s) (trace s)
                          (parsers s ++ [ p2 ]) (uuid_clock s)) p2 Hp).
      * change (can_write _ "buildout.cfg") with (can_write s "buildout.cfg").
        by rewrite Hwrite.
      * rewrite bind_run, (parser_set_run opened (parsers s) p) by done. rewrite H1.
        rewrite (parser_set_run _ (parsers s) p1) by done. by rewrite H2.
      * simpl. by apply list_lookup_middle.
    + rewrite (open_buildout_configfile_exit _ _ s p (Raise e)
                 (mkState (BUILDOUT_PARAMETERS s) (cwd s) (files s) (trace s)
                          (parsers s ++ [ p1 ]) (uuid_clock s)) p1 Hp).
      * change (can_write _ "buildout.cfg") with (can_write s "buildout.cfg").
        by rewrite Hwrite.
      * rewrite bind_run, (parser_set_run opened (parsers s) p) by done. rewrite H1.
        rewrite (parser_set_run _ (parsers s) p1) by done. by rewrite H2.
      * simpl. by apply list_lookup_middle.
  - rewrite (open_buildout_configfile_exit _ _ s p (Raise e) opened p Hp).
    + change (can_write _ "buildout.cfg") with (can_write s "buildout.cfg").
      by rewrite Hwrite.
    + rewrite bind_run, (parser_set_run opened (parsers s) p) by done. by rewrite H1.
    + simpl. by apply list_lookup_middle.
Qed.

(** X7: [relocate] on a configuration that has both sections writes the two
    settings together: [relative-paths] is [true] with the relative
    interpreter path when [--relative] is given, and otherwise, also when
    [--absolute] is not given either, [false] with the absolute path; the
    file holds the result before anything is committed, and only with
    [--commit-changes] are the add and the commit of [buildout.cfg] made. *)
Theorem relocate_writes_both_settings (arguments : Arguments) (s : State)
    (p p1 p2 : Parser) :
  let relative := truthy (args_get_or_false arguments "--relative") in
  parsed_config s "buildout.cfg" = Ok p ->
  files s !! resolve s "buildout.cfg" <> Some Dir ->
  cp_set p "buildout" "relative-paths" (PyStr (if relative then "true" else "false"))
  = Ok p1 ->
  cp_set p1 "python-distribution" "executable"
    (PyStr (if relative then "parts/python/bin/python"
            else "${buildout:directory}/parts/python/bin/python")) = Ok p2 ->
  let written := config_written s "buildout.cfg" p2 in
  relocate arguments s =
  if truthy (args_get_or_false arguments "--commit-changes")
  then (collaborator CollaboratorError (GitAdd "buildout.cfg") ;;
        collaborator CollaboratorError
          (GitCommit ("Changing shebang to "
                      +:+ (if relative then "relative" else "absolute") +:+ " paths") false))
         written
  else (Ok tt, written).
Proof.
  cbv zeta. intros Hp Hdir H1 H2. unfold relocate. rewrite bind_run.
  rewrite call_open_buildout_configfile_default.
  destruct (set_needs_file s "buildout.cfg" p _ _ _ p1 Hp H1 ltac:(done) ltac:(done) Hdir)
    as [text Hfile].
  pose proof (relocate_scope arguments s p Hp (can_write_file s "buildout.cfg" text ltac:(done) Hfile))
    as Hscope. cbv zeta in Hscope.
  rewrite Hscope, H1, H2. unfold when.
  by destruct (truthy (args_get_or_false arguments "--commit-changes")).
Qed.

(** X8: [relocate] on a configuration without the [python-distribution]
    section (the second [set] raises) still writes the file, now with
    [relative-paths] changed and the interpreter path not; the error
    propagates and nothing is committed, whatever the flags. *)
Theorem relocate_writes_half_on_missing_section (arguments : Arguments) (s : State)
    (p p1 : Parser) (e : Exn) :
  let relative := truthy (args_get_or_false arguments "--relative") in
  parsed_config s "buildout.cfg" = Ok p ->
  files s !! resolve s "buildout.cfg" <> Some Dir ->
  cp_set p "buildout" "relative-paths" (PyStr (if relative then "true" else "false"))
  = Ok p1 ->
  cp_set p1 "python-distribution" "executable"
    (PyStr (if relative then "parts/python/bin/python"
            else "${buildout:directory}/parts/python/bin/python")) = Raise e ->
  relocate arguments s = (Raise e, config_written s "buildout.cfg" p1).
Proof.
  cbv zeta. intros Hp Hdir H1 H2. unfold relocate. rewrite bind_run.
  rewrite call_open_buildout_configfile_default.
  destruct (set_needs_file s "buildout.cfg" p _ _ _ p1 Hp H1 ltac:(done) ltac:(done) Hdir)
    as [text Hfile].
  pose proof (relocate_scope arguments s p Hp (can_write_file s "buildout.cfg" text ltac:(done) Hfile))
    as Hscope. cbv zeta in Hscope.
  by rewrite Hscope, H1, H2.
Qed.

End ConfigurationScopes.

Lemma unparsable_configuration_is_left_alone_witness :
  (@create_cache_directories Reference.config_parser Samples.broken).1
  = Raise ConfigParserError /\
  files (@create_cache_directories Reference.config_parser Samples.broken).2
  = files Samples.broken /\
  trace (@create_cache_directories Reference.config_parser Samples.broken).2 = [].
Proof.
  assert (Hp : @parsed_config Reference.config_parser Samples.broken "buildout.cfg"
               = Raise ConfigParserError) by reflexivity.
  pose proof (proj1 (proj2 (@unparsable_configuration_is_left_alone
                              Reference.config_parser Reference.quiet Samples.broken
                              ConfigParserError Hp))) as H.
  rewrite H. split; [|split]; reflexivity.
Defined.

Lemma unwritable_configuration_hides_outcome_witness :
  let gone := @process_start Reference.config_parser "/gone" {[ "/tmp" := Dir ]} in
  let outcome := @create_cache_directories Reference.config_parser gone in
  @cp_get Reference.config_parser [] "buildout" "download-cache" = Raise ConfigParserError /\
  outcome.1 = Raise IOError /\
  files outcome.2 !! "/gone/buildout.cfg" = None.
Proof.
  cbv zeta. split; [reflexivity|].
  set (gone := @process_start Reference.config_parser "/gone" {[ "/tmp" := Dir ]}).
  assert (Hp : @parsed_config Reference.config_parser gone "buildout.cfg" = Ok [])
    by reflexivity.
  assert (Hwrite : can_write
                     (mkState (BUILDOUT_PARAMETERS gone) (cwd gone) (files gone) (trace gone)
                              (parsers gone ++ [ [] ]) (uuid_clock gone))
                     "buildout.cfg" = false) by reflexivity.
  unfold create_cache_directories. rewrite bind_run.
  rewrite (@unwritable_configuration_hides_outcome Reference.config_parser string
             (fun buildout => @parser_get Reference.config_parser buildout "buildout"
                                "download-cache")
             gone [] (Raise ConfigParserError) _ [] Hp eq_refl eq_refl Hwrite).
  split; reflexivity.
Defined.

Lemma relocate_writes_both_settings_witness :
  let outcome :=
    @relocate Reference.config_parser Reference.quiet Samples.relocate_command_line
      Samples.relocatable in
  outcome.1 = Ok tt /\
  files outcome.2 !! "/work/buildout.cfg" =
  Some (File (Reference.write_store
                [ ("buildout", [ ("download-cache", "/tmp/cache");
                                 ("relative-paths", "true") ]);
                  ("python-distribution", [ ("executable", "parts/python/bin/python") ]) ])) /\
  trace outcome.2 =
  [ EvWrite "/work/buildout.cfg"; EvCall (GitAdd "buildout.cfg");
    EvCall (GitCommit "Changing shebang to relative paths" false) ].
Proof.
  cbv zeta.
  assert (Hdir : files Samples.relocatable !! resolve Samples.relocatable "buildout.cfg"
                 <> Some Dir) by discriminate.
  rewrite (@relocate_writes_both_settings Reference.config_parser Reference.quiet
             Samples.relocate_command_line Samples.relocatable
             [ ("buildout", [ ("download-cache", "/tmp/cache");
                              ("relative-paths", "false") ]);
               ("python-distribution", [ ("executable", "parts/python/bin/python") ]) ]
             [ ("buildout", [ ("download-cache", "/tmp/cache");
                              ("relative-paths", "true") ]);
               ("python-distribution", [ ("executable", "parts/python/bin/python") ]) ]
             [ ("buildout", [ ("download-cache", "/tmp/cache");
                              ("relative-paths", "true") ]);
               ("python-distribution", [ ("executable", "parts/python/bin/python") ]) ]
             eq_refl Hdir eq_refl eq_refl).
  split; [|split]; reflexivity.
Defined.

Lemma relocate_writes_half_on_missing_section_witness :
  let outcome :=
    @relocate Reference.config_parser Reference.quiet Samples.relocate_command_line
      Reference.project in
  outcome.1 = Raise ConfigParserError /\
  files outcome.2 !! "/work/buildout.cfg" =
  Some (File (Reference.write_store
                [ ("buildout", [ ("download-cache", "/tmp/cache");
                                 ("relative-paths", "true") ]);
                  ("setup.py", [ ("recipe", "infi.recipe.template.version") ]);
                  ("scripts", [ ("recipe", "infi.vendata.console_scripts") ]) ])) /\
  trace outcome.2 = [ EvWrite "/work/buildout.cfg" ].
Proof.
  cbv zeta.
  assert (Hdir : files Reference.project !! resolve Reference.project "buildout.cfg"
                 <> Some Dir) by discriminate.
  rewrite (@relocate_writes_half_on_missing_section Reference.config_parser Reference.quiet
             Samples.relocate_command_line Reference.project
             [ ("buildout", [ ("download-cache", "/tmp/cache") ]);
               ("setup.py", [ ("recipe", "infi.recipe.template.version") ]);
               ("scripts", [ ("recipe", "infi.vendata.console_scripts") ]) ]
             [ ("buildout", [ ("download-cache", "/tmp/cache");
                              ("relative-paths", "true") ]);
               ("setup.py", [ ("recipe", "infi.recipe.template.version") ]);
               ("scripts", [ ("recipe", "infi.vendata.console_scripts") ]) ]
             ConfigParserError eq_refl Hdir eq_refl eq_refl).
  split; [|split]; reflexivity.
Defined.

(** ** Paths that end in a name *)

Section Paths.

Lemma string_app_assoc (a b c : string) : (a +:+ b) +:+ c = a +:+ (b +:+ c).
Proof.
  induction a as [|x a IH]; [done|].
  change (String x ((a +:+ b) +:+ c) = String x (a +:+ (b +:+ c))). by rewrite IH.
Qed.

Lemma join_cons sep x items :
  items <> [] -> PyStr.join sep (x :: items) = x +:+ sep +:+ PyStr.join sep items.
Proof. by destruct items. Qed.

Lemma join_snoc sep y : forall items,
  items <> [] -> PyStr.join sep (items ++ [ y ]) = PyStr.join sep items +:+ sep +:+ y.
Proof.
  induction items as [|x items IH]; intros Hne; [done|].
  destruct items as [|x' items]; [reflexivity|].
  change ((x :: x' :: items) ++ [ y ]) with (x :: ((x' :: items) ++ [ y ])).
  rewrite (join_cons sep x ((x' :: items) ++ [ y ])) by done. rewrite IH by done.
  rewrite (join_cons sep x (x' :: items)) by done. by rewrite !string_app_assoc.
Qed.







End Paths.

(** ** The cache-directory step *)

Section CacheStep.

Context {CP : ConfigParserLib} {SR : Surroundings}.






End CacheStep.


(** ** Cleaning the build tree *)

Section Cleaning.

Context {CP : ConfigParserLib}.

Lemma only_removes_refl (s : State) : only_removes s s.
Proof. by repeat split. Qed.

Lemma only_removes_trans (s1 s2 s3 : State) :
  only_removes s1 s2 -> only_removes s2 s3 -> only_removes s1 s3.
Proof.
  intros (Hf1 & Hc1 & Hp1 & Hq1) (Hf2 & Hc2 & Hp2 & Hq2).
  repeat split; [by trans (files s2)|congruence..].
Qed.

Lemma only_removes_resolve (s s1 : State) name :
  only_removes s s1 -> resolve s1 name = resolve s name.
Proof. intros (_ & Hcwd & _). unfold resolve. by rewrite Hcwd. Qed.

Lemma only_removes_absent (s s1 : State) key :
  only_removes s s1 -> files s !! key = None -> files s1 !! key = None.
Proof.
  intros (Hsub & _) Hnone. destruct (files s1 !! key) as [node|] eqn:Hnode; [|done].
  by rewrite (lookup_weaken _ _ _ _ Hnode Hsub) in Hnone.
Qed.

Lemma only_removes_kind (s s1 : State) key node :
  only_removes s s1 -> files s1 !! key = Some node -> files s !! key = Some node.
Proof. intros (Hsub & _) Hnode. by apply (lookup_weaken _ _ _ _ Hnode Hsub). Qed.

Lemma cleaned_nil (s : State) : cleaned [] s (Ok tt, s).
Proof.
  split; [apply only_removes_refl|]. split; [|done].
  intros _ name Hin. by apply elem_of_nil in Hin.
Qed.

Lemma cleaned_seq names1 names2 (m1 m2 : M unit) (s : State) :
  cleaned names1 s (m1 s) ->
  (forall s1, only_removes s s1 -> cleaned names2 s1 (m2 s1)) ->
  cleaned (names1 ++ names2) s ((m1 ;; m2) s).
Proof.
  intros (Hkeep1 & Hgone1 & Hframe1) Hsecond. rewrite bind_run.
  destruct (m1 s) as [[[]|e] s1] eqn:Hfirst; simpl in *.
  - destruct (Hsecond s1 Hkeep1) as (Hkeep2 & Hgone2 & Hframe2).
    split; [by apply (only_removes_trans s s1)|]. split.
    + intros Hok name Hin. apply elem_of_app in Hin as [Hin|Hin].
      * apply (only_removes_absent s1); [done|]. by apply Hgone1.
      * rewrite <- (only_removes_resolve s s1 name Hkeep1). by apply Hgone2.
    + intros key Hout. rewrite Hframe2, Hframe1; [done| |].
      * intros name Hin. apply Hout, elem_of_app. by left.
      * intros name Hin. rewrite (only_removes_resolve s s1 name Hkeep1).
        apply Hout, elem_of_app. by right.
  - split; [done|]. split; [done|].
    intros key Hout. apply Hframe1. intros name Hin. apply Hout, elem_of_app. by left.
Qed.

Lemma for_each_cleaned (body : string -> M unit) :
  (forall name s, name <> "" -> cleaned [ name ] s (body name s)) ->
  forall names s,
    (forall name, name ∈ names -> name <> "") -> cleaned names s (for_each names body s).
Proof.
  intros Hbody names. induction names as [|name names IH]; intros s Hnamed;
    [apply cleaned_nil|].
  change (name :: names) with ([ name ] ++ names).
  apply (cleaned_seq [ name ] names (body name) (for_each names body)).
  - apply Hbody, Hnamed. by left.
  - intros s1 _. apply IH. intros other Hin. apply Hnamed. by right.
Qed.

Lemma for_each_returns (body : string -> M unit) (fits : Node -> Prop) :
  (forall name s, name <> "" -> only_removes s (body name s).2) ->
  (forall name s, name <> "" ->
                  (forall node, files s !! resolve s name = Some node -> fits node) ->
                  (body name s).1 = Ok tt) ->
  forall names s,
    (forall name, name ∈ names -> name <> "") ->
    (forall name node, name ∈ names -> files s !! resolve s name = Some node -> fits node) ->
    (for_each names body s).1 = Ok tt.
Proof.
  intros Hkeep Hfits names. induction names as [|name names IH]; intros s Hnamed Hall;
    [done|].
  simpl. rewrite bind_run.
  assert (Hname : name <> "") by (apply Hnamed; by left).
  pose proof (Hkeep name s Hname) as Hkept.
  pose proof (Hfits name s Hname (fun node => Hall name node ltac:(by left))) as Hok.
  destruct (body name s) as [[[]|e] s1]; simpl in *; [|done].
  apply IH; [intros other Hin; apply Hnamed; by right|].
  intros other node Hin Hnode. apply (Hall other node); [by right|].
  apply (only_removes_kind s s1); [done|].
  by rewrite <- (only_removes_resolve s s1 other Hkept).
Qed.

Lemma for_each_idle {A} (items : list A) (body : A -> M unit) (s : State) :
  (forall x, x ∈ items -> body x s = (Ok tt, s)) -> for_each items body s = (Ok tt, s).
Proof.
  induction items as [|x items IH]; intros Hidle; [done|].
  simpl. rewrite bind_run, Hidle by (by left). apply IH. intros y Hin. apply Hidle. by right.
Qed.

Lemma remove_tree_subseteq (disk : FileSystem) path : remove_tree disk path ⊆ disk.
Proof. apply map_filter_subseteq. Qed.

Lemma remove_tree_gone (disk : FileSystem) path : remove_tree disk path !! path = None.
Proof.
  apply map_lookup_filter_None. right. intros node _. simpl.
  by rewrite String.eqb_refl.
Qed.

Lemma remove_tree_frame (disk : FileSystem) path key :
  below path key = false -> remove_tree disk path !! key = disk !! key.
Proof.
  intros Hout. destruct (disk !! key) as [node|] eqn:Hnode.
  - apply map_lookup_filter_Some. split; [done|]. simpl.
    unfold below in Hout. by rewrite Hout.
  - apply map_lookup_filter_None. by left.
Qed.

Lemma os_remove_run path (s : State) :
  os_remove path s =
  match entry s path with
  | Some (File _) =>
      (Ok tt, mkState (BUILDOUT_PARAMETERS s) (cwd s) (delete (resolve s path) (files s))
                (trace s ++ [ EvRemove (resolve s path) ]) (parsers s) (uuid_clock s))
  | _ => (Raise OSError, s)
  end.
Proof.
  unfold os_remove, mbind, M_bind, get_state, set_files, log, raise. simpl.
  by destruct (entry s path) as [[text|]|].
Qed.

Lemma shutil_rmtree_run path (s : State) :
  shutil_rmtree path s =
  match entry s path with
  | Some Dir =>
      (Ok tt, mkState (BUILDOUT_PARAMETERS s) (cwd s)
                (remove_tree (files s) (resolve s path))
                (trace s ++ [ EvRmtree (resolve s path) ]) (parsers s) (uuid_clock s))
  | _ => (Raise OSError, s)
  end.
Proof.
  unfold shutil_rmtree, mbind, M_bind, get_state, set_files, log, raise. simpl.
  by destruct (entry s path) as [[text|]|].
Qed.

(** [remove(filename)] when [exists(filename)] *)
Lemma remove_if_exists_run filename (s : State) :
  filename <> "" ->
  (present ← os_path_exists filename; when present (os_remove filename)) s =
  match files s !! resolve s filename with
  | None => (Ok tt, s)
  | Some (File _) =>
      (Ok tt, mkState (BUILDOUT_PARAMETERS s) (cwd s)
                (delete (resolve s filename) (files s))
                (trace s ++ [ EvRemove (resolve s filename) ]) (parsers s) (uuid_clock s))
  | Some Dir => (Raise OSError, s)
  end.
Proof.
  intros Hnamed. rewrite bind_run, os_path_exists_run, entry_named by done.
  destruct (files s !! resolve s filename) as [node|] eqn:Hnode.
  - rewrite bool_decide_eq_true_2 by (by eexists). unfold when.
    by rewrite os_remove_run, entry_named, Hnode by done.
  - by rewrite bool_decide_eq_false_2 by (by intros [? ?]).
Qed.

(** [rmtree(dirname)] when [exists(dirname)] *)
Lemma rmtree_if_exists_run dirname (s : State) :
  dirname <> "" ->
  (present ← os_path_exists dirname; when present (shutil_rmtree dirname)) s =
  match files s !! resolve s dirname with
  | None => (Ok tt, s)
  | Some Dir =>
      (Ok tt, mkState (BUILDOUT_PARAMETERS s) (cwd s)
                (remove_tree (files s) (resolve s dirname))
                (trace s ++ [ EvRmtree (resolve s dirname) ]) (parsers s) (uuid_clock s))
  | Some (File _) => (Raise OSError, s)
  end.
Proof.
  intros Hnamed. rewrite bind_run, os_path_exists_run, entry_named by done.
  destruct (files s !! resolve s dirname) as [node|] eqn:Hnode.
  - rewrite bool_decide_eq_true_2 by (by eexists). unfold when.
    rewrite shutil_rmtree_run, entry_named, Hnode by done. by destruct node.
  - by rewrite bool_decide_eq_false_2 by (by intros [? ?]).
Qed.

Lemma below_self path : below path path = true.
Proof. unfold below. by rewrite String.eqb_refl. Qed.

Lemma remove_if_exists_cleaned filename (s : State) :
  filename <> "" ->
  cleaned [ filename ] s
    ((present ← os_path_exists filename; when present (os_remove filename)) s).
Proof.
  intros Hnamed. rewrite remove_if_exists_run by done.
  destruct (files s !! resolve s filename) as [[text|]|] eqn:Hnode.
  - split; [|split]; simpl.
    + repeat split; simpl. apply delete_subseteq.
    + intros _ name Hin. apply list_elem_of_singleton in Hin as ->. apply lookup_delete_eq.
    + intros key Hout. apply lookup_delete_ne. intros <-.
      specialize (Hout filename ltac:(by left)). by rewrite below_self in Hout.
  - split; [apply only_removes_refl|]. by split.
  - split; [apply only_removes_refl|]. split; [|done].
    intros _ name Hin. by apply list_elem_of_singleton in Hin as ->.
Qed.

Lemma rmtree_if_exists_cleaned dirname (s : State) :
  dirname <> "" ->
  cleaned [ dirname ] s
    ((present ← os_path_exists dirname; when present (shutil_rmtree dirname)) s).
Proof.
  intros Hnamed. rewrite rmtree_if_exists_run by done.
  destruct (files s !! resolve s dirname) as [[text|]|] eqn:Hnode.
  - split; [apply only_removes_refl|]. by split.
  - split; [|split]; simpl.
    + repeat split; simpl. apply remove_tree_subseteq.
    + intros _ name Hin. apply list_elem_of_singleton in Hin as ->. apply remove_tree_gone.
    + intros key Hout. apply remove_tree_frame. apply Hout. by left.
  - split; [apply only_removes_refl|]. split; [|done].
    intros _ name Hin. by apply list_elem_of_singleton in Hin as ->.
Qed.

Lemma clean_targets_named name :
  name ∈ [ "setup.py"; "bin"; "eggs"; "develop-eggs" ] -> name <> "".
Proof.
  intros Hin. repeat (apply elem_of_cons in Hin as [->|Hin]; [done|]).
  by apply elem_of_nil in Hin.
Qed.

Lemma clean_build_seq (s : State) :
  clean_build s =
  (for_each [ "setup.py" ]
     (fun filename => present ← os_path_exists filename; when present (os_remove filename)) ;;
   for_each [ "bin"; "eggs"; "develop-eggs" ]
     (fun dirname => present ← os_path_exists dirname; when present (shutil_rmtree dirname))) s.
Proof. reflexivity. Qed.

(** X10: cleaning only removes.  Whatever the tree looks like and however
    [clean_build] ends, no entry is created or changed and the working
    directory, the parameter list and the parser objects stay; when it
    returns, none of [setup.py], [bin], [eggs] and [develop-eggs] exists any
    more; and every entry that is neither one of the four nor below one of
    them is still there.  On a tree with none of the four, nothing happens at
    all. *)
Theorem clean_build_only_removes (s : State) :
  cleaned [ "setup.py"; "bin"; "eggs"; "develop-eggs" ] s (clean_build s) /\
  ((forall name, name ∈ [ "setup.py"; "bin"; "eggs"; "develop-eggs" ] ->
                 files s !! resolve s name = None) ->
   clean_build s = (Ok tt, s)).
Proof.
  split.
  - rewrite clean_build_seq.
    apply (cleaned_seq [ "setup.py" ] [ "bin"; "eggs"; "develop-eggs" ]).
    + apply for_each_cleaned; [apply remove_if_exists_cleaned|].
      intros name Hin. by apply list_elem_of_singleton in Hin as ->.
    + intros s1 _. apply for_each_cleaned; [apply rmtree_if_exists_cleaned|].
      intros name Hin. apply clean_targets_named. by right.
  - intros Hnone. rewrite clean_build_seq, bind_run.
    rewrite for_each_idle.
    + apply for_each_idle. intros name Hin.
      rewrite rmtree_if_exists_run by (apply clean_targets_named; by right).
      rewrite Hnone; [done|]. by right.
    + intros name Hin. apply list_elem_of_singleton in Hin as ->.
      rewrite remove_if_exists_run by done.
      rewrite Hnone; [done|]. by left.
Qed.

(** X11: when [setup.py] is not a directory and none of [bin], [eggs] and
    [develop-eggs] is a plain file, [clean_build] returns. *)
Theorem clean_build_returns (s : State) :
  files s !! resolve s "setup.py" <> Some Dir ->
  (forall dirname text, dirname ∈ [ "bin"; "eggs"; "develop-eggs" ] ->
                        files s !! resolve s dirname <> Some (File text)) ->
  (clean_build s).1 = Ok tt.
Proof.
  intros Hfile Hdirs. rewrite clean_build_seq, bind_run.
  assert (Hnamed : forall name, name ∈ [ "setup.py" ] -> name <> "").
  { intros name Hin. by apply list_elem_of_singleton in Hin as ->. }
  pose proof (for_each_cleaned _ remove_if_exists_cleaned [ "setup.py" ] s Hnamed)
    as (Hkept & _).
  pose proof (for_each_returns
                (fun filename => present ← os_path_exists filename;
                                 when present (os_remove filename))
                (fun node => node <> Dir)) as Hfirst.
  rewrite (surjective_pairing (for_each [ "setup.py" ] _ s)) in *.
  rewrite Hfirst; clear Hfirst.
  - apply (for_each_returns _ (fun node => forall text, node <> File text)).
    + intros name s1 Hname. by apply rmtree_if_exists_cleaned.
    + intros name s1 Hname Hfit. rewrite rmtree_if_exists_run by done.
      destruct (files s1 !! resolve s1 name) as [[text|]|]; [|done..].
      by specialize (Hfit (File text) eq_refl text).
    + intros name Hin. apply clean_targets_named. by right.
    + intros name node Hin Hnode text ->.
      apply (Hdirs name text Hin). apply (only_removes_kind s _ _ _ Hkept).
      by rewrite <- (only_removes_resolve s _ name Hkept).
  - intros name s1 Hname. by apply remove_if_exists_cleaned.
  - intros name s1 Hname Hfit. rewrite remove_if_exists_run by done.
    destruct (files s1 !! resolve s1 name) as [[text|]|]; [done| |done].
    by specialize (Hfit Dir eq_refl).
  - done.
  - intros name node Hin Hnode ->. apply list_elem_of_singleton in Hin as ->. done.
Qed.

(** X12: a directory called [setup.py] stops the cleaning before anything
    is removed: [remove] fails on it and the directories are not reached. *)
Theorem clean_build_stops_at_directory (s : State) :
  files s !! resolve s "setup.py" = Some Dir ->
  clean_build s = (Raise OSError, s).
Proof.
  intros Hdir. rewrite clean_build_seq, bind_run. cbn [for_each].
  by rewrite bind_run, remove_if_exists_run, Hdir.
Qed.

End Cleaning.

Lemma clean_build_returns_witness :
  (@clean_build Reference.config_parser Samples.built).1 = Ok tt.
Proof.
  apply (@clean_build_returns Reference.config_parser Samples.built); [discriminate|].
  intros dirname text Hin.
  apply elem_of_cons in Hin as [->|Hin]; [discriminate|].
  apply elem_of_cons in Hin as [->|Hin]; [discriminate|].
  apply list_elem_of_singleton in Hin as ->. discriminate.
Defined.

Lemma clean_build_stops_at_directory_witness :
  let s := @process_start Reference.config_parser "/work"
             (list_to_map [ ("/work", Dir); ("/work/setup.py", Dir); ("/work/bin", Dir) ]) in
  clean_build s = (Raise OSError, s).
Proof.
  exact (@clean_build_stops_at_directory Reference.config_parser
           (@process_start Reference.config_parser "/work"
              (list_to_map [ ("/work", Dir); ("/work/setup.py", Dir); ("/work/bin", Dir) ]))
           eq_refl).
Defined.

(** ** Installing sections by recipe *)

Section SectionsByRecipe.

Context {CP : ConfigParserLib} {SR : Surroundings}.

Lemma filter_m_reads {A} (cond : A -> M bool) :
  (forall x s, (cond x s).2 = s) -> forall items s, (filter_m cond items s).2 = s.
Proof.
  intros Hcond items. induction items as [|x items IH]; intros s; [done|].
  simpl. rewrite bind_run. pose proof (Hcond x s) as Hx.
  destruct (cond x s) as [[keep|e] s1]; simpl in Hx; subst s1; [|done].
  rewrite bind_run. pose proof (IH s) as Hrest.
  by destruct (filter_m cond items s) as [[kept|e] s1].
Qed.

Lemma filter_m_pure {A} (cond : A -> M bool) (f : A -> bool) items s :
  (forall x, x ∈ items -> cond x s = (Ok (f x), s)) ->
  filter_m cond items s = (Ok (List.filter f items), s).
Proof.
  induction items as [|x items IH]; intros Hcond; [done|].
  simpl. rewrite bind_run, Hcond by (by left).
  rewrite bind_run, IH by (intros y Hin; apply Hcond; by right). done.
Qed.

Lemma deref_run handle s :
  deref handle s = match parsers s !! handle with
                   | Some p => (Ok p, s)
                   | None => (Raise AttributeError, s)
                   end.
Proof.
  unfold deref, mbind, M_bind, get_state, mret, M_ret, raise. simpl.
  by destruct (parsers s !! handle).
Qed.

Lemma parser_sections_run handle s :
  parser_sections handle s = match parsers s !! handle with
                             | Some p => (Ok (cp_sections p), s)
                             | None => (Raise AttributeError, s)
                             end.
Proof.
  unfold parser_sections. rewrite bind_run, deref_run.
  by destruct (parsers s !! handle).
Qed.

Lemma has_recipe_reads buildout recipe section s :
  ((has ← parser_has_option buildout section "recipe";
    if has : bool
    then value ← parser_get buildout section "recipe"; mret (String.eqb value recipe)
    else mret false) s).2 = s.
Proof.
  unfold parser_has_option, parser_get, deref, lift_result, mbind, M_bind, get_state, mret,
    M_ret, raise. simpl.
  destruct (parsers s !! buildout) as [p|] eqn:Hp; [|done].
  destruct (cp_has_option p section "recipe"); [|done].
  simpl. rewrite Hp. by destruct (cp_get p section "recipe").
Qed.

Lemma sections_to_install_reads recipe buildout s :
  ((sections ← parser_sections buildout;
    filter_m (fun section =>
                has ← parser_has_option buildout section "recipe";
                if has : bool
                then value ← parser_get buildout section "recipe";
                     mret (String.eqb value recipe)
                else mret false)
             sections) s).2 = s.
Proof.
  rewrite bind_run, parser_sections_run.
  destruct (parsers s !! buildout) as [p|]; [|done].
  apply filter_m_reads. intros section s1. apply has_recipe_reads.
Qed.

Lemma sections_to_install_run recipe buildout s p :
  parsers s !! buildout = Some p ->
  (forall section, section ∈ cp_sections p -> cp_has_option p section "recipe" = true ->
                   exists value, cp_get p section "recipe" = Ok value) ->
  (sections ← parser_sections buildout;
   filter_m (fun section =>
               has ← parser_has_option buildout section "recipe";
               if has : bool
               then value ← parser_get buildout section "recipe";
                    mret (String.eqb value recipe)
               else mret false)
            sections) s = (Ok (sections_with_recipe p recipe), s).
Proof.
  intros Hp Hreadable. rewrite bind_run, parser_sections_run, Hp.
  unfold sections_with_recipe. apply filter_m_pure.
  intros section Hin.
  unfold parser_has_option, parser_get, deref, lift_result, mbind, M_bind, get_state, mret,
    M_ret, raise. simpl. rewrite Hp.
  destruct (cp_has_option p section "recipe") eqn:Hhas; [|done].
  destruct (Hreadable section Hin Hhas) as [value Hvalue]. simpl.
  by rewrite ?Hp, Hvalue.
Qed.

Lemma install_sections_by_recipe_run (recipe : string) (s : State) (p : Parser) :
  parsed_config s "buildout.cfg" = Ok p ->
  can_write s "buildout.cfg" = true ->
  (forall section, section ∈ cp_sections p -> cp_has_option p section "recipe" = true ->
                   exists value, cp_get p section "recipe" = Ok value) ->
  let written := config_written s "buildout.cfg" p in
  let chosen := sections_with_recipe p recipe in
  install_sections_by_recipe recipe s =
  match chosen with
  | [] => (Ok tt, written)
  | _ :: _ =>
      execute_assert_success
        (buildout_command (BUILDOUT_PARAMETERS s)
           (CmdString ("install " +:+ PyStr.join " " chosen)))
        written
  end.
Proof.
  intros Hp Hdir Hreadable. cbv zeta. unfold install_sections_by_recipe.
  rewrite bind_run, call_open_buildout_configfile_default.
  rewrite (open_buildout_configfile_reading "buildout.cfg"
             (fun buildout =>
                sections ← parser_sections buildout;
                filter_m (fun section =>
                            has ← parser_has_option buildout section "recipe";
                            if has : bool
                            then value ← parser_get buildout section "recipe";
                                 mret (String.eqb value recipe)
                            else mret false)
                         sections)
             s p Hp Hdir (sections_to_install_reads recipe)).
  rewrite (sections_to_install_run recipe _ _ p); [|by apply list_lookup_middle|done].
  cbn [fst]. fold (config_written s "buildout.cfg" p).
  destruct (sections_with_recipe p recipe) as [|section chosen]; [done|].
  rewrite bool_decide_eq_false_2 by done. cbn [negb when].
  by rewrite execute_with_buildout_run.
Qed.

(** X13: [install_sections_by_recipe] on a readable configuration [p] whose
    file can be opened for writing and whose [recipe] options can all be
    read.  The sections it picks are those of [p], in the order the parser
    lists them, whose [recipe] reads [recipe].  With none it launches
    nothing; otherwise it launches the build tool once, with the current
    parameter list and [install] followed by the picked sections.  Either
    way the configuration file has been rewritten before. *)
Theorem install_sections_by_recipe_command (recipe : string) (s : State) (p : Parser) :
  parsed_config s "buildout.cfg" = Ok p ->
  can_write s "buildout.cfg" = true ->
  (forall section, section ∈ cp_sections p -> cp_has_option p section "recipe" = true ->
                   exists value, cp_get p section "recipe" = Ok value) ->
  let written := config_written s "buildout.cfg" p in
  let chosen := sections_with_recipe p recipe in
  install_sections_by_recipe recipe s =
  match chosen with
  | [] => (Ok tt, written)
  | _ :: _ =>
      execute_assert_success
        (buildout_command (BUILDOUT_PARAMETERS s)
           (CmdString ("install " +:+ PyStr.join " " chosen)))
        written
  end.
Proof. apply install_sections_by_recipe_run. Qed.

End SectionsByRecipe.

Lemma install_sections_by_recipe_command_witness :
  (@install_sections_by_recipe Reference.config_parser Reference.quiet
     "infi.recipe.template.version" Reference.project).1 = Ok tt /\
  trace (@install_sections_by_recipe Reference.config_parser Reference.quiet
           "infi.recipe.template.version" Reference.project).2 =
  [ EvWrite "/work/buildout.cfg";
    EvCall (Execute [ "bin/buildout"; "-s"; "install"; "setup.py" ]) ] /\
  trace (@install_sections_by_recipe Reference.config_parser Reference.quiet
           "zerokspot.recipe.git" Reference.project).2 =
  [ EvWrite "/work/buildout.cfg" ].
Proof.
  assert (Hdir : can_write Reference.project "buildout.cfg" = true) by reflexivity.
  assert (Hreadable : forall section,
            section ∈ [ "buildout"; "setup.py"; "scripts" ] ->
            @cp_has_option Reference.config_parser
              [ ("buildout", [ ("download-cache", "/tmp/cache") ]);
                ("setup.py", [ ("recipe", "infi.recipe.template.version") ]);
                ("scripts", [ ("recipe", "infi.vendata.console_scripts") ]) ]
              section "recipe" = true ->
            exists value,
              @cp_get Reference.config_parser
                [ ("buildout", [ ("download-cache", "/tmp/cache") ]);
                  ("setup.py", [ ("recipe", "infi.recipe.template.version") ]);
                  ("scripts", [ ("recipe", "infi.vendata.console_scripts") ]) ]
                section "recipe" = Ok value).
  { intros section Hin Hhas.
    apply elem_of_cons in Hin as [->|Hin]; [discriminate|].
    apply elem_of_cons in Hin as [->|Hin]; [by eexists|].
    apply list_elem_of_singleton in Hin as ->. by eexists. }
  rewrite (@install_sections_by_recipe_command Reference.config_parser Reference.quiet
             "infi.recipe.template.version" Reference.project _ eq_refl Hdir Hreadable).
  rewrite (@install_sections_by_recipe_command Reference.config_parser Reference.quiet
             "zerokspot.recipe.git" Reference.project _ eq_refl Hdir Hreadable).
  repeat split; reflexivity.
Defined.

(** ** Calls that leave the process *)

Section Calls.

Context {CP : ConfigParserLib} {SR : Surroundings}.

Lemma collaborator_run failure call s :
  collaborator failure call s =
  ((if call_succeeds call s then Ok tt else Raise failure), after_call call s).
Proof.
  unfold collaborator, call_succeeds, after_call, mbind, M_bind, log, get_state, set_files.
  simpl. by destruct (perform call (cwd s) (files s)) as [[] disk].
Qed.





(** X15: installing readline support.  On a platform that is neither
    [Darwin] nor [Windows] nothing is launched and nothing changes.  On those
    two the interpreter of the project is first asked to import the module;
    the command is split at blanks, so [-c] receives the single word
    [import] and the module name follows as a separate argument.  A failure
    of that probe is not an error: it is what makes [easy_install] run, and
    the outcome is then that of [easy_install]. *)
Theorem install_readline_launches (s : State) :
  match get_readline_module with
  | None => install_readline s = (Ok tt, s)
  | Some module =>
      let probe := Execute [ "bin/python"; "-c"; "import"; module ] in
      let install := Execute [ "bin/easy_install"; module ] in
      (module = "readline" \/ module = "pyreadline") /\
      install_readline s =
      if call_succeeds probe s then (Ok tt, after_call probe s)
      else ((if call_succeeds install (after_call probe s) then Ok tt
             else Raise ExecutionError),
            after_call install (after_call probe s))
  end.
Proof.
  unfold install_readline, get_readline_module.
  destruct (String.eqb platform_system "Darwin");
    [|destruct (String.eqb platform_system "Windows"); [|done]].
  - cbv zeta. split; [by left|].
    change (String.eqb "readline" "") with false. cbv iota.
    rewrite bind_run. unfold is_module_installed, try_except_ExecutionError.
    rewrite bind_run, collaborator_run.
    change (String.words ("bin/python -c import " +:+ "readline"))
      with [ "bin/python"; "-c"; "import"; "readline" ].
    destruct (call_succeeds _ s); [done|].
    unfold mret, M_ret. cbv beta iota. by rewrite collaborator_run.
  - cbv zeta. split; [by right|].
    change (String.eqb "pyreadline" "") with false. cbv iota.
    rewrite bind_run. unfold is_module_installed, try_except_ExecutionError.
    rewrite bind_run, collaborator_run.
    change (String.words ("bin/python -c import " +:+ "pyreadline"))
      with [ "bin/python"; "-c"; "import"; "pyreadline" ].
    destruct (call_succeeds _ s); [done|].
    unfold mret, M_ret. cbv beta iota. by rewrite collaborator_run.
Qed.

End Calls.

(** ** The repository commands *)

Section RepositoryCommands.

Context {CP : ConfigParserLib} {SR : Surroundings}.

Lemma try_finally_ext {A} (body1 body2 : M A) cleanup s :
  body1 s = body2 s -> try_finally body1 cleanup s = try_finally body2 cleanup s.
Proof. intros Hbody. unfold try_finally. by rewrite Hbody. Qed.

Lemma chdir_ext {A} path (body1 body2 : M A) s :
  (forall s1, body1 s1 = body2 s1) -> chdir path body1 s = chdir path body2 s.
Proof.
  intros Hbody. unfold chdir.
  apply bind_ext. intros target s1. apply bind_ext. intros current_dir s2.
  apply bind_ext. intros [] s3. by apply try_finally_ext.
Qed.

Lemma create_subdir_ext {A} arguments (body1 body2 : M A) s :
  (forall s1, body1 s1 = body2 s1) ->
  _create_subdir_if_necessary arguments body1 s = _create_subdir_if_necessary arguments body2 s.
Proof.
  intros Hbody. unfold _create_subdir_if_necessary.
  destruct (negb (truthy (args_get arguments "--mkdir"))); [apply Hbody|].
  apply bind_ext. intros dirname s1. apply bind_ext. intros present s2.
  apply bind_ext. intros isdir s3. destruct (present && isdir); [done|].
  apply bind_ext. intros [] s4. by apply chdir_ext.
Qed.

Lemma bind_raises_l {A B} (m : M A) (f : A -> M B) s e :
  (m s).1 = Raise e -> ((m ≫= f) s).1 = Raise e.
Proof.
  intros Hm. rewrite bind_run. destruct (m s) as [[x|e1] s1]; simpl in *; [discriminate|].
  by injection Hm as ->.
Qed.

Lemma bind_raises_r {A B} (m : M A) (f : A -> M B) s :
  (forall x s1, exists e, (f x s1).1 = Raise e) -> exists e, ((m ≫= f) s).1 = Raise e.
Proof.
  intros Hf. rewrite bind_run. destruct (m s) as [[x|e1] s1]; [apply Hf|by exists e1].
Qed.

Lemma try_finally_raises {A} (body : M A) cleanup s :
  (exists e, (body s).1 = Raise e) -> exists e, (try_finally body cleanup s).1 = Raise e.
Proof.
  intros [e He]. unfold try_finally. destruct (body s) as [r s1]. simpl in He. subst r.
  destruct (cleanup s1) as [[[]|e1] s2]; by eexists.
Qed.

Lemma create_subdir_raises {A} arguments (body : M A) :
  (forall s, exists e, (body s).1 = Raise e) ->
  forall s, exists e, (_create_subdir_if_necessary arguments body s).1 = Raise e.
Proof.
  intros Hbody s. unfold _create_subdir_if_necessary.
  destruct (negb (truthy (args_get arguments "--mkdir"))); [apply Hbody|].
  apply bind_raises_r. intros dirname s1. apply bind_raises_r. intros present s2.
  apply bind_raises_r. intros isdir s3. destruct (present && isdir); [by eexists|].
  apply bind_raises_r. intros [] s4. unfold chdir.
  apply bind_raises_r. intros target s5. apply bind_raises_r. intros current_dir s6.
  apply bind_raises_r. intros [] s7. apply try_finally_raises, Hbody.
Qed.

Lemma set_buildout_config_cuts (arguments : Arguments) (rest : M unit) s :
  (set_buildout_config arguments ;; rest) s = set_buildout_config arguments s.
Proof. reflexivity. Qed.

(** X16: [init] never gets past [set_buildout_config].  That step raises
    for every command line, so every run of [init] ends in an exception, and
    a run is the same as that of the pipeline cut after it: [generate_src],
    [append_to_gitignore] and [commit_all] are never reached. *)
Theorem init_stops_at_set_buildout_config (arguments : Arguments) (s : State) :
  (exists e, (init arguments s).1 = Raise e) /\
  init arguments s =
  _create_subdir_if_necessary arguments
    (_exit_if_dotgit_exists ;;
     git_init arguments ;;
     gitflow_init ;;
     release_initial_version ;;
     git_checkout_develop ;;
     add_initial_files ;;
     set_buildout_config arguments) s.
Proof.
  split.
  - apply create_subdir_raises. clear s. intros s.
    do 6 (apply bind_raises_r; intros [] ?).
    exists (unexpected_keyword "open_buildout_configfile" "write_on_exit").
    by apply bind_raises_l.
  - unfold init. apply create_subdir_ext. intros s1.
    do 6 (apply bind_ext; intros [] ?). apply set_buildout_config_cuts.
Qed.

Lemma args_get_mkdir (arguments : Arguments) key :
  key <> "--mkdir" ->
  args_get (<["--mkdir" := PyBool true]> arguments) key = args_get arguments key.
Proof. intros Hkey. unfold args_get. by rewrite lookup_insert_ne. Qed.

Lemma os_path_isdir_run path s :
  os_path_isdir path s = (Ok (is_dir_node (entry s path)), s).
Proof. reflexivity. Qed.

Lemma os_makedirs_taken path s :
  is_Some (files s !! resolve s path) -> os_makedirs path s = (Raise OSError, s).
Proof.
  intros Htaken. unfold os_makedirs. rewrite bind_run. unfold get_state.
  cbv beta zeta. rewrite bool_decide_eq_true_2 by done.
  by rewrite orb_true_r.
Qed.

Lemma create_subdir_existing {A} arguments text node (body : M A) s :
  truthy (args_get arguments "--mkdir") = true ->
  py_or (args_get arguments "<project_name>") (args_get arguments "<origin>") = PyStr text ->
  subdir_name text <> "" ->
  files s !! resolve s (subdir_name text) = Some node ->
  _create_subdir_if_necessary arguments body s =
  (Raise (match node with Dir => SystemExit 1 | File _ => OSError end), s).
Proof.
  intros Hmkdir Htext Hnamed Hnode. unfold _create_subdir_if_necessary.
  rewrite Hmkdir, Htext. cbn [negb as_str]. rewrite bind_mret_l.
  fold (subdir_name text).
  rewrite bind_run, os_path_exists_run, entry_named, Hnode by done.
  rewrite bool_decide_eq_true_2 by (by eexists).
  rewrite bind_run, os_path_isdir_run, entry_named, Hnode by done.
  destruct node as [content|]; [|done].
  cbn [is_dir_node andb]. rewrite bind_run, os_makedirs_taken; [done|].
  rewrite Hnode. by eexists.
Qed.

(** X17: a clone, or an [init --mkdir], whose directory is already taken.
    The directory is the last path component of the project name, or of the
    origin without a trailing [.git] when there is no name.  When an entry of
    that name exists, nothing is created and nothing is launched: an existing
    directory gives [SystemExit(1)], an existing plain file the [OSError] of
    [makedirs].  The name is taken to be non-empty: the empty path names no
    entry, so that an empty name is never taken. *)
Theorem taken_directory_stops_clone_and_init (arguments : Arguments) (text : string)
    (node : Node) (s : State) :
  py_or (args_get arguments "<project_name>") (args_get arguments "<origin>") = PyStr text ->
  subdir_name text <> "" ->
  files s !! resolve s (subdir_name text) = Some node ->
  let raised := match node with Dir => SystemExit 1 | File _ => OSError end in
  clone arguments s = (Raise raised, s) /\
  (truthy (args_get arguments "--mkdir") = true -> init arguments s = (Raise raised, s)).
Proof.
  intros Htext Hnamed Hnode. cbv zeta. split.
  - unfold clone. apply (create_subdir_existing _ text); [| |done|done].
    + unfold args_get. by rewrite lookup_insert_eq.
    + by rewrite !args_get_mkdir.
  - intros Hmkdir. unfold init. by apply (create_subdir_existing _ text).
Qed.

(** X18: the dispatch of the repository plugin runs the one command whose
    name is set in the arguments; with neither or both of [init] and [clone]
    set, the unpacking of the one-element list fails with [ValueError] and
    nothing else happens. *)
Theorem dispatch_needs_one_command (arguments : Arguments) (s : State) :
  parse_commandline_arguments arguments s =
  match truthy (args_get arguments "init"), truthy (args_get arguments "clone") with
  | true, false => init arguments s
  | false, true => clone arguments s
  | _, _ => (Raise ValueError, s)
  end.
Proof.
  unfold parse_commandline_arguments. cbn [filter list_filter fst].
  repeat case_decide; simpl in *;
    destruct (truthy (args_get arguments "init")),
             (truthy (args_get arguments "clone")); done.
Qed.

End RepositoryCommands.

Lemma taken_directory_stops_clone_and_init_witness :
  let s := @process_start Reference.config_parser "/" Reference.project_disk in
  @clone Reference.config_parser Reference.quiet Samples.clone_command_line s =
  (Raise (SystemExit 1), s).
Proof.
  assert (Hname : subdir_name "git://host/tmp.git" <> "") by discriminate.
  exact (proj1 (@taken_directory_stops_clone_and_init Reference.config_parser Reference.quiet
                  Samples.clone_command_line "git://host/tmp.git" Dir
                  (@process_start Reference.config_parser "/" Reference.project_disk)
                  eq_refl Hname eq_refl)).
Defined.

(** ** Texts the repository plugin derives *)

Section DerivedTexts.

Lemma join_split_dots name :
  PyStr.join "/" (PyStr.split "." name) = PyStr.replace_char "." "/" name.
Proof.
  induction name as [|c name IH]; [done|]. simpl.
  destruct (Ascii.eqb c ".").
  - rewrite join_cons by apply split_nonempty. by rewrite IH.
  - pose proof (split_nonempty "." name) as Hne.
    destruct (PyStr.split "." name) as [|w ws]; [done|].
    rewrite <- IH. by destruct ws.
Qed.

Lemma version_file_path name :
  PyStr.join "/" ([ "src" ] ++ PyStr.split "." name ++ [ "__version__.py" ]) =
  "src/" +:+ PyStr.replace_char "." "/" name +:+ "/__version__.py".
Proof.
  change ([ "src" ] ++ PyStr.split "." name ++ [ "__version__.py" ])
    with ("src" :: (PyStr.split "." name ++ [ "__version__.py" ])).
  rewrite join_cons.
  - rewrite join_snoc by apply split_nonempty. by rewrite join_split_dots.
  - pose proof (split_nonempty "." name). by destruct (PyStr.split "." name).
Qed.

Lemma string_app_nil_r (a : string) : a +:+ "" = a.
Proof.
  induction a as [|x a IH]; [done|].
  change (String x (a +:+ "") = String x a). by rewrite IH.
Qed.

Lemma splitlines_single_line text : forall line,
  single_line text = true ->
  PyStr.splitlines_from line text =
  if String.eqb (line +:+ text) "" then [] else [ line +:+ text ].
Proof.
  induction text as [|c text IH]; intros line Hline.
  - by rewrite string_app_nil_r.
  - cbn [single_line] in Hline.
    apply andb_true_iff in Hline as [Hc Hrest]. apply andb_true_iff in Hc as [Hfeed Hreturn].
    apply negb_true_iff in Hfeed, Hreturn.
    cbn [PyStr.splitlines_from]. rewrite Hfeed, Hreturn, IH by done.
    by rewrite string_app_assoc.
Qed.

(** X19: [indent] does not indent a text of one line: the tab put before
    the only line is stripped again, together with the blanks around the
    text. *)
Theorem indent_single_line (text : string) :
  single_line text = true -> indent text = PyStr.strip text.
Proof.
  intros Hline. unfold indent, PyStr.splitlines.
  rewrite (splitlines_single_line text "" Hline).
  by destruct text as [|c text].
Qed.

Context {CP : ConfigParserLib}.

(** X20: the line [append_to_gitignore] adds names the version file inside
    the innermost package directory that [generate_src] makes: [src/], the
    last of the package directories, [/__version__.py]. *)
Theorem ignored_version_file_is_in_innermost_package (arguments : Arguments)
    (name : string) (s : State) :
  get_project_name arguments = PyStr name ->
  exists directories innermost,
    get_package_directories arguments s = (Ok directories, s) /\
    last directories = Some innermost /\
    append_to_gitignore arguments s =
    append_file ".gitignore"
      (String "010" "" +:+ ("src/" +:+ innermost +:+ "/__version__.py") +:+ String "010" "") s.
Proof.
  intros Hname.
  exists (map (PyStr.replace_char "." (String os_sep "")) (get_package_namespace name)
          ++ [ PyStr.replace_char "." (String os_sep "") name ]),
         (PyStr.replace_char "." "/" name).
  split; [|split].
  - unfold get_package_directories. by rewrite Hname.
  - apply last_snoc.
  - unfold append_to_gitignore. rewrite Hname. cbn [as_str]. rewrite bind_mret_l.
    by rewrite version_file_path.
Qed.

End DerivedTexts.

Lemma indent_single_line_witness : indent "  A tool " = "A tool".
Proof. exact (indent_single_line "  A tool " eq_refl). Defined.

Lemma ignored_version_file_is_in_innermost_package_witness :
  exists directories,
    @get_package_directories Reference.config_parser init_command_line Reference.project =
    (Ok directories, Reference.project) /\
    last directories = Some "infi/example" /\
    @append_to_gitignore Reference.config_parser init_command_line Reference.project =
    @append_file Reference.config_parser ".gitignore"
      (String "010" "" +:+ "src/infi/example/__version__.py" +:+ String "010" "")
      Reference.project.
Proof.
  destruct (@ignored_version_file_is_in_innermost_package Reference.config_parser
              init_command_line "infi.example" Reference.project eq_refl)
    as (directories & innermost & Hdirs & Hlast & Hline).
  exists directories. split; [done|].
  assert (Hinner : innermost = "infi/example").
  { injection Hdirs as <-. by injection Hlast as <-. }
  subst innermost. by split.
Defined.

(** ** The installing steps of the build pipeline *)

Section InstallingSteps.

Context {CP : ConfigParserLib} {SR : Surroundings}.

Lemma enter_fresh_parameter token l : token ∉ l -> enter_parameters [ token ] l = l ++ [ token ].
Proof. intros Hfresh. unfold enter_parameters. simpl. by rewrite bool_decide_eq_false_2. Qed.

Lemma scoped_install_run token recipe s p :
  parsed_config s "buildout.cfg" = Ok p ->
  can_write s "buildout.cfg" = true ->
  (forall section, section ∈ cp_sections p -> cp_has_option p section "recipe" = true ->
                   exists value, cp_get p section "recipe" = Ok value) ->
  token ∉ BUILDOUT_PARAMETERS s ->
  buildout_parameters_context [ token ] (install_sections_by_recipe recipe) s =
  install_outcome s p token recipe.
Proof.
  intros Hp Hdir Hreadable Hfresh.
  assert (Hfresh' : forall t, t ∈ [ token ] -> t ∉ BUILDOUT_PARAMETERS s).
  { intros t Ht. by apply list_elem_of_singleton in Ht as ->. }
  assert (Hexit : exit_parameters [ token ] (BUILDOUT_PARAMETERS s ++ [ token ])
                  = BUILDOUT_PARAMETERS s).
  { rewrite <- (enter_fresh_parameter token) by done. by apply exit_enter_parameters. }
  rewrite buildout_parameters_context_run. cbv zeta.
  rewrite enter_fresh_parameter by done.
  set (entered := with_parameters s (BUILDOUT_PARAMETERS s ++ [ token ])).
  pose proof (install_sections_by_recipe_run recipe entered p Hp Hdir Hreadable) as Hrun.
  cbv zeta in Hrun. rewrite Hrun. clear Hrun. unfold install_outcome.
  destruct (sections_with_recipe p recipe) as [|section chosen].
  - cbn [fst snd]. cbn [BUILDOUT_PARAMETERS with_parameters config_written entered].
    by rewrite Hexit.
  - pose proof (execute_assert_success_run
                  (buildout_command (BUILDOUT_PARAMETERS entered)
                     (CmdString ("install " +:+ PyStr.join " " (section :: chosen))))
                  (config_written entered "buildout.cfg" p)) as Hrun.
    cbv zeta in Hrun. rewrite Hrun. clear Hrun. cbn [fst snd].
    cbn [BUILDOUT_PARAMETERS with_parameters config_written entered].
    by rewrite Hexit.
Qed.

(** X21: the three installing steps of the build pipeline on a readable
    configuration [p] whose file can be opened for writing.
    [submodule_update] and [create_setup_py] run inside a scope of
    [buildout:develop=], [create_scripts] without [--use-isolated-python]
    inside a scope of [buildout:python=buildout].  Each rewrites the
    configuration file and then launches the build tool at most once, namely
    when [p] has sections of the step's recipe, with the token of its scope
    after the parameter list; the step returns when that run succeeds and
    raises its [ExecutionError] when it fails; and each leaves the parameter
    list as it found it. *)
Theorem installing_steps_commands (arguments : Arguments) (s : State) (p : Parser) :
  parsed_config s "buildout.cfg" = Ok p ->
  can_write s "buildout.cfg" = true ->
  (forall section, section ∈ cp_sections p -> cp_has_option p section "recipe" = true ->
                   exists value, cp_get p section "recipe" = Ok value) ->
  "buildout:develop=" ∉ BUILDOUT_PARAMETERS s ->
  "buildout:python=buildout" ∉ BUILDOUT_PARAMETERS s ->
  truthy (args_get_or_false arguments "--use-isolated-python") = false ->
  submodule_update s = install_outcome s p "buildout:develop=" "zerokspot.recipe.git" /\
  create_setup_py s =
    install_outcome s p "buildout:develop=" "infi.recipe.template.version" /\
  create_scripts arguments s =
    install_outcome s p "buildout:python=buildout" "infi.vendata.console_scripts" /\
  (forall token recipe,
      BUILDOUT_PARAMETERS (install_outcome s p token recipe).2 = BUILDOUT_PARAMETERS s).
Proof.
  intros Hp Hdir Hreadable Hdevelop Hpython Hisolated. split; [|split; [|split]].
  - by apply (scoped_install_run "buildout:develop=" "zerokspot.recipe.git" s p).
  - by apply (scoped_install_run "buildout:develop=" "infi.recipe.template.version" s p).
  - unfold create_scripts, buildout_use_custom_python. rewrite Hisolated.
    assert (Hsame : forall m : M unit, (mret tt ;; m) s = m s) by done.
    rewrite !Hsame.
    by apply (scoped_install_run "buildout:python=buildout" "infi.vendata.console_scripts" s p).
  - intros token recipe. unfold install_outcome.
    by destruct (sections_with_recipe p recipe).
Qed.

End InstallingSteps.

Lemma installing_steps_commands_witness :
  trace (@submodule_update Reference.config_parser Reference.quiet Reference.project).2 =
  [ EvWrite "/work/buildout.cfg" ] /\
  trace (@create_setup_py Reference.config_parser Reference.quiet Reference.project).2 =
  [ EvWrite "/work/buildout.cfg";
    EvCall (Execute [ "bin/buildout"; "-s"; "buildout:develop="; "install"; "setup.py" ]) ] /\
  trace (@create_scripts Reference.config_parser Reference.quiet scripts_command_line
           Reference.project).2 =
  [ EvWrite "/work/buildout.cfg";
    EvCall (Execute [ "bin/buildout"; "-s"; "buildout:python=buildout"; "install";
                      "scripts" ]) ].
Proof.
  assert (Hdir : can_write Reference.project "buildout.cfg" = true) by reflexivity.
  assert (Hreadable : forall section,
            section ∈ [ "buildout"; "setup.py"; "scripts" ] ->
            @cp_has_option Reference.config_parser
              [ ("buildout", [ ("download-cache", "/tmp/cache") ]);
                ("setup.py", [ ("recipe", "infi.recipe.template.version") ]);
                ("scripts", [ ("recipe", "infi.vendata.console_scripts") ]) ]
              section "recipe" = true ->
            exists value,
              @cp_get Reference.config_parser
                [ ("buildout", [ ("download-cache", "/tmp/cache") ]);
                  ("setup.py", [ ("recipe", "infi.recipe.template.version") ]);
                  ("scripts", [ ("recipe", "infi.vendata.console_scripts") ]) ]
                section "recipe" = Ok value).
  { intros section Hin Hhas.
    apply elem_of_cons in Hin as [->|Hin]; [discriminate|].
    apply elem_of_cons in Hin as [->|Hin]; [by eexists|].
    apply list_elem_of_singleton in Hin as ->. by eexists. }
  assert (Hdevelop : "buildout:develop=" ∉ BUILDOUT_PARAMETERS Reference.project).
  { intros Hin. apply list_elem_of_singleton in Hin. discriminate. }
  assert (Hpython : "buildout:python=buildout" ∉ BUILDOUT_PARAMETERS Reference.project).
  { intros Hin. apply list_elem_of_singleton in Hin. discriminate. }
  destruct (@installing_steps_commands Reference.config_parser Reference.quiet
              scripts_command_line Reference.project _ eq_refl Hdir Hreadable Hdevelop
              Hpython eq_refl) as (H1 & H2 & H3 & _).
  rewrite H1, H2, H3. repeat split; reflexivity.
Defined.

(** ** Failures that change their kind or pass through *)

Section Failures.

Context {CP : ConfigParserLib} {SR : Surroundings}.

(** X22: [git_checkout] turns every failure of the checkout into
    [SystemExit(1)]; the call is made once either way. *)
Theorem git_checkout_exits_on_failure (branch_name_or_tag : string) (s : State) :
  git_checkout branch_name_or_tag s =
  ((if call_succeeds (GitCheckout branch_name_or_tag) s then Ok tt
    else Raise (SystemExit 1)),
   after_call (GitCheckout branch_name_or_tag) s).
Proof.
  unfold git_checkout. rewrite collaborator_run.
  by destruct (call_succeeds (GitCheckout branch_name_or_tag) s).
Qed.

(** X23: with [--use-isolated-python] the body of
    [buildout_use_custom_python] runs on the parameter list as it is, and its
    [yield] is not protected: an exception of the body passes through with
    the state the body left, and neither the check of the build-tool
    executable nor the second bootstrap takes place. *)
Theorem isolated_python_scope_passes_failure {A} (arguments : Arguments) (body : M A)
    (s s1 : State) (e : Exn) :
  truthy (args_get_or_false arguments "--use-isolated-python") = true ->
  body s = (Raise e, s1) ->
  buildout_use_custom_python arguments body s = (Raise e, s1).
Proof.
  intros Hisolated Hbody. unfold buildout_use_custom_python.
  by rewrite Hisolated, bind_run, Hbody.
Qed.

End Failures.

Lemma isolated_python_scope_passes_failure_witness :
  @buildout_use_custom_python Reference.config_parser Reference.quiet unit
    (<["--use-isolated-python" := PyBool true]> scripts_command_line)
    (raise ExecutionError) Reference.project =
  (Raise ExecutionError, Reference.project).
Proof.
  exact (@isolated_python_scope_passes_failure Reference.config_parser Reference.quiet unit
           (<["--use-isolated-python" := PyBool true]> scripts_command_line)
           (raise ExecutionError) Reference.project Reference.project ExecutionError
           eq_refl eq_refl).
Defined.
